(** * The MPC controller cycle: a shallow embedding of mpc_controller.cpp

    The development follows the translation unit of
    [motion::control::mpc_controller::MpcController].

    Definitions:
    - [Cxx]: the integer conversions that the C++ expressions perform.  The
      platform is LP64: [std::size_t] is an unsigned 64-bit integer and the
      representation of [std::chrono::nanoseconds] a signed one; [Index] is
      the size type of the trajectory's points, [std::size_t].  An
      operation between a signed and an unsigned 64-bit operand is
      unsigned, also between the representations of two durations;
    - [Fp]: IEEE-754 values, binary32 for [Real] and binary64 for
      [AcadoReal], on the executable specification of the standard library;
    - the messages, the configuration and the solver's variables;
    - the member functions of the controller as transformers of its state,
      in the order of the source file; the functions that the translation
      unit calls and does not define are the fields of [Externals];
    - the weights as the specification describes them, and [Scenario], a
      concrete controller to run the functions on.

    Properties, by member function: command interpolation, the reference
    window and the cycle, acceptance of a trajectory, the weights of a
    receded horizon, and the application of a configuration. *)

From Stdlib Require Import String ZArith List Bool Lia QArith.
From Stdlib Require Import Floats.SpecFloat DecimalString.
From Stdlib Require DecimalZ DecimalPos.
Import ListNotations.

Local Open Scope Z_scope.

(* ------------------------------------------------------------------------- *)
(** ** Integer conversions *)

Module Cxx.

(** Conversion to [std::size_t] (and to any unsigned 64-bit representation):
    the value modulo [2^64]. *)
Definition to_u64 (z : Z) : Z := z mod 2 ^ 64.

(** Conversion of an unsigned 64-bit value to the signed 64-bit
    representation of [std::chrono::nanoseconds]. *)
Definition to_i64 (z : Z) : Z :=
  let m := z mod 2 ^ 64 in
  if m <? 2 ^ 63 then m else m - 2 ^ 64.

(** The values of a signed 64-bit integer.  Signed arithmetic is written
    with the operations of [Z]: it is the C++ result as long as the result
    stays in this range (outside it the C++ expression has no defined
    value), and the theorems that depend on it say so. *)
Definition in_i64 (z : Z) : Prop := - 2 ^ 63 <= z < 2 ^ 63.

Definition in_u64 (z : Z) : Prop := 0 <= z < 2 ^ 64.

End Cxx.

(* ------------------------------------------------------------------------- *)
(** ** Floating point *)

Module Fp.

(** [Real] is the 32-bit float of the message fields, [AcadoReal] the solver's
    [real_t], a 64-bit float.  Both are values of [spec_float]; the format
    only shows in the operations. *)
Definition Real := spec_float.
Definition AcadoReal := spec_float.

Definition prec32 : Z := 24.
Definition emax32 : Z := 128.
Definition prec64 : Z := 53.
Definition emax64 : Z := 1024.

Definition add32 : Real -> Real -> Real := SFadd prec32 emax32.
Definition sub32 : Real -> Real -> Real := SFsub prec32 emax32.
Definition mul32 : Real -> Real -> Real := SFmul prec32 emax32.
Definition div32 : Real -> Real -> Real := SFdiv prec32 emax32.

(** [static_cast<Real>(v)] of a 64-bit float: rounding to nearest even. *)
Definition real_of_acado (v : AcadoReal) : Real :=
  match v with
  | S754_finite s m e => binary_round prec32 emax32 s m e
  | _ => v
  end.

(** [static_cast<AcadoReal>(v)] of a 32-bit float (exact). *)
Definition acado_of_real (v : Real) : AcadoReal :=
  match v with
  | S754_finite s m e => binary_round prec64 emax64 s m e
  | _ => v
  end.

(** [static_cast<float>(n)] of a 64-bit integer. *)
Definition real_of_int (n : Z) : Real := binary_normalize prec32 emax32 n 0 false.

(** [AcadoReal{}], [Real{}]. *)
Definition zero : spec_float := S754_zero false.

(** [std::isfinite]. *)
Definition isfinite (v : spec_float) : bool :=
  match v with
  | S754_zero _ | S754_finite _ _ _ => true
  | S754_infinity _ | S754_nan => false
  end.

Definition one32 : Real := real_of_int 1.
Definition half32 : Real := div32 one32 (real_of_int 2).

(** [duration_cast<duration<float>>(d)] of a nanosecond count: the count is
    converted to [float] and divided by the [float] value of [10^9]. *)
Definition seconds_of_ns (d : Z) : Real :=
  div32 (real_of_int d) (real_of_int 1000000000).

End Fp.

Import Cxx Fp.

(* ------------------------------------------------------------------------- *)
(** ** Outcomes of a call *)

(** The exceptions of [<stdexcept>] that the controller raises, with their
    [what()] string. *)
Inductive exception : Type :=
| runtime_error (what : string)
| logic_error (what : string).

(** A call returns a value, leaves through an exception, or performs an
    access that C++ gives no meaning to (an array element outside its
    array). *)
Inductive Res (A : Type) : Type :=
| Returned (a : A)
| Thrown (e : exception)
| Undefined.

Arguments Returned {A} a.
Arguments Thrown {A} e.
Arguments Undefined {A}.

(** [std::to_string] of an [int]. *)
Definition to_string (z : Z) : string := NilZero.string_of_int (Z.to_int z).

(* ------------------------------------------------------------------------- *)
(** ** Messages *)

(** Time stamps and durations are the nanosecond counts that
    [time_utils::from_message] yields. *)
Record Heading : Type := { real : Real; imag : Real }.

Record Point : Type := {
  time_from_start : Z;
  pt_x : Real;
  pt_y : Real;
  heading : Heading;
  longitudinal_velocity_mps : Real;
  lateral_velocity_mps : Real;
  acceleration_mps2 : Real;
  heading_rate_rps : Real
}.

Record Trajectory : Type := {
  traj_stamp : Z;
  points : list Point
}.

Record State : Type := {
  state_stamp : Z;
  state : Point
}.

Record Command : Type := {
  stamp : Z;
  long_accel_mps2 : Real;
  front_wheel_angle_rad : Real;
  rear_wheel_angle_rad : Real;
  velocity_mps : Real
}.

(** [Command{MessageInitialization::ALL}]. *)
Definition Command_zero : Command :=
  {| stamp := 0; long_accel_mps2 := zero; front_wheel_angle_rad := zero;
     rear_wheel_angle_rad := zero; velocity_mps := zero |}.

(* ------------------------------------------------------------------------- *)
(** ** Arrays of the solver *)

Module Acado.

(** An element of an array, [None] outside the array. *)
Definition get {A : Type} (a : list A) (i : Z) : option A :=
  if i <? 0 then None else nth_error a (Z.to_nat i).

(** [a[i] = v].  The declared arrays hold every index the controller's loops
    write; an index outside the list leaves it as it is. *)
Fixpoint set_nat {A : Type} (a : list A) (i : nat) (v : A) : list A :=
  match a, i with
  | [], _ => []
  | _ :: r, O => v :: r
  | h :: r, S j => h :: set_nat r j v
  end.

Definition set {A : Type} (a : list A) (i : Z) (v : A) : list A :=
  if i <? 0 then a else set_nat a (Z.to_nat i) v.

End Acado.

(* ------------------------------------------------------------------------- *)
(** ** Constants of the generated solver *)

(** [static_assert(ACADO_NX == 4)], [static_assert(ACADO_NU == 2)],
    [static_assert(ACADO_NOD == 2U)]. *)
Definition ACADO_NX : Z := 4.
Definition ACADO_NU : Z := 2.
Definition ACADO_NOD : Z := 2.

Definition NX : Z := to_u64 ACADO_NX.
Definition IDX_X : Z := 0.
Definition IDX_Y : Z := 1.
Definition IDX_HEADING : Z := 2.
Definition IDX_VEL_LONG : Z := 3.
Definition NU : Z := to_u64 ACADO_NU.
Definition IDX_JERK : Z := 0.
Definition IDX_WHEEL_ANGLE_RATE : Z := 1.

(* ------------------------------------------------------------------------- *)
(** ** The controller *)

Section Mpc.

(** Types of the headers that the translation unit includes: the behaviour
    part of the configuration (used by the base class only), one block of
    optimisation weights, and the solver's private workspace. *)
Context {BehaviorConfig StateWeight ACADOworkspace : Type}.

(** [ACADO_N], the number of steps of the generated problem, and
    [MpcController::solver_time_step], in nanoseconds. *)
Variable ACADO_N : Z.
Variable solver_time_step : Z.

Definition HORIZON : Z := to_u64 ACADO_N.

(** *** Configuration *)

Record VehicleConfig : Type := {
  length_cg_front_axel : Real;
  length_cg_rear_axel : Real
}.

Record LimitValue : Type := { min : Real; max : Real }.

Record LimitsConfig : Type := {
  longitudinal_velocity : LimitValue;
  acceleration : LimitValue;
  steer_angle : LimitValue
}.

Record OptimizationConfig : Type := {
  nominal : StateWeight;
  terminal : StateWeight
}.

Record Config : Type := {
  behavior : BehaviorConfig;
  vehicle_param : VehicleConfig;
  limits : LimitsConfig;
  optimization_param : OptimizationConfig;
  do_interpolate : bool;
  control_lookahead_duration : Z;
  sample_period_tolerance : Z
}.

(** *** The solver's variables

    [x] holds [HORIZON + 1] states of [NX] entries, [u] holds [HORIZON]
    controls of [NU] entries, [od] the online data, [x0] the initial state,
    [lbValues]/[ubValues] the bounds of the controls and
    [lbAValues]/[ubAValues] those of the bounded state.  [y]/[yN] are the
    references and [W]/[WN] the weights: one block for each step of the
    horizon and one for its end. *)
Record ACADOvariables : Type := {
  x : list AcadoReal;
  u : list AcadoReal;
  od : list AcadoReal;
  y : list AcadoReal;
  yN : list AcadoReal;
  W : list StateWeight;
  WN : StateWeight;
  x0 : list AcadoReal;
  lbValues : list AcadoReal;
  ubValues : list AcadoReal;
  lbAValues : list AcadoReal;
  ubAValues : list AcadoReal
}.

(** *** Command interpolation *)

(** [motion_common::interpolate] is defined in another package. *)
Variable interpolate : Real -> Real -> Real -> Real.

(** [dt_] after the clamp.  [step * (HORIZON - 1U)] multiplies a signed
    count by a [std::size_t]: the product and the comparison [dt_ > max_dt]
    are unsigned, and the assignment converts [max_dt] back. *)
Definition interp_remaining (cfg : Config) (x0_time_offset : Z) : Z :=
  let step := solver_time_step in
  let dt_ := control_lookahead_duration cfg - x0_time_offset in
  let max_dt := to_u64 (to_u64 step * to_u64 (HORIZON - 1)) in
  if max_dt <? to_u64 dt_ then to_i64 max_dt else dt_.

(** [count]: [dt_ / step] truncates towards zero. *)
Definition interp_count (cfg : Config) (x0_time_offset : Z) : Z :=
  let step := solver_time_step in
  let dt_ := interp_remaining cfg x0_time_offset in
  Z.min (Z.quot dt_ step) (to_i64 (to_u64 (HORIZON - 2))).

(** [dt], the time after sample [count]. *)
Definition interp_dt (cfg : Config) (x0_time_offset : Z) : Z :=
  let step := solver_time_step in
  interp_remaining cfg x0_time_offset - interp_count cfg x0_time_offset * step.

(** [t], the interpolation parameter, a quotient of two [duration<float>]. *)
Definition interp_t (cfg : Config) (x0_time_offset : Z) : Real :=
  div32 (seconds_of_ns (interp_dt cfg x0_time_offset)) (seconds_of_ns solver_time_step).

(** The value of [(remaining - count * step) / step] that [t] rounds. *)
Definition interp_fraction (cfg : Config) (x0_time_offset : Z) : Q :=
  Qmake (interp_dt cfg x0_time_offset) (Z.to_pos solver_time_step).

Definition interpolation_failed : exception :=
  runtime_error "interpolation failed, result is not finite (NaN/Inf)".

(** [MpcController::interpolated_command].  [idx] is a signed 64-bit value;
    in [(idx * NX) + IDX_VEL_LONG] it is converted to [std::size_t]. *)
Definition interpolated_command (cfg : Config) (vars : ACADOvariables)
    (x0_time_offset : Z) : Res Command :=
  let count := interp_count cfg x0_time_offset in
  let t := interp_t cfg x0_time_offset in
  let idx := count * ACADO_NU in
  let jdx := (count + 1) * ACADO_NU in
  match Acado.get (u vars) (idx + IDX_JERK),
        Acado.get (u vars) (idx + IDX_WHEEL_ANGLE_RATE),
        Acado.get (u vars) (jdx + IDX_JERK),
        Acado.get (u vars) (jdx + IDX_WHEEL_ANGLE_RATE),
        Acado.get (x vars) (to_u64 (to_u64 (to_u64 idx * NX) + IDX_VEL_LONG)) with
  | Some u_long0, Some u_lat0, Some u_long1, Some u_lat1, Some x_vel =>
      let longitudinal0 := real_of_acado u_long0 in
      let lateral0 := real_of_acado u_lat0 in
      let longitudinal1 := real_of_acado u_long1 in
      let lateral1 := real_of_acado u_lat1 in
      let ret :=
        {| stamp := stamp Command_zero;
           long_accel_mps2 := interpolate longitudinal0 longitudinal1 t;
           front_wheel_angle_rad := interpolate lateral0 lateral1 t;
           rear_wheel_angle_rad := zero;
           velocity_mps := real_of_acado x_vel |} in
      if negb (isfinite (long_accel_mps2 ret)) || negb (isfinite (front_wheel_angle_rad ret))
      then Thrown interpolation_failed
      else Returned ret
  | _, _, _, _, _ => Undefined
  end.

(** *** State of the controller

    The members of [MpcController] and of its base class that the functions
    below use, and the two global objects of the generated solver. *)
Record Controller : Type := {
  m_config : Config;
  base_config : BehaviorConfig;
  reference_trajectory : Trajectory;
  current_state_temporal_index : Z;
  m_interpolated_trajectory : option Trajectory;
  m_last_reference_index : Z;
  acadoVariables : ACADOvariables;
  acadoWorkspace : ACADOworkspace
}.

Definition with_config (cfg : Config) (c : Controller) : Controller :=
  {| m_config := cfg; base_config := base_config c;
     reference_trajectory := reference_trajectory c;
     current_state_temporal_index := current_state_temporal_index c;
     m_interpolated_trajectory := m_interpolated_trajectory c;
     m_last_reference_index := m_last_reference_index c;
     acadoVariables := acadoVariables c; acadoWorkspace := acadoWorkspace c |}.

Definition with_base_config (b : BehaviorConfig) (c : Controller) : Controller :=
  {| m_config := m_config c; base_config := b;
     reference_trajectory := reference_trajectory c;
     current_state_temporal_index := current_state_temporal_index c;
     m_interpolated_trajectory := m_interpolated_trajectory c;
     m_last_reference_index := m_last_reference_index c;
     acadoVariables := acadoVariables c; acadoWorkspace := acadoWorkspace c |}.

Definition with_last_reference_index (i : Z) (c : Controller) : Controller :=
  {| m_config := m_config c; base_config := base_config c;
     reference_trajectory := reference_trajectory c;
     current_state_temporal_index := current_state_temporal_index c;
     m_interpolated_trajectory := m_interpolated_trajectory c;
     m_last_reference_index := i;
     acadoVariables := acadoVariables c; acadoWorkspace := acadoWorkspace c |}.

Definition with_solver (v : ACADOvariables) (w : ACADOworkspace) (c : Controller)
    : Controller :=
  {| m_config := m_config c; base_config := base_config c;
     reference_trajectory := reference_trajectory c;
     current_state_temporal_index := current_state_temporal_index c;
     m_interpolated_trajectory := m_interpolated_trajectory c;
     m_last_reference_index := m_last_reference_index c;
     acadoVariables := v; acadoWorkspace := w |}.

Definition with_variables (v : ACADOvariables) (c : Controller) : Controller :=
  with_solver v (acadoWorkspace c) c.

(** A member function: it transforms the controller and returns, throws or
    is undefined.  What it did to the controller before an exception left
    it stays done. *)
Definition M (A : Type) : Type := Controller -> Controller * Res A.

Definition ret {A : Type} (a : A) : M A := fun c => (c, Returned a).

Definition bind {A B : Type} (m : M A) (k : A -> M B) : M B :=
  fun c =>
    match m c with
    | (c1, Returned a) => k a c1
    | (c1, Thrown e) => (c1, Thrown e)
    | (c1, Undefined) => (c1, Undefined)
    end.

Definition throw {A : Type} (e : exception) : M A := fun c => (c, Thrown e).

Definition gets {A : Type} (f : Controller -> A) : M A := fun c => (c, Returned (f c)).

Definition modify (f : Controller -> Controller) : M unit := fun c => (f c, Returned tt).

Definition lift {A : Type} (f : Controller -> Res A) : M A := fun c => (c, f c).

Notation "x <- m ;; k" := (bind m (fun x => k))
  (at level 61, m at next level, right associativity).
Notation "m ;;; k" := (bind m (fun _ => k))
  (at level 61, right associativity).

(** A member function that leaves [m_last_reference_index] as it is,
    however it ends. *)
Definition keeps_last_reference_index {A : Type} (m : M A) : Prop :=
  forall c, m_last_reference_index (fst (m c)) = m_last_reference_index c.

(** Two states of the controller with the same configuration, base
    configuration, reference trajectory, index of the current state and
    interpolated trajectory: they differ in [m_last_reference_index] and in
    the solver's objects at most. *)
Definition same_members (c c' : Controller) : Prop :=
  m_config c' = m_config c
  /\ base_config c' = base_config c
  /\ reference_trajectory c' = reference_trajectory c
  /\ current_state_temporal_index c' = current_state_temporal_index c
  /\ m_interpolated_trajectory c' = m_interpolated_trajectory c.

(** A member function that leaves these members as they are, however it
    ends. *)
Definition keeps_members {A : Type} (m : M A) : Prop :=
  forall c, same_members c (fst (m c)).

(** A function of another translation unit, called on the controller: it
    reads the controller and leaves the solver's objects in a new state. *)
Definition Extern (A : Type) : Type :=
  Controller -> ACADOvariables * ACADOworkspace * Res A.

Definition call {A : Type} (f : Extern A) : M A :=
  fun c => let '(v, w, r) := f c in (with_solver v w c, r).

(** The member functions of [MpcController] and the functions of the
    generated solver and of [motion_common] that this translation unit
    calls and does not define. *)
Record Externals : Type := {
  predict : Point -> Z -> Extern Point;
  to_angle : Heading -> Real;
  advance_problem : Z -> Extern unit;
  backfill_reference : Z -> Extern unit;
  apply_terminal_weights : Z -> Extern unit;
  zero_nominal_weights : Z -> Z -> Extern unit;
  zero_terminal_weights : Extern unit;
  ensure_reference_consistency : Z -> Extern bool;
  apply_weights : OptimizationConfig -> Extern unit;
  acado_initializeSolver : Extern Z;
  acado_initializeNodesByForwardSimulation : Extern unit;
  acado_preparationStep : Extern Z;
  acado_feedbackStep : Extern Z
}.

Variable ext : Externals.

(** *** Loops over the horizon *)

(** [for (i = start; ...; ++i) body], [n] iterations. *)
Fixpoint for_range {S : Type} (n : nat) (i : Z) (body : Z -> S -> S) (s : S) : S :=
  match n with
  | O => s
  | S k => for_range k (i + 1) body (body i s)
  end.

(** [std::fill(&a[first], &a[last], v)]. *)
Definition fill {A : Type} (a : list A) (first last : Z) (v : A) : list A :=
  for_range (Z.to_nat (last - first)) first (fun i l => Acado.set l i v) a.

Definition with_u (l : list AcadoReal) (v : ACADOvariables) : ACADOvariables :=
  {| x := x v; u := l; od := od v; y := y v; yN := yN v; W := W v; WN := WN v;
     x0 := x0 v; lbValues := lbValues v; ubValues := ubValues v;
     lbAValues := lbAValues v; ubAValues := ubAValues v |}.

Definition with_x (l : list AcadoReal) (v : ACADOvariables) : ACADOvariables :=
  {| x := l; u := u v; od := od v; y := y v; yN := yN v; W := W v; WN := WN v;
     x0 := x0 v; lbValues := lbValues v; ubValues := ubValues v;
     lbAValues := lbAValues v; ubAValues := ubAValues v |}.

Definition with_x0 (l : list AcadoReal) (v : ACADOvariables) : ACADOvariables :=
  {| x := x v; u := u v; od := od v; y := y v; yN := yN v; W := W v; WN := WN v;
     x0 := l; lbValues := lbValues v; ubValues := ubValues v;
     lbAValues := lbAValues v; ubAValues := ubAValues v |}.

Definition with_od (l : list AcadoReal) (v : ACADOvariables) : ACADOvariables :=
  {| x := x v; u := u v; od := l; y := y v; yN := yN v; W := W v; WN := WN v;
     x0 := x0 v; lbValues := lbValues v; ubValues := ubValues v;
     lbAValues := lbAValues v; ubAValues := ubAValues v |}.

Definition with_lbValues (l : list AcadoReal) (v : ACADOvariables) : ACADOvariables :=
  {| x := x v; u := u v; od := od v; y := y v; yN := yN v; W := W v; WN := WN v;
     x0 := x0 v; lbValues := l; ubValues := ubValues v;
     lbAValues := lbAValues v; ubAValues := ubAValues v |}.

Definition with_ubValues (l : list AcadoReal) (v : ACADOvariables) : ACADOvariables :=
  {| x := x v; u := u v; od := od v; y := y v; yN := yN v; W := W v; WN := WN v;
     x0 := x0 v; lbValues := lbValues v; ubValues := l;
     lbAValues := lbAValues v; ubAValues := ubAValues v |}.

Definition with_lbAValues (l : list AcadoReal) (v : ACADOvariables) : ACADOvariables :=
  {| x := x v; u := u v; od := od v; y := y v; yN := yN v; W := W v; WN := WN v;
     x0 := x0 v; lbValues := lbValues v; ubValues := ubValues v;
     lbAValues := l; ubAValues := ubAValues v |}.

Definition with_ubAValues (l : list AcadoReal) (v : ACADOvariables) : ACADOvariables :=
  {| x := x v; u := u v; od := od v; y := y v; yN := yN v; W := W v; WN := WN v;
     x0 := x0 v; lbValues := lbValues v; ubValues := ubValues v;
     lbAValues := lbAValues v; ubAValues := l |}.

Definition with_W (l : list StateWeight) (v : ACADOvariables) : ACADOvariables :=
  {| x := x v; u := u v; od := od v; y := y v; yN := yN v; W := l; WN := WN v;
     x0 := x0 v; lbValues := lbValues v; ubValues := ubValues v;
     lbAValues := lbAValues v; ubAValues := ubAValues v |}.

Definition with_WN (w : StateWeight) (v : ACADOvariables) : ACADOvariables :=
  {| x := x v; u := u v; od := od v; y := y v; yN := yN v; W := W v; WN := w;
     x0 := x0 v; lbValues := lbValues v; ubValues := ubValues v;
     lbAValues := lbAValues v; ubAValues := ubAValues v |}.

(** One assignment to an element of the bounds, of the online data or of
    the weights, and a sequence of them in order. *)
Inductive assignment : Type :=
| set_od (i : Z) (v : AcadoReal)
| set_lbValues (i : Z) (v : AcadoReal)
| set_ubValues (i : Z) (v : AcadoReal)
| set_lbAValues (i : Z) (v : AcadoReal)
| set_ubAValues (i : Z) (v : AcadoReal)
| set_W (i : Z) (w : StateWeight)
| set_WN (w : StateWeight).

Definition assign (a : assignment) (v : ACADOvariables) : ACADOvariables :=
  match a with
  | set_od i r => with_od (Acado.set (od v) i r) v
  | set_lbValues i r => with_lbValues (Acado.set (lbValues v) i r) v
  | set_ubValues i r => with_ubValues (Acado.set (ubValues v) i r) v
  | set_lbAValues i r => with_lbAValues (Acado.set (lbAValues v) i r) v
  | set_ubAValues i r => with_ubAValues (Acado.set (ubAValues v) i r) v
  | set_W i w => with_W (Acado.set (W v) i w) v
  | set_WN w => with_WN w v
  end.

Definition assign_all (l : list assignment) (v : ACADOvariables) : ACADOvariables :=
  fold_left (fun v a => assign a v) l v.

(** The assignments of [n] iterations of a loop from index [i], [f] giving
    those of one iteration. *)
Fixpoint collect (n : nat) (i : Z) (f : Z -> list assignment) : list assignment :=
  match n with
  | O => []
  | S k => f i ++ collect k (i + 1) f
  end.

(** *** Member functions, in the order of the source *)

(** [MpcController::apply_parameters]. *)
Definition apply_parameters (cfg : VehicleConfig) (v : ACADOvariables) : ACADOvariables :=
  for_range (Z.to_nat HORIZON) 0
    (fun i v =>
       let idx := to_u64 (i * ACADO_NOD) in
       let idx_Lf := 0 in
       let idx_Lr := 1 in
       let v := with_od (Acado.set (od v) (to_u64 (idx + idx_Lf))
                           (acado_of_real (length_cg_front_axel cfg))) v in
       with_od (Acado.set (od v) (to_u64 (idx + idx_Lr))
                  (acado_of_real (length_cg_rear_axel cfg))) v)
    v.

(** [MpcController::apply_bounds]. *)
Definition apply_bounds (cfg : LimitsConfig) (v : ACADOvariables) : ACADOvariables :=
  let NUM_CTRL_CONSTRAINTS := 2 in
  let NUM_STATE_CONSTRAINTS := 1 in
  for_range (Z.to_nat HORIZON) 0
    (fun i v =>
       let v :=
         let idx := to_u64 (i * NUM_CTRL_CONSTRAINTS) in
         let idx_ax := 0 in
         let idx_delta := 1 in
         let v := with_lbValues (Acado.set (lbValues v) (to_u64 (idx + idx_ax))
                                   (acado_of_real (min (acceleration cfg)))) v in
         let v := with_ubValues (Acado.set (ubValues v) (to_u64 (idx + idx_ax))
                                   (acado_of_real (max (acceleration cfg)))) v in
         let v := with_lbValues (Acado.set (lbValues v) (to_u64 (idx + idx_delta))
                                   (acado_of_real (min (steer_angle cfg)))) v in
         with_ubValues (Acado.set (ubValues v) (to_u64 (idx + idx_delta))
                          (acado_of_real (max (steer_angle cfg)))) v in
       let idx := to_u64 (i * NUM_STATE_CONSTRAINTS) in
       let idx_u := 0 in
       let v := with_lbAValues (Acado.set (lbAValues v) (to_u64 (idx + idx_u))
                                  (acado_of_real (min (longitudinal_velocity cfg)))) v in
       with_ubAValues (Acado.set (ubAValues v) (to_u64 (idx + idx_u))
                         (acado_of_real (max (longitudinal_velocity cfg)))) v)
    v.

(** [MpcController::apply_config]. *)
Definition apply_config (cfg : Config) : M unit :=
  modify (fun c => with_variables (apply_parameters (vehicle_param cfg) (acadoVariables c)) c) ;;;
  modify (fun c => with_variables (apply_bounds (limits cfg) (acadoVariables c)) c) ;;;
  call (apply_weights ext (optimization_param cfg)).

(** [MpcController::MpcController], on the solver's objects as they are
    when the constructor runs.  The base class starts without a reference
    trajectory. *)
Definition MpcController (config : Config) (v0 : ACADOvariables) (w0 : ACADOworkspace)
    : Controller * Res unit :=
  let c :=
    {| m_config := config; base_config := behavior config;
       reference_trajectory := {| traj_stamp := 0; points := [] |};
       current_state_temporal_index := 0;
       m_interpolated_trajectory :=
         if do_interpolate config then Some {| traj_stamp := 0; points := [] |} else None;
       m_last_reference_index := 0;
       acadoVariables := v0; acadoWorkspace := w0 |} in
  (call (acado_initializeSolver ext) ;;; apply_config (m_config c)) c.

(** [MpcController::get_config]. *)
Definition get_config (c : Controller) : Config := m_config c.

(** [MpcController::set_config]. *)
Definition set_config (config : Config) : M unit :=
  modify (with_config config) ;;;
  (cfg <- gets m_config ;;
   modify (with_base_config (behavior cfg)) ;;;
   apply_config cfg).

(** [MpcController::solve]. *)
Definition solve : M unit :=
  prep_ret <- call (acado_preparationStep ext) ;;
  if negb (0 =? prep_ret)
  then throw (runtime_error ("Solver preparation error: " ++ to_string prep_ret))
  else
    (solve_ret <- call (acado_feedbackStep ext) ;;
     if negb (0 =? solve_ret)
     then throw (runtime_error ("Solver error: " ++ to_string solve_ret))
     else ret tt).

(** The two ways in which a phase of the solver fails in state [c1]: the
    preparation step returns a status other than [0], or it returns [0] and
    the feedback step returns another status.  [c2] is the state that the
    failing phase leaves and [e] the exception of [solve]. *)
Definition solver_phase_fails (c1 c2 : Controller) (e : exception) : Prop :=
  (exists prep_ret,
      call (acado_preparationStep ext) c1 = (c2, Returned prep_ret)
      /\ prep_ret <> 0
      /\ e = runtime_error ("Solver preparation error: " ++ to_string prep_ret))
  \/ (exists c solve_ret,
         call (acado_preparationStep ext) c1 = (c, Returned 0)
         /\ call (acado_feedbackStep ext) c = (c2, Returned solve_ret)
         /\ solve_ret <> 0
         /\ e = runtime_error ("Solver error: " ++ to_string solve_ret)).

(** [MpcController::update_references].  [Index] is [std::size_t]: the two
    differences are unsigned. *)
Definition update_references (current_idx : Z) : M bool :=
  let cold_start := 0 =? current_idx in
  if negb cold_start
  then
    (last <- gets m_last_reference_index ;;
     let advance_idx := to_u64 (current_idx - last) in
     call (advance_problem ext advance_idx) ;;;
     (max_pts <- gets (fun c => Z.of_nat (length (points (reference_trajectory c)))) ;;
      (if HORIZON <=? to_u64 (max_pts - current_idx)
       then call (backfill_reference ext advance_idx)
       else
         let receded_horizon := to_u64 (max_pts - current_idx) in
         call (apply_terminal_weights ext (to_u64 (receded_horizon - 1))) ;;;
         call (zero_nominal_weights ext receded_horizon
                 (to_u64 (receded_horizon + advance_idx))) ;;;
         call (zero_terminal_weights ext)) ;;;
      modify (with_last_reference_index current_idx) ;;;
      ret cold_start))
  else ret cold_start.

(** [MpcController::initial_conditions]. *)
Definition initial_conditions (p : Point) : M unit :=
  modify (fun c =>
    let v := acadoVariables c in
    let v := with_x0 (Acado.set (x0 v) IDX_X (acado_of_real (pt_x p))) v in
    let v := with_x0 (Acado.set (x0 v) IDX_Y (acado_of_real (pt_y p))) v in
    let v := with_x0 (Acado.set (x0 v) IDX_HEADING
                        (acado_of_real (to_angle ext (heading p)))) v in
    let v := with_x0 (Acado.set (x0 v) IDX_VEL_LONG
                        (acado_of_real (longitudinal_velocity_mps p))) v in
    with_variables v c) ;;;
  (r <- lift (fun c =>
          let v := acadoVariables c in
          match Acado.get (x0 v) IDX_X, Acado.get (x0 v) IDX_Y,
                Acado.get (x0 v) IDX_HEADING, Acado.get (x0 v) IDX_VEL_LONG with
          | Some a, Some b, Some h, Some vl => Returned (a, b, h, vl)
          | _, _, _, _ => Undefined
          end) ;;
   let '(a, b, h, vl) := r in
   modify (fun c =>
     let v := acadoVariables c in
     let v := with_x (Acado.set (x v) IDX_X a) v in
     let v := with_x (Acado.set (x v) IDX_Y b) v in
     let v := with_x (Acado.set (x v) IDX_HEADING h) v in
     let v := with_x (Acado.set (x v) IDX_VEL_LONG vl) v in
     with_variables v c)).

(** [MpcController::x0_time_offset]. *)
Definition x0_time_offset (st : State) (idx : Z) : M Z :=
  lift (fun c =>
    let traj := reference_trajectory c in
    match Acado.get (points traj) idx with
    | Some p =>
        let t0 := traj_stamp traj + time_from_start p in
        let dt := t0 - state_stamp st in
        Returned dt
    | None => Undefined
    end).

(** [MpcController::compute_command_impl]. *)
Definition compute_command_impl (st : State) : M Command :=
  current_idx <- gets current_state_temporal_index ;;
  cold_start <- update_references current_idx ;;
  dt <- x0_time_offset st current_idx ;;
  p <- call (predict ext (state st) dt) ;;
  initial_conditions p ;;;
  (max_pts <- gets (fun c => Z.of_nat (length (points (reference_trajectory c)))) ;;
   let horizon := Z.min (to_u64 (max_pts - current_idx)) HORIZON in
   consistency <- call (ensure_reference_consistency ext horizon) ;;
   let cold_start := consistency || cold_start in
   (if cold_start
    then
      modify (fun c =>
        let v := acadoVariables c in
        with_variables (with_u (fill (u v) 0 (to_u64 (HORIZON * NU)) zero) v) c) ;;;
      call (acado_initializeNodesByForwardSimulation ext)
    else ret tt) ;;;
   solve ;;;
   (cfg <- gets get_config ;;
    lift (fun c => interpolated_command cfg (acadoVariables c) dt))).

(** The statements of [compute_command_impl] that precede the call of
    [solve]; the value is [dt]. *)
Definition until_solve (st : State) : M Z :=
  current_idx <- gets current_state_temporal_index ;;
  cold_start <- update_references current_idx ;;
  dt <- x0_time_offset st current_idx ;;
  p <- call (predict ext (state st) dt) ;;
  initial_conditions p ;;;
  (max_pts <- gets (fun c => Z.of_nat (length (points (reference_trajectory c)))) ;;
   let horizon := Z.min (to_u64 (max_pts - current_idx)) HORIZON in
   consistency <- call (ensure_reference_consistency ext horizon) ;;
   let cold_start := consistency || cold_start in
   (if cold_start
    then
      modify (fun c =>
        let v := acadoVariables c in
        with_variables (with_u (fill (u v) 0 (to_u64 (HORIZON * NU)) zero) v) c) ;;;
      call (acado_initializeNodesByForwardSimulation ext)
    else ret tt) ;;;
   ret dt).

(** The statements of [compute_command_impl] between the call of
    [update_references] and that of [solve], for the index of the cycle
    and the value that [update_references] returned; the value is [dt]. *)
Definition from_references_to_solve (st : State) (current_idx : Z) (cold_start : bool)
    : M Z :=
  dt <- x0_time_offset st current_idx ;;
  p <- call (predict ext (state st) dt) ;;
  initial_conditions p ;;;
  (max_pts <- gets (fun c => Z.of_nat (length (points (reference_trajectory c)))) ;;
   let horizon := Z.min (to_u64 (max_pts - current_idx)) HORIZON in
   consistency <- call (ensure_reference_consistency ext horizon) ;;
   let cold_start := consistency || cold_start in
   (if cold_start
    then
      modify (fun c =>
        let v := acadoVariables c in
        with_variables (with_u (fill (u v) 0 (to_u64 (HORIZON * NU)) zero) v) c) ;;;
      call (acado_initializeNodesByForwardSimulation ext)
    else ret tt) ;;;
   ret dt).

(** The reference window of a warm cycle, rolled forward from [c] to [c0]:
    [advance_problem] ran on [c] with the advance of the index and
    returned; on what it left, [backfill_reference] ran and returned when
    at least [HORIZON] points remain, and otherwise
    [apply_terminal_weights], [zero_nominal_weights] and
    [zero_terminal_weights] did, each on what the one before left; [c0] is
    the state after the last of them, with [current_idx] recorded in
    [m_last_reference_index]. *)
Definition reference_window_committed (current_idx : Z) (c c0 : Controller) : Prop :=
  let advance_idx := to_u64 (current_idx - m_last_reference_index c) in
  exists advanced pruned : Controller,
    call (advance_problem ext advance_idx) c = (advanced, Returned tt)
    /\ (let max_pts := Z.of_nat (length (points (reference_trajectory advanced))) in
        if HORIZON <=? to_u64 (max_pts - current_idx)
        then call (backfill_reference ext advance_idx) advanced = (pruned, Returned tt)
        else
          let receded_horizon := to_u64 (max_pts - current_idx) in
          exists c1 c2 : Controller,
            call (apply_terminal_weights ext (to_u64 (receded_horizon - 1))) advanced
            = (c1, Returned tt)
            /\ call (zero_nominal_weights ext receded_horizon
                       (to_u64 (receded_horizon + advance_idx))) c1
               = (c2, Returned tt)
            /\ call (zero_terminal_weights ext) c2 = (pruned, Returned tt))
    /\ c0 = with_last_reference_index current_idx pruned.

(** *** Successive cycles *)

(** The indices do not decrease, from [prev] on. *)
Fixpoint non_decreasing (prev : Z) (idxs : list Z) : Prop :=
  match idxs with
  | [] => True
  | idx :: rest => prev <= idx /\ non_decreasing idx rest
  end.

(** The value of [m_last_reference_index] after each of the successive
    calls of [update_references] with the indices [idxs]; [between] is what
    the rest of a cycle does to the controller before the next call.  [None]
    when one of the calls does not return. *)
Fixpoint reference_cycles (between : Z -> Controller -> Controller) (idxs : list Z)
    (c : Controller) : option (list Z) :=
  match idxs with
  | [] => Some []
  | idx :: rest =>
      match update_references idx c with
      | (c1, Returned _) =>
          option_map (cons (m_last_reference_index c1))
            (reference_cycles between rest (between idx c1))
      | (_, _) => None
      end
  end.

(** *** The assignments of a configuration *)

(** Those of the loop of [apply_parameters]. *)
Definition parameters_assignments (cfg : VehicleConfig) : list assignment :=
  collect (Z.to_nat HORIZON) 0
    (fun i =>
       let idx := to_u64 (i * ACADO_NOD) in
       [set_od (to_u64 (idx + 0)) (acado_of_real (length_cg_front_axel cfg));
        set_od (to_u64 (idx + 1)) (acado_of_real (length_cg_rear_axel cfg))]).

(** Those of the loop of [apply_bounds]. *)
Definition bounds_assignments (cfg : LimitsConfig) : list assignment :=
  collect (Z.to_nat HORIZON) 0
    (fun i =>
       let idx := to_u64 (i * 2) in
       let jdx := to_u64 (i * 1) in
       [set_lbValues (to_u64 (idx + 0)) (acado_of_real (min (acceleration cfg)));
        set_ubValues (to_u64 (idx + 0)) (acado_of_real (max (acceleration cfg)));
        set_lbValues (to_u64 (idx + 1)) (acado_of_real (min (steer_angle cfg)));
        set_ubValues (to_u64 (idx + 1)) (acado_of_real (max (steer_angle cfg)));
        set_lbAValues (to_u64 (jdx + 0)) (acado_of_real (min (longitudinal_velocity cfg)));
        set_ubAValues (to_u64 (jdx + 0)) (acado_of_real (max (longitudinal_velocity cfg)))]).

(** Those of the weights of the specification. *)
Definition weights_assignments (cfg : OptimizationConfig) : list assignment :=
  collect (Z.to_nat (HORIZON - 0)) 0 (fun i => [set_W i (nominal cfg)])
  ++ [set_WN (terminal cfg)].

Definition config_assignments (cfg : Config) : list assignment :=
  parameters_assignments (vehicle_param cfg)
  ++ bounds_assignments (limits cfg)
  ++ weights_assignments (optimization_param cfg).

(** *** Acceptance of a new trajectory *)

(** Modelled from the spec: [motion_common::heading_ok] is defined in
    another package; the validator "rejects if any heading value is not a
    valid normalized 2D orientation encoding".  [heading_valid] is that
    validity of one heading. *)
Variable heading_valid : Heading -> bool.

Definition heading_ok (trajectory : Trajectory) : bool :=
  forallb (fun pt => heading_valid (heading pt)) (points trajectory).

(** The loop of [check_new_trajectory] from index [idx] on, over the points
    that remain.  [idx * solver_time_step] multiplies a [std::size_t] by a
    signed count: [ref], [ub] and [lb] are unsigned, and so are the two
    comparisons with [t]. *)
Fixpoint check_points (cfg : Config) (t0 : Z) (idx : Z) (pts : list Point) : bool :=
  match pts with
  | [] => true
  | pt :: rest =>
      let ref := to_u64 (to_u64 (to_u64 idx * to_u64 solver_time_step) + t0) in
      let dt := sample_period_tolerance cfg in
      let ub := to_u64 (ref + dt) in
      let lb := to_u64 (ref - dt) in
      let t := time_from_start pt + t0 in
      if (to_u64 t <? lb) || (ub <? to_u64 t)
      then false
      else check_points cfg t0 (to_u64 (idx + 1)) rest
  end.

(** [MpcController::check_new_trajectory]. *)
Definition check_new_trajectory (cfg : Config) (trajectory : Trajectory) : bool :=
  if negb (heading_ok trajectory) then false
  else if do_interpolate cfg then true
  else check_points cfg (traj_stamp trajectory) 0 (points trajectory).

(** The time stamps are nanosecond counts since the epoch that the unsigned
    arithmetic of the loop does not wrap: the tolerance is not negative and
    not above the trajectory's stamp, every point's absolute time is a
    non-negative signed count, and so is the latest bound that is compared
    with. *)
Definition stamps_in_range (cfg : Config) (t0 : Z) (idx : Z) (pts : list Point) : Prop :=
  0 <= solver_time_step
  /\ 0 <= sample_period_tolerance cfg <= t0
  /\ 0 <= idx
  /\ idx + Z.of_nat (length pts) < 2 ^ 63
  /\ t0 + (idx + Z.of_nat (length pts)) * solver_time_step + sample_period_tolerance cfg
     < 2 ^ 63
  /\ forall pt, In pt pts -> 0 <= time_from_start pt + t0 < 2 ^ 63.

(** The point at index [idx] is within the tolerance of its nominal time. *)
Definition within_tolerance (cfg : Config) (t0 : Z) (idx : Z) (pt : Point) : Prop :=
  Z.abs ((t0 + time_from_start pt) - (idx * solver_time_step + t0))
  <= sample_period_tolerance cfg.

(** *** The weights, from the specification *)

Variable zero_weight : StateWeight.

(** Modelled from the spec: [apply_terminal_weights] is not in this
    translation unit; it "appl[ies] terminal weights to the index" given,
    one of the per-step blocks. *)
Definition spec_apply_terminal_weights (idx : Z) : Extern unit :=
  fun c =>
    let v := acadoVariables c in
    (with_W (Acado.set (W v) idx (terminal (optimization_param (m_config c)))) v,
     acadoWorkspace c, Returned tt).

(** Modelled from the spec: [zero_nominal_weights] is not in this
    translation unit; it "zero[es] the ordinary (nominal) weights for the
    range" from [first] up to and without [last], within the horizon. *)
Definition spec_zero_nominal_weights (first last : Z) : Extern unit :=
  fun c =>
    let v := acadoVariables c in
    (with_W (fill (W v) first (Z.min last HORIZON) zero_weight) v,
     acadoWorkspace c, Returned tt).

(** Modelled from the spec: [zero_terminal_weights] is not in this
    translation unit; it zeroes the terminal weight "applied to the final
    horizon step", the block at the end of the horizon. *)
Definition spec_zero_terminal_weights : Extern unit :=
  fun c =>
    let v := acadoVariables c in
    (with_WN zero_weight v, acadoWorkspace c, Returned tt).

(** Modelled from the spec: [apply_weights] is not in this translation
    unit; the applier is "pure data transcription" that "overwrites solver
    workspace arrays in place": the nominal weights go to every step of the
    horizon and the terminal weights to its end. *)
Definition spec_apply_weights (cfg : OptimizationConfig) : Extern unit :=
  fun c =>
    let v := acadoVariables c in
    (with_WN (terminal cfg) (with_W (fill (W v) 0 HORIZON (nominal cfg)) v),
     acadoWorkspace c, Returned tt).

(** The functions of the other translation units, with the weights as the
    specification describes them. *)
Definition with_spec_weights (e : Externals) : Externals :=
  {| predict := predict e;
     to_angle := to_angle e;
     advance_problem := advance_problem e;
     backfill_reference := backfill_reference e;
     apply_terminal_weights := spec_apply_terminal_weights;
     zero_nominal_weights := spec_zero_nominal_weights;
     zero_terminal_weights := spec_zero_terminal_weights;
     ensure_reference_consistency := ensure_reference_consistency e;
     apply_weights := spec_apply_weights;
     acado_initializeSolver := acado_initializeSolver e;
     acado_initializeNodesByForwardSimulation := acado_initializeNodesByForwardSimulation e;
     acado_preparationStep := acado_preparationStep e;
     acado_feedbackStep := acado_feedbackStep e |}.

(** *** The computed trajectory *)

(** [motion_common::from_angle] is defined in another package, and the
    default point of a trajectory in the message's header. *)
Variable from_angle : Real -> Heading.
Variable TrajectoryPoint_default : Point.

(** [v.resize(n)]: the first [n] elements, then default ones up to [n]. *)
Definition resize {A : Type} (l : list A) (n : nat) (d : A) : list A :=
  firstn n l ++ repeat d (n - length l).

(** The body of the loop of [get_computed_trajectory] at index [i], on the
    point [pt] that the trajectory holds there: every field but
    [time_from_start] is assigned. *)
Definition computed_point (v : ACADOvariables) (i : Z) (pt : Point) : Res Point :=
  let idx := to_u64 (NX * i) in
  let jdx := to_u64 (NU * i) in
  match Acado.get (x v) (to_u64 (idx + IDX_X)),
        Acado.get (x v) (to_u64 (idx + IDX_Y)),
        Acado.get (x v) (to_u64 (idx + IDX_VEL_LONG)),
        Acado.get (x v) (to_u64 (idx + IDX_HEADING)),
        Acado.get (u v) (to_u64 (jdx + IDX_JERK)),
        Acado.get (u v) (to_u64 (jdx + IDX_WHEEL_ANGLE_RATE)) with
  | Some s_x, Some s_y, Some s_vel, Some s_heading, Some u_jerk, Some u_rate =>
      Returned
        {| time_from_start := time_from_start pt;
           pt_x := real_of_acado s_x;
           pt_y := real_of_acado s_y;
           heading := from_angle (real_of_acado s_heading);
           longitudinal_velocity_mps := real_of_acado s_vel;
           lateral_velocity_mps := zero;
           acceleration_mps2 := real_of_acado u_jerk;
           heading_rate_rps := real_of_acado u_rate |}
  | _, _, _, _, _, _ => Undefined
  end.

(** The loop from index [i] on, over the points that remain. *)
Fixpoint computed_points (v : ACADOvariables) (i : Z) (pts : list Point)
    : Res (list Point) :=
  match pts with
  | [] => Returned []
  | pt :: rest =>
      match computed_point v i pt with
      | Returned p =>
          match computed_points v (to_u64 (i + 1)) rest with
          | Returned l => Returned (p :: l)
          | Thrown e => Thrown e
          | Undefined => Undefined
          end
      | Thrown e => Thrown e
      | Undefined => Undefined
      end
  end.

(** [MpcController::get_computed_trajectory], on the trajectory that
    [m_computed_trajectory] holds when it is called; the value is the
    trajectory that it holds, and returns, afterwards. *)
Definition get_computed_trajectory (computed : Trajectory) (c : Controller)
    : Res Trajectory :=
  let pts := resize (points computed) (Z.to_nat HORIZON) TrajectoryPoint_default in
  match computed_points (acadoVariables c) 0 pts with
  | Returned l =>
      Returned {| traj_stamp := traj_stamp (reference_trajectory c); points := l |}
  | Thrown e => Thrown e
  | Undefined => Undefined
  end.

End Mpc.

(** Modelled from the spec: [motion_common::interpolate] is defined in
    another package; the outputs are "linearly interpolated between the
    control values at [count] and [count+1]", in [Real] arithmetic. *)
Definition interpolate (a b t : Real) : Real := add32 a (mul32 t (sub32 b a)).

(* ------------------------------------------------------------------------- *)
(** ** A concrete controller

    The problem size and step of the specification's example
    ([HORIZON = 10], [step = 100 ms]) and stand-ins for the functions of the
    other translation units, to run the member functions on. *)

Module Scenario.

Definition N : Z := 10.
Definition step : Z := 100000000.

Definition f64 (n : Z) : AcadoReal := binary_normalize prec64 emax64 n 0 false.

(** [map f64 [first; first + 1; ...]], [n] values. *)
Fixpoint ramp (n : nat) (first : Z) : list AcadoReal :=
  match n with
  | O => []
  | S k => f64 first :: ramp k (first + 1)
  end.

Definition config (lookahead : Z) (interp : bool) (tolerance : Z) : @Config unit Z :=
  {| behavior := tt;
     vehicle_param := {| length_cg_front_axel := real_of_int 1;
                         length_cg_rear_axel := real_of_int 2 |};
     limits := {| longitudinal_velocity := {| min := real_of_int 0; max := real_of_int 30 |};
                  acceleration := {| min := real_of_int (-3); max := real_of_int 3 |};
                  steer_angle := {| min := real_of_int (-1); max := real_of_int 1 |} |};
     optimization_param := {| nominal := 10; terminal := 1000 |};
     do_interpolate := interp;
     control_lookahead_duration := lookahead;
     sample_period_tolerance := tolerance |}.

(** The solver's variables with [x[i] = i] and [u[i] = i]; the weights are
    integers, [0] the zero weight. *)
Definition variables : @ACADOvariables Z :=
  {| x := ramp 44 0; u := ramp 20 0; od := repeat zero 22; y := []; yN := [];
     W := repeat 10 10; WN := 1000; x0 := repeat zero 4;
     lbValues := repeat zero 20; ubValues := repeat zero 20;
     lbAValues := repeat zero 10; ubAValues := repeat zero 10 |}.


Definition point (t : Z) : Point :=
  {| time_from_start := t; pt_x := zero; pt_y := zero;
     heading := {| real := one32; imag := zero |};
     longitudinal_velocity_mps := one32; lateral_velocity_mps := zero;
     acceleration_mps2 := zero; heading_rate_rps := zero |}.

(** [n] points, one every [step], from time [t]. *)
Fixpoint spaced_points (n : nat) (t : Z) : list Point :=
  match n with
  | O => []
  | S k => point t :: spaced_points k (t + step)
  end.

Definition trajectory (stamp : Z) (n : nat) : Trajectory :=
  {| traj_stamp := stamp; points := spaced_points n 0 |}.

Definition controller (cfg : @Config unit Z) (traj : Trajectory) (current last : Z)
    (v : @ACADOvariables Z) : @Controller unit Z unit :=
  {| m_config := cfg; base_config := tt; reference_trajectory := traj;
     current_state_temporal_index := current;
     m_interpolated_trajectory := None;
     m_last_reference_index := last;
     acadoVariables := v; acadoWorkspace := tt |}.

Definition unchanged {A : Type} (a : A) : @Extern unit Z unit A :=
  fun c => (acadoVariables c, acadoWorkspace c, Returned a).

(** [a[i] = a[i + n]] for the elements that have a successor [n] places
    on; the last [n] keep their value. *)
Definition shifted (a : list AcadoReal) (n : Z) : list AcadoReal :=
  skipn (Z.to_nat n) a ++ skipn (length a - Z.to_nat n) a.

(** Stand-ins: the problem advances by shifting the states and the
    controls, the solver's two phases return the given status codes and
    everything else leaves the solver as it is; the weights are those of
    the specification. *)
Definition externals (prep_ret solve_ret : Z) : @Externals unit Z unit :=
  with_spec_weights N 0
    {| predict := fun p _ => unchanged p;
       to_angle := fun h => imag h;
       advance_problem := fun n c =>
         let v := acadoVariables c in
         (with_u (shifted (u v) (n * NU)) (with_x (shifted (x v) (n * NX)) v),
          acadoWorkspace c, Returned tt);
       backfill_reference := fun _ => unchanged tt;
       apply_terminal_weights := fun _ => unchanged tt;
       zero_nominal_weights := fun _ _ => unchanged tt;
       zero_terminal_weights := unchanged tt;
       ensure_reference_consistency := fun _ => unchanged false;
       apply_weights := fun _ => unchanged tt;
       acado_initializeSolver := unchanged 0;
       acado_initializeNodesByForwardSimulation := unchanged tt;
       acado_preparationStep := unchanged prep_ret;
       acado_feedbackStep := unchanged solve_ret |}.

(** A heading is valid when it has norm one. *)
Definition unit_heading (h : Heading) : bool :=
  SFeqb (add32 (mul32 (real h) (real h)) (mul32 (imag h) (imag h))) one32.

Definition vehicle_state (stamp : Z) : State :=
  {| state_stamp := stamp; state := point 0 |}.

(** A controller on a trajectory of twelve points with a look-ahead of
    [250 ms]: before its first cycle, and on a warm cycle at index [5] after
    one at index [4]. *)
Definition fresh_controller : @Controller unit Z unit :=
  controller (config 250000000 false 0) (trajectory 1000000000 12) 0 0 variables.

Definition warm_controller : @Controller unit Z unit :=
  controller (config 250000000 false 0) (trajectory 1000000000 12) 5 4 variables.

(** The weights of a horizon that receded to eight steps at index [4]. *)
Definition receded_variables : @ACADOvariables Z :=
  with_WN 0 (with_W [10; 10; 10; 10; 10; 10; 10; 1000; 0; 0] variables).

Definition receded_controller : @Controller unit Z unit :=
  controller (config 250000000 false 0) (trajectory 1000000000 12) 5 4 receded_variables.

(** The same after the configuration was set again. *)
Definition reconfigured_controller : @Controller unit Z unit :=
  fst (set_config N (externals 0 0) (config 250000000 false 0) receded_controller).

(** A stand-in for [motion_common::from_angle], the value-initialised
    point that [resize] appends, and a computed trajectory before its first
    use. *)
Definition from_angle (a : Real) : Heading := {| real := one32; imag := a |}.

Definition default_point : Point :=
  {| time_from_start := 0; pt_x := zero; pt_y := zero;
     heading := {| real := zero; imag := zero |};
     longitudinal_velocity_mps := zero; lateral_velocity_mps := zero;
     acceleration_mps2 := zero; heading_rate_rps := zero |}.

Definition computed : Trajectory := {| traj_stamp := 0; points := [] |}.

End Scenario.

(* ------------------------------------------------------------------------- *)
(** * Properties *)

(** ** Integer conversions and arrays *)

Section CxxFacts.

Lemma to_u64_small (z : Z) : in_u64 z -> to_u64 z = z.
Proof. unfold in_u64, to_u64; intros H; apply Z.mod_small; exact H. Qed.

Lemma to_u64_range (z : Z) : in_u64 (to_u64 z).
Proof. unfold in_u64, to_u64; apply Z.mod_pos_bound; lia. Qed.

Lemma to_u64_neg (z : Z) : - 2 ^ 63 <= z < 0 -> to_u64 z = z + 2 ^ 64.
Proof.
  intros H; unfold to_u64.
  symmetry; apply (Z.mod_unique z (2 ^ 64) (-1) (z + 2 ^ 64)); lia.
Qed.

Lemma to_i64_small (z : Z) : 0 <= z < 2 ^ 63 -> to_i64 z = z.
Proof.
  intros H; unfold to_i64.
  rewrite Z.mod_small by lia.
  destruct (Z.ltb_spec z (2 ^ 63)); lia.
Qed.


End CxxFacts.

Section AcadoFacts.

Lemma length_set_nat {A : Type} (a : list A) (i : nat) (v : A) :
  length (Acado.set_nat a i v) = length a.
Proof.
  revert i; induction a as [|h r IH]; intros [|j]; simpl; auto.
Qed.

Lemma set_nat_idem {A : Type} (a : list A) (i : nat) (v : A) :
  Acado.set_nat (Acado.set_nat a i v) i v = Acado.set_nat a i v.
Proof.
  revert i; induction a as [|h r IH]; intros [|j]; simpl; auto.
  now rewrite IH.
Qed.

Lemma set_nat_comm {A : Type} (a : list A) (i j : nat) (v w : A) :
  i <> j -> Acado.set_nat (Acado.set_nat a i v) j w = Acado.set_nat (Acado.set_nat a j w) i v.
Proof.
  revert i j; induction a as [|h r IH]; intros [|i] [|j] Hij; simpl; auto.
  - congruence.
  - rewrite IH; auto.
Qed.

Lemma nth_error_set_nat_same {A : Type} (a : list A) (i : nat) (v : A) :
  (i < length a)%nat -> nth_error (Acado.set_nat a i v) i = Some v.
Proof.
  revert i; induction a as [|h r IH]; intros [|j] H; simpl in *; try lia; auto.
  apply IH; lia.
Qed.

Lemma nth_error_set_nat_other {A : Type} (a : list A) (i j : nat) (v : A) :
  i <> j -> nth_error (Acado.set_nat a i v) j = nth_error a j.
Proof.
  revert i j; induction a as [|h r IH]; intros [|i] [|j] H; simpl; auto.
  congruence.
Qed.


Lemma length_set {A : Type} (a : list A) (i : Z) (v : A) :
  length (Acado.set a i v) = length a.
Proof.
  unfold Acado.set; destruct (i <? 0); [reflexivity|apply length_set_nat].
Qed.

Lemma get_set_same {A : Type} (a : list A) (i : Z) (v : A) :
  0 <= i < Z.of_nat (length a) -> Acado.get (Acado.set a i v) i = Some v.
Proof.
  intros H; unfold Acado.get, Acado.set.
  destruct (Z.ltb_spec i 0); [lia|].
  apply nth_error_set_nat_same; lia.
Qed.

Lemma get_set_other {A : Type} (a : list A) (i j : Z) (v : A) :
  i <> j -> Acado.get (Acado.set a i v) j = Acado.get a j.
Proof.
  intros H; unfold Acado.get, Acado.set.
  destruct (Z.ltb_spec j 0); [reflexivity|].
  destruct (Z.ltb_spec i 0); [reflexivity|].
  apply nth_error_set_nat_other; lia.
Qed.

Lemma get_in_range {A : Type} (a : list A) (j : Z) :
  0 <= j < Z.of_nat (length a) -> exists v, Acado.get a j = Some v.
Proof.
  intros H; unfold Acado.get.
  destruct (Z.ltb_spec j 0); [lia|].
  destruct (nth_error a (Z.to_nat j)) as [v|] eqn:E; [exists v; reflexivity|].
  apply nth_error_None in E; lia.
Qed.

Lemma set_set_same {A : Type} (a : list A) (i : Z) (v w : A) :
  Acado.set (Acado.set a i v) i w = Acado.set a i w.
Proof.
  unfold Acado.set; destruct (i <? 0); [reflexivity|].
  generalize (Z.to_nat i); intros n; revert n.
  induction a as [|h r IH]; intros [|n]; simpl; auto.
  now rewrite IH.
Qed.

Lemma set_set_comm {A : Type} (a : list A) (i j : Z) (v w : A) :
  i <> j -> Acado.set (Acado.set a i v) j w = Acado.set (Acado.set a j w) i v.
Proof.
  intros H; unfold Acado.set.
  destruct (Z.ltb_spec i 0); destruct (Z.ltb_spec j 0); try reflexivity.
  apply set_nat_comm; lia.
Qed.

(** After [set], the same assignments give the same arrays whatever was
    assigned in between. *)
Lemma set_absorbs {A : Type} (a a' : list A) (i j : Z) (v w : A) :
  Acado.set a i v = Acado.set a' i v ->
  Acado.set (Acado.set a j w) i v = Acado.set (Acado.set a' j w) i v.
Proof.
  intros H; destruct (Z.eq_dec j i) as [->|Hne].
  - rewrite !set_set_same; exact H.
  - rewrite (set_set_comm a j i w v Hne), (set_set_comm a' j i w v Hne), H; reflexivity.
Qed.

Lemma length_for_range_set {A : Type} (v : A) (n : nat) :
  forall (first : Z) (a : list A),
    length (for_range n first (fun i l => Acado.set l i v) a) = length a.
Proof.
  induction n as [|n IH]; intros first a; cbn [for_range]; [reflexivity|].
  rewrite IH; apply length_set.
Qed.

Lemma get_for_range_set_out {A : Type} (v : A) (n : nat) :
  forall (first : Z) (a : list A) (j : Z),
    j < first \/ first + Z.of_nat n <= j ->
    Acado.get (for_range n first (fun i l => Acado.set l i v) a) j = Acado.get a j.
Proof.
  induction n as [|n IH]; intros first a j Hj; cbn [for_range]; [reflexivity|].
  rewrite IH by lia. apply get_set_other; lia.
Qed.

Lemma get_for_range_set_in {A : Type} (v : A) (n : nat) :
  forall (first : Z) (a : list A) (j : Z),
    0 <= first <= j -> j < first + Z.of_nat n -> j < Z.of_nat (length a) ->
    Acado.get (for_range n first (fun i l => Acado.set l i v) a) j = Some v.
Proof.
  induction n as [|n IH]; intros first a j Hf Hj Hlen; cbn [for_range]; [lia|].
  destruct (Z.eq_dec first j) as [->|Hne].
  - rewrite get_for_range_set_out by lia. apply get_set_same; lia.
  - apply IH; [lia|lia|rewrite length_set; exact Hlen].
Qed.

Lemma get_fill_in {A : Type} (a : list A) (first last j : Z) (v : A) :
  0 <= first <= j -> j < last -> j < Z.of_nat (length a) ->
  Acado.get (fill a first last v) j = Some v.
Proof.
  intros Hf Hj Hlen; unfold fill. apply get_for_range_set_in; auto. lia.
Qed.

Lemma get_fill_out {A : Type} (a : list A) (first last j : Z) (v : A) :
  j < first \/ last <= j -> Acado.get (fill a first last v) j = Acado.get a j.
Proof.
  intros Hj; unfold fill. apply get_for_range_set_out.
  destruct (Z.le_gt_cases last first); lia.
Qed.

Lemma get_fill_cases {A : Type} (a : list A) (first last j : Z) (v : A) :
  0 <= first ->
  Acado.get (fill a first last v) j = Acado.get a j
  \/ Acado.get (fill a first last v) j = Some v.
Proof.
  intros Hf.
  destruct (Z.lt_ge_cases j first); [left; apply get_fill_out; lia|].
  destruct (Z.le_gt_cases last j); [left; apply get_fill_out; lia|].
  destruct (Z.lt_ge_cases j (Z.of_nat (length a))); [right; apply get_fill_in; lia|].
  left. unfold fill.
  assert (Hnone : forall l : list A, length l = length a -> Acado.get l j = None).
  { intros l Hl; unfold Acado.get. destruct (Z.ltb_spec j 0); [reflexivity|].
    apply nth_error_None; lia. }
  rewrite (Hnone a eq_refl). apply Hnone. apply length_for_range_set.
Qed.

End AcadoFacts.

(* ------------------------------------------------------------------------- *)
(** ** Command interpolation *)

Section InterpolationFacts.

Context {BehaviorConfig StateWeight : Type}.
Variable ACADO_N : Z.
Variable solver_time_step : Z.

Local Abbreviation Cfg := (@Config BehaviorConfig StateWeight).

(** The generated problem has at least two steps, the step is positive and
    the horizon's duration is a nanosecond count. *)
Hypothesis horizon_ge_2 : 2 <= ACADO_N.
Hypothesis step_pos : 0 < solver_time_step.
Hypothesis horizon_duration : solver_time_step * (ACADO_N - 1) < 2 ^ 63.

Lemma HORIZON_eq : HORIZON ACADO_N = ACADO_N.
Proof. unfold HORIZON; apply to_u64_small; unfold in_u64; nia. Qed.

Lemma max_dt_eq :
  to_u64 (to_u64 solver_time_step * to_u64 (HORIZON ACADO_N - 1))
  = solver_time_step * (ACADO_N - 1).
Proof.
  rewrite HORIZON_eq.
  rewrite (to_u64_small solver_time_step) by (unfold in_u64; nia).
  rewrite (to_u64_small (ACADO_N - 1)) by (unfold in_u64; nia).
  apply to_u64_small; unfold in_u64; nia.
Qed.

(** The clamp: a remaining time above the horizon, and also a negative one
    (it compares as a large unsigned count), becomes the horizon's last
    sample time. *)
Lemma interp_remaining_cases (cfg : Cfg) (x0_time_offset : Z) :
  in_i64 (control_lookahead_duration cfg - x0_time_offset) ->
  let r := control_lookahead_duration cfg - x0_time_offset in
  (0 <= r <= solver_time_step * (ACADO_N - 1)
   /\ interp_remaining ACADO_N solver_time_step cfg x0_time_offset = r)
  \/ ((r < 0 \/ solver_time_step * (ACADO_N - 1) < r)
      /\ interp_remaining ACADO_N solver_time_step cfg x0_time_offset
         = solver_time_step * (ACADO_N - 1)).
Proof.
  intros Hr r; unfold interp_remaining; fold r.
  rewrite max_dt_eq.
  unfold in_i64 in Hr; fold r in Hr.
  destruct (Z.ltb_spec (solver_time_step * (ACADO_N - 1)) (to_u64 r)) as [Hlt|Hge].
  - right; split.
    + destruct (Z.lt_ge_cases r 0) as [Hneg|Hpos]; [now left|right].
      rewrite to_u64_small in Hlt by (unfold in_u64; lia); exact Hlt.
    + apply to_i64_small; nia.
  - left; split; [|reflexivity].
    destruct (Z.lt_ge_cases r 0) as [Hneg|Hpos].
    + rewrite to_u64_neg in Hge by lia. lia.
    + rewrite to_u64_small in Hge by (unfold in_u64; lia). lia.
Qed.

Lemma interp_remaining_range (cfg : Cfg) (x0_time_offset : Z) :
  in_i64 (control_lookahead_duration cfg - x0_time_offset) ->
  0 <= interp_remaining ACADO_N solver_time_step cfg x0_time_offset
    <= solver_time_step * (ACADO_N - 1).
Proof.
  intros Hr; destruct (interp_remaining_cases cfg x0_time_offset Hr) as [[H1 H2]|[H1 H2]];
    rewrite H2; nia.
Qed.

Lemma interp_count_eq (cfg : Cfg) (x0_time_offset : Z) :
  in_i64 (control_lookahead_duration cfg - x0_time_offset) ->
  interp_count ACADO_N solver_time_step cfg x0_time_offset
  = Z.min (interp_remaining ACADO_N solver_time_step cfg x0_time_offset / solver_time_step)
          (ACADO_N - 2).
Proof.
  intros Hr; unfold interp_count.
  pose proof (interp_remaining_range cfg x0_time_offset Hr) as Hrange.
  rewrite Z.quot_div_nonneg by lia.
  rewrite HORIZON_eq.
  rewrite (to_u64_small (ACADO_N - 2)) by (unfold in_u64; nia).
  rewrite to_i64_small by nia.
  reflexivity.
Qed.

(** C6, as amended: for every [x0_time_offset], [count] lies between [0] and
    [HORIZON - 2], so that the sample [count + 1] is within the horizon, and
    the interpolation parameter [(remaining - count * step) / step] lies
    between [0] and [1], both included: it is [1] when the remaining time
    reaches the last sample of the horizon. *)
Theorem interp_count_and_fraction_bounds (cfg : Cfg) (x0_time_offset : Z) :
  in_i64 (control_lookahead_duration cfg - x0_time_offset) ->
  let count := interp_count ACADO_N solver_time_step cfg x0_time_offset in
  let dt := interp_dt ACADO_N solver_time_step cfg x0_time_offset in
  (0 <= count <= HORIZON ACADO_N - 2)
  /\ (0 <= dt <= solver_time_step)
  /\ (0 <= interp_fraction ACADO_N solver_time_step cfg x0_time_offset <= 1)%Q.
Proof.
  intros Hr count dt.
  pose proof (interp_remaining_range cfg x0_time_offset Hr) as Hrange.
  pose proof (interp_count_eq cfg x0_time_offset Hr) as Hcount.
  fold count in Hcount.
  set (r := interp_remaining ACADO_N solver_time_step cfg x0_time_offset) in *.
  assert (Hq : 0 <= r / solver_time_step <= ACADO_N - 1).
  { split.
    - apply Z.div_pos; lia.
    - apply Z.div_le_upper_bound; [lia|nia]. }
  pose proof (Z.mul_div_le r solver_time_step step_pos) as Hmd.
  pose proof (Z.mod_pos_bound r solver_time_step step_pos) as Hmod.
  pose proof (Z.div_mod r solver_time_step ltac:(lia)) as Hdm.
  assert (Hc : 0 <= count <= ACADO_N - 2) by lia.
  assert (Hdt : 0 <= dt <= solver_time_step).
  { unfold dt, interp_dt; fold r; fold count.
    destruct (Z.le_gt_cases (r / solver_time_step) (ACADO_N - 2)) as [Hle|Hgt].
    - replace count with (r / solver_time_step) by lia. nia.
    - replace count with (ACADO_N - 2) by lia.
      assert (r / solver_time_step = ACADO_N - 1) by lia. nia. }
  split; [rewrite HORIZON_eq; exact Hc|].
  split; [exact Hdt|].
  unfold interp_fraction; fold dt.
  unfold Qle; simpl.
  rewrite Z2Pos.id by lia. lia.
Qed.

End InterpolationFacts.

Lemma interp_count_and_fraction_bounds_witness :
  let cfg := Scenario.config 250000000 false 0 in
  (0 <= interp_count 10 100000000 cfg 0 <= HORIZON 10 - 2)
  /\ (0 <= interp_dt 10 100000000 cfg 0 <= 100000000)
  /\ (0 <= interp_fraction 10 100000000 cfg 0 <= 1)%Q.
Proof.
  apply (interp_count_and_fraction_bounds 10 100000000); try lia.
  unfold in_i64; simpl; lia.
Defined.

(** C6, as stated, fails: with a look-ahead of two seconds the remaining
    time is clamped to the last sample of the horizon, [count] is
    [HORIZON - 2] and the interpolation parameter is [1], which is not below
    [1]; the [float] that the code computes is [1.0f]. *)
Lemma interp_fraction_reaches_one :
  let cfg := Scenario.config 2000000000 false 0 in
  interp_remaining 10 100000000 cfg 0 = 900000000
  /\ interp_count 10 100000000 cfg 0 = 8
  /\ interp_dt 10 100000000 cfg 0 = 100000000
  /\ interp_t 10 100000000 cfg 0 = one32
  /\ ~ (interp_fraction 10 100000000 cfg 0 < 1)%Q.
Proof.
  repeat split; try (vm_compute; reflexivity).
  vm_compute. intros H; discriminate H.
Qed.

(** Rounding alone also reaches [1.0f]: one nanosecond before the next
    sample, the remaining time converts to the [float] of the whole step. *)
Lemma interp_t_rounds_to_one :
  let cfg := Scenario.config 99999999 false 0 in
  interp_count 10 100000000 cfg 0 = 0
  /\ interp_dt 10 100000000 cfg 0 = 99999999
  /\ interp_t 10 100000000 cfg 0 = one32.
Proof. repeat split; vm_compute; reflexivity. Qed.

Section InterpolatedCommandFacts.

Context {BehaviorConfig StateWeight : Type}.
Variable ACADO_N : Z.
Variable solver_time_step : Z.
Variable interp : Real -> Real -> Real -> Real.

Local Abbreviation Cfg := (@Config BehaviorConfig StateWeight).
Local Abbreviation Vars := (@ACADOvariables StateWeight).


(** The only exception of [interpolated_command] is the one of the
    finiteness test, thrown when one of the two interpolated values is not
    finite. *)
Lemma interpolated_command_thrown (cfg : Cfg) (vars : Vars) (x0_time_offset : Z)
    (e : exception) :
  interpolated_command ACADO_N solver_time_step interp cfg vars x0_time_offset = Thrown e ->
  e = interpolation_failed.
Proof.
  unfold interpolated_command.
  destruct (Acado.get (u vars) _) as [a0|]; [|discriminate].
  destruct (Acado.get (u vars) _) as [l0|]; [|discriminate].
  destruct (Acado.get (u vars) _) as [a1|]; [|discriminate].
  destruct (Acado.get (u vars) _) as [l1|]; [|discriminate].
  destruct (Acado.get (x vars) _) as [xv|]; [|discriminate].
  destruct (negb _ || negb _); [|discriminate].
  intros H; injection H as <-; reflexivity.
Qed.

End InterpolatedCommandFacts.

(** C7: with [step = 100 ms], [HORIZON = 10], a look-ahead of [250 ms] and
    no offset, the remaining time is [250 ms], [count] is [min 2 8 = 2], the
    interpolation parameter is [1/2], computed as [0.5f], and the steering angle and
    acceleration are the midpoints [a + 0.5 * (b - a)] of the control values
    of samples 2 and 3, in [Real] arithmetic; the command is returned when
    both are finite and the call throws otherwise. *)
Theorem interpolation_example {BehaviorConfig StateWeight : Type}
    (cfg : @Config BehaviorConfig StateWeight) (vars : @ACADOvariables StateWeight)
    (jerk2 rate2 jerk3 rate3 x_vel : AcadoReal) :
  control_lookahead_duration cfg = 250000000 ->
  Acado.get (u vars) (2 * NU + IDX_JERK) = Some jerk2 ->
  Acado.get (u vars) (2 * NU + IDX_WHEEL_ANGLE_RATE) = Some rate2 ->
  Acado.get (u vars) (3 * NU + IDX_JERK) = Some jerk3 ->
  Acado.get (u vars) (3 * NU + IDX_WHEEL_ANGLE_RATE) = Some rate3 ->
  Acado.get (x vars) 19 = Some x_vel ->
  let accel :=
    add32 (real_of_acado jerk2)
      (mul32 half32 (sub32 (real_of_acado jerk3) (real_of_acado jerk2))) in
  let steer :=
    add32 (real_of_acado rate2)
      (mul32 half32 (sub32 (real_of_acado rate3) (real_of_acado rate2))) in
  interp_remaining 10 100000000 cfg 0 = 250000000
  /\ interp_count 10 100000000 cfg 0 = Z.min 2 8
  /\ interp_count 10 100000000 cfg 0 = 2
  /\ (interp_fraction 10 100000000 cfg 0 == 1 # 2)%Q
  /\ interp_t 10 100000000 cfg 0 = half32
  /\ interpolated_command 10 100000000 interpolate cfg vars 0
     = if isfinite accel && isfinite steer
       then Returned {| stamp := 0; long_accel_mps2 := accel;
                        front_wheel_angle_rad := steer;
                        rear_wheel_angle_rad := zero;
                        velocity_mps := real_of_acado x_vel |}
       else Thrown interpolation_failed.
Proof.
  intros Hla Hj2 Hr2 Hj3 Hr3 Hx accel steer.
  assert (Hrem : interp_remaining 10 100000000 cfg 0 = 250000000).
  { unfold interp_remaining; rewrite Hla; vm_compute; reflexivity. }
  assert (Hcount : interp_count 10 100000000 cfg 0 = 2).
  { unfold interp_count; rewrite Hrem; vm_compute; reflexivity. }
  assert (Ht : interp_t 10 100000000 cfg 0 = half32).
  { unfold interp_t, interp_dt; rewrite Hrem, Hcount; vm_compute; reflexivity. }
  split; [exact Hrem|]. split; [rewrite Hcount; reflexivity|]. split; [exact Hcount|].
  split; [unfold interp_fraction, interp_dt; rewrite Hrem, Hcount; reflexivity|].
  split; [exact Ht|].
  unfold interpolated_command.
  rewrite Hcount, Ht.
  change (2 * ACADO_NU + IDX_JERK) with (2 * NU + IDX_JERK).
  change (2 * ACADO_NU + IDX_WHEEL_ANGLE_RATE) with (2 * NU + IDX_WHEEL_ANGLE_RATE).
  change ((2 + 1) * ACADO_NU + IDX_JERK) with (3 * NU + IDX_JERK).
  change ((2 + 1) * ACADO_NU + IDX_WHEEL_ANGLE_RATE) with (3 * NU + IDX_WHEEL_ANGLE_RATE).
  change (to_u64 (to_u64 (to_u64 (2 * ACADO_NU) * NX) + IDX_VEL_LONG)) with 19.
  rewrite Hj2, Hr2, Hj3, Hr3, Hx.
  cbn [long_accel_mps2 front_wheel_angle_rad].
  unfold interpolate; fold accel; fold steer.
  destruct (isfinite accel), (isfinite steer); reflexivity.
Qed.

Lemma interpolation_example_witness :
  interp_remaining 10 100000000 (Scenario.config 250000000 false 0) 0 = 250000000
  /\ interp_count 10 100000000 (Scenario.config 250000000 false 0) 0 = Z.min 2 8
  /\ interp_count 10 100000000 (Scenario.config 250000000 false 0) 0 = 2
  /\ (interp_fraction 10 100000000 (Scenario.config 250000000 false 0) 0 == 1 # 2)%Q
  /\ interp_t 10 100000000 (Scenario.config 250000000 false 0) 0 = half32
  /\ interpolated_command 10 100000000 interpolate (Scenario.config 250000000 false 0)
       Scenario.variables 0
     = Returned {| stamp := 0; long_accel_mps2 := real_of_int 5;
                   front_wheel_angle_rad := real_of_int 6;
                   rear_wheel_angle_rad := zero;
                   velocity_mps := real_of_int 19 |}.
Proof.
  exact (interpolation_example (Scenario.config 250000000 false 0) Scenario.variables
           (Scenario.f64 4) (Scenario.f64 5) (Scenario.f64 6) (Scenario.f64 7)
           (Scenario.f64 19)
           eq_refl eq_refl eq_refl eq_refl eq_refl eq_refl).
Defined.


(** C2 fails on the code: the velocity is read at [(idx * NX) + IDX_VEL_LONG]
    with [idx = count * ACADO_NU], not at [count * NX + IDX_VEL_LONG].  With
    a look-ahead of one step [count] is [1] and the command carries element
    [11] of the states, the velocity of state [2], where element [7] is the
    velocity of state [1]. *)
Lemma interpolated_command_velocity_of_wrong_state :
  let cfg := Scenario.config 100000000 false 0 in
  interp_count 10 100000000 cfg 0 = 1
  /\ Acado.get (x Scenario.variables) (1 * NX + IDX_VEL_LONG) = Some (Scenario.f64 7)
  /\ Acado.get (x Scenario.variables) (1 * ACADO_NU * NX + IDX_VEL_LONG)
     = Some (Scenario.f64 11)
  /\ exists cmd,
       interpolated_command 10 100000000 interpolate cfg Scenario.variables 0 = Returned cmd
       /\ velocity_mps cmd = real_of_acado (Scenario.f64 11)
       /\ velocity_mps cmd <> real_of_acado (Scenario.f64 7).
Proof.
  repeat split; try (vm_compute; reflexivity).
  eexists; split; [vm_compute; reflexivity|].
  split; [vm_compute; reflexivity|].
  vm_compute; intros H; discriminate H.
Qed.

(** From [count = 6] on, with [HORIZON = 10], that element is outside the
    [HORIZON + 1] states. *)
Lemma interpolated_command_velocity_outside_states :
  let cfg := Scenario.config 600000000 false 0 in
  interp_count 10 100000000 cfg 0 = 6
  /\ Z.of_nat (length (x Scenario.variables)) = (10 + 1) * NX
  /\ interpolated_command 10 100000000 interpolate cfg Scenario.variables 0 = Undefined.
Proof. repeat split; vm_compute; reflexivity. Qed.

(* ------------------------------------------------------------------------- *)
(** ** Member functions as state transformers *)

Section MonadFacts.

Context {BehaviorConfig StateWeight ACADOworkspace : Type}.

Local Abbreviation Ctl := (@Controller BehaviorConfig StateWeight ACADOworkspace).
Local Abbreviation Act := (@M BehaviorConfig StateWeight ACADOworkspace).

Lemma bind_returned {A B : Type} (m : Act A) (k : A -> Act B) (c c' : Ctl) (b : B) :
  bind m k c = (c', Returned b) ->
  exists c1 a, m c = (c1, Returned a) /\ k a c1 = (c', Returned b).
Proof.
  unfold bind; destruct (m c) as [c1 [a|e|]]; intros H; try discriminate.
  exists c1, a; auto.
Qed.

Lemma bind_step {A B : Type} (m : Act A) (k : A -> Act B) (c c1 : Ctl) (a : A) :
  m c = (c1, Returned a) -> bind m k c = k a c1.
Proof. unfold bind; intros ->; reflexivity. Qed.

Lemma bind_thrown {A B : Type} (m : Act A) (k : A -> Act B) (c c' : Ctl) (e : exception) :
  bind m k c = (c', Thrown e) ->
  m c = (c', Thrown e)
  \/ exists c1 a, m c = (c1, Returned a) /\ k a c1 = (c', Thrown e).
Proof.
  unfold bind; destruct (m c) as [c1 [a|e1|]]; intros H; try discriminate.
  - right; exists c1, a; auto.
  - left; injection H as -> ->; reflexivity.
Qed.

Lemma keeps_ret {A : Type} (a : A) : keeps_last_reference_index (ret a : Act A).
Proof. intros c; reflexivity. Qed.

Lemma keeps_throw {A : Type} (e : exception) :
  keeps_last_reference_index (throw e : Act A).
Proof. intros c; reflexivity. Qed.

Lemma keeps_gets {A : Type} (f : Ctl -> A) : keeps_last_reference_index (gets f).
Proof. intros c; reflexivity. Qed.

Lemma keeps_lift {A : Type} (f : Ctl -> Res A) : keeps_last_reference_index (lift f).
Proof. intros c; reflexivity. Qed.

Lemma keeps_call {A : Type} (f : @Extern BehaviorConfig StateWeight ACADOworkspace A) :
  keeps_last_reference_index (call f).
Proof. intros c; unfold call; destruct (f c) as [[v w] r]; reflexivity. Qed.

Lemma keeps_modify_variables (f : Ctl -> @ACADOvariables StateWeight) :
  keeps_last_reference_index (modify (fun c => with_variables (f c) c)).
Proof. intros c; reflexivity. Qed.

Lemma keeps_bind {A B : Type} (m : Act A) (k : A -> Act B) :
  keeps_last_reference_index m ->
  (forall a, keeps_last_reference_index (k a)) ->
  keeps_last_reference_index (bind m k).
Proof.
  intros Hm Hk c; unfold bind.
  specialize (Hm c).
  destruct (m c) as [c1 [a|e|]]; cbn in *; auto.
  rewrite Hk; exact Hm.
Qed.

End MonadFacts.

(** Inversion of a sequence that returned, and the value of
    [m_last_reference_index] across a step that keeps it. *)
Ltac bind_inv H :=
  let c1 := fresh "c" in
  let a := fresh "a" in
  let H1 := fresh "H" in
  apply bind_returned in H; destruct H as (c1 & a & H1 & H).

Ltac kept K H :=
  match type of H with
  | ?m ?c = _ =>
      let E := fresh "E" in
      assert (E : m_last_reference_index (fst (m c)) = m_last_reference_index c)
        by exact (K c);
      rewrite H in E; cbn [fst] in E
  end.

(* ------------------------------------------------------------------------- *)
(** ** The reference window and the cycle *)

Section ControllerFacts.

Context {BehaviorConfig StateWeight ACADOworkspace : Type}.
Variable ACADO_N : Z.
Variable solver_time_step : Z.
Variable interp : Real -> Real -> Real -> Real.
Variable ext : @Externals BehaviorConfig StateWeight ACADOworkspace.

Local Abbreviation Ctl := (@Controller BehaviorConfig StateWeight ACADOworkspace).

Lemma call_last_reference_index {A : Type}
    (f : @Extern BehaviorConfig StateWeight ACADOworkspace A) (c c' : Ctl) (r : Res A) :
  call f c = (c', r) -> m_last_reference_index c' = m_last_reference_index c.
Proof.
  intros H; pose proof (keeps_call f c) as K; rewrite H in K; exact K.
Qed.

(** A cold start returns [true] and leaves the controller as it is. *)
Lemma update_references_cold (c : Ctl) :
  update_references ACADO_N ext 0 c = (c, Returned true).
Proof. reflexivity. Qed.

(** A warm call that returns, returns [false] and has set the index. *)
Lemma update_references_warm (current_idx : Z) (c c' : Ctl) (b : bool) :
  current_idx <> 0 ->
  update_references ACADO_N ext current_idx c = (c', Returned b) ->
  b = false /\ m_last_reference_index c' = current_idx.
Proof.
  intros Hidx H; unfold update_references in H.
  destruct (Z.eqb_spec 0 current_idx) as [E|E]; [congruence|].
  cbn [negb] in H.
  bind_inv H. bind_inv H. bind_inv H. bind_inv H. bind_inv H.
  unfold modify in H4; injection H4 as <- <-.
  unfold ret in H; injection H as <- <-.
  split; reflexivity.
Qed.

(** A warm call that returns has rolled the reference window forward,
    callee after callee, and then recorded the index. *)
Lemma update_references_commits (current_idx : Z) (c c' : Ctl) (b : bool) :
  current_idx <> 0 ->
  update_references ACADO_N ext current_idx c = (c', Returned b) ->
  reference_window_committed ACADO_N ext current_idx c c'.
Proof.
  intros Hidx H; unfold update_references in H.
  destruct (Z.eqb_spec 0 current_idx) as [E|E]; [congruence|].
  cbn [negb] in H.
  bind_inv H. unfold gets in H0; injection H0 as <- <-.
  bind_inv H. destruct a.
  bind_inv H. unfold gets in H1; injection H1 as <- <-.
  bind_inv H. destruct a.
  bind_inv H. destruct a.
  unfold modify in H2; injection H2 as <-.
  unfold ret in H; injection H as <- _.
  unfold reference_window_committed.
  exists c0, c1. split; [exact H0|]. split; [|reflexivity].
  cbv zeta.
  destruct (HORIZON ACADO_N <=? _); [exact H1|].
  bind_inv H1. destruct a. bind_inv H1. destruct a.
  exists c2, c3. split; [exact H|]. split; [exact H2|exact H1].
Qed.

(** The steps of a cycle other than the assignment in [update_references]
    leave [m_last_reference_index] as it is. *)
Lemma keeps_solve : keeps_last_reference_index (solve ext).
Proof.
  unfold solve.
  apply keeps_bind; [apply keeps_call|intros prep_ret].
  destruct (negb (0 =? prep_ret)); [apply keeps_throw|].
  apply keeps_bind; [apply keeps_call|intros solve_ret].
  destruct (negb (0 =? solve_ret)); [apply keeps_throw|apply keeps_ret].
Qed.

Lemma keeps_initial_conditions (p : Point) :
  keeps_last_reference_index (initial_conditions ext p).
Proof.
  unfold initial_conditions.
  apply keeps_bind; [intros c; reflexivity|intros _].
  apply keeps_bind; [apply keeps_lift|intros [[[a b] h] vl]].
  intros c; reflexivity.
Qed.

Lemma keeps_x0_time_offset (st : State) (idx : Z) :
  keeps_last_reference_index
    (x0_time_offset st idx : @M BehaviorConfig StateWeight ACADOworkspace Z).
Proof. apply keeps_lift. Qed.

Lemma keeps_cold_start_reset (b : bool) :
  keeps_last_reference_index
    (if b
     then
       bind (modify (fun c : Ctl =>
               let v := acadoVariables c in
               with_variables
                 (with_u (fill (u v) 0 (to_u64 (HORIZON ACADO_N * NU)) zero) v) c))
            (fun _ => call (acado_initializeNodesByForwardSimulation ext))
     else ret tt).
Proof.
  destruct b; [|apply keeps_ret].
  apply keeps_bind; [intros c; reflexivity|intros _; apply keeps_call].
Qed.

(** [update_references] has no test of its own on the index: the advance
    and the remaining length are unsigned differences, handed to the
    functions it calls, and it returns whenever these return. *)
Lemma update_references_returns_when_callees_return (current_idx : Z) (c : Ctl) :
  (forall n c0, snd (advance_problem ext n c0) = Returned tt) ->
  (forall n c0, snd (backfill_reference ext n c0) = Returned tt) ->
  (forall n c0, snd (apply_terminal_weights ext n c0) = Returned tt) ->
  (forall n m c0, snd (zero_nominal_weights ext n m c0) = Returned tt) ->
  (forall c0, snd (zero_terminal_weights ext c0) = Returned tt) ->
  exists c', update_references ACADO_N ext current_idx c = (c', Returned (0 =? current_idx)).
Proof.
  intros Hadv Hback Hterm Hzero Hzt.
  assert (Hcall : forall (f : @Extern BehaviorConfig StateWeight ACADOworkspace unit) c0,
             snd (f c0) = Returned tt -> exists c1, call f c0 = (c1, Returned tt)).
  { intros f c0 H; unfold call. destruct (f c0) as [[v w] r]; cbn in H; subst r.
    eexists; reflexivity. }
  unfold update_references.
  destruct (0 =? current_idx); cbn [negb]; [eexists; reflexivity|].
  unfold bind at 1; cbn [gets].
  destruct (Hcall _ c (Hadv (to_u64 (current_idx - m_last_reference_index c)) c))
    as [c1 H1].
  unfold bind at 1; rewrite H1.
  unfold bind at 1; cbn [gets].
  set (max_pts := Z.of_nat (length (points (reference_trajectory c1)))).
  destruct (HORIZON ACADO_N <=? to_u64 (max_pts - current_idx)).
  - destruct (Hcall _ c1 (Hback (to_u64 (current_idx - m_last_reference_index c)) c1))
      as [c2 H2].
    unfold bind at 1; rewrite H2. eexists; reflexivity.
  - destruct (Hcall _ c1 (Hterm (to_u64 (to_u64 (max_pts - current_idx) - 1)) c1))
      as [c2 H2].
    destruct (Hcall _ c2
                (Hzero (to_u64 (max_pts - current_idx))
                   (to_u64 (to_u64 (max_pts - current_idx)
                            + to_u64 (current_idx - m_last_reference_index c))) c2))
      as [c3 H3].
    destruct (Hcall _ c3 (Hzt c3)) as [c4 H4].
    unfold bind at 1. unfold bind at 1; rewrite H2.
    unfold bind at 1; rewrite H3. rewrite H4.
    eexists; reflexivity.
Qed.

Lemma update_references_returned (current_idx : Z) (c c' : Ctl) (b : bool) :
  update_references ACADO_N ext current_idx c = (c', Returned b) ->
  (b = true <-> current_idx = 0)
  /\ (current_idx = 0 -> c' = c)
  /\ (current_idx <> 0 -> m_last_reference_index c' = current_idx).
Proof.
  intros H.
  destruct (Z.eq_dec current_idx 0) as [->|Hne].
  - rewrite update_references_cold in H; injection H as <- <-.
    repeat split; auto; intros; congruence.
  - destruct (update_references_warm current_idx c c' b Hne H) as [-> Hl].
    repeat split; auto; intros; congruence.
Qed.

Lemma reference_cycles_from (between : Z -> Ctl -> Ctl) (idxs : list Z) :
  (forall i c0, m_last_reference_index (between i c0) = m_last_reference_index c0) ->
  forall (c : Ctl) (prev : Z) (l : list Z),
    m_last_reference_index c = prev ->
    0 <= prev ->
    non_decreasing prev idxs ->
    reference_cycles ACADO_N ext between idxs c = Some l ->
    l = idxs.
Proof.
  intros Hbetween; induction idxs as [|idx rest IH]; intros c prev l Hlast Hprev Hnd Hrun.
  - cbn in Hrun; congruence.
  - cbn [reference_cycles] in Hrun; cbn [non_decreasing] in Hnd.
    destruct Hnd as [Hle Hrest].
    destruct (update_references ACADO_N ext idx c) as [c1 [b| |]] eqn:Hup; try discriminate.
    destruct (reference_cycles ACADO_N ext between rest (between idx c1)) as [l'|] eqn:Hrec;
      try discriminate.
    cbn in Hrun; injection Hrun as <-.
    destruct (update_references_returned _ _ _ _ Hup) as (_ & Hcold & Hwarm).
    assert (Hl1 : m_last_reference_index c1 = idx).
    { destruct (Z.eq_dec idx 0) as [->|Hne]; [|auto].
      rewrite (Hcold eq_refl), Hlast. lia. }
    rewrite Hl1; f_equal.
    apply (IH (between idx c1) idx l'); auto; [|lia].
    rewrite Hbetween; exact Hl1.
Qed.

(** C4: [update_references] returns [true] and leaves the controller as it
    is, without advancing or backfilling, exactly when the index is [0]; a
    warm call that returns has set [m_last_reference_index] to the index;
    and over successive cycles with indices that do not decrease, from the
    index of the cycle before on ([0] after construction),
    [m_last_reference_index] after each call is the index passed to it.  (A
    cold start leaves [m_last_reference_index] as it is.) *)
Theorem update_references_cold_start_and_index :
  (forall (current_idx : Z) (c : Ctl),
      update_references ACADO_N ext current_idx c = (c, Returned true) <-> current_idx = 0)
  /\ (forall (current_idx : Z) (c c' : Ctl) (b : bool),
         update_references ACADO_N ext current_idx c = (c', Returned b) ->
         (b = true <-> current_idx = 0)
         /\ (current_idx = 0 -> c' = c)
         /\ (current_idx <> 0 -> m_last_reference_index c' = current_idx))
  /\ (forall (between : Z -> Ctl -> Ctl) (idxs l : list Z) (c : Ctl),
         (forall i c0, m_last_reference_index (between i c0) = m_last_reference_index c0) ->
         0 <= m_last_reference_index c ->
         non_decreasing (m_last_reference_index c) idxs ->
         reference_cycles ACADO_N ext between idxs c = Some l ->
         l = idxs).
Proof.
  split; [|split; [exact update_references_returned|]].
  - intros current_idx c; split.
    + intros H; apply (update_references_returned _ _ _ _ H); reflexivity.
    + intros ->; apply update_references_cold.
  - intros between idxs l c Hbetween Hlast Hnd Hrun.
    apply (reference_cycles_from between idxs Hbetween c (m_last_reference_index c) l);
      auto.
Qed.

End ControllerFacts.

Section CycleFacts.

Context {BehaviorConfig StateWeight ACADOworkspace : Type}.
Variable ACADO_N : Z.
Variable solver_time_step : Z.
Variable interp : Real -> Real -> Real -> Real.
Variable ext : @Externals BehaviorConfig StateWeight ACADOworkspace.

Local Abbreviation Ctl := (@Controller BehaviorConfig StateWeight ACADOworkspace).



(** A phase of the solver that returns a status other than [0] makes
    [solve] throw, in the state that the phase left. *)
Lemma solve_preparation_error (c c' : Ctl) (prep_ret : Z) :
  call (acado_preparationStep ext) c = (c', Returned prep_ret) ->
  prep_ret <> 0 ->
  solve ext c
  = (c', Thrown (runtime_error ("Solver preparation error: " ++ to_string prep_ret))).
Proof.
  intros H Hne; unfold solve.
  rewrite (bind_step _ _ _ _ _ H).
  destruct (Z.eqb_spec 0 prep_ret); [congruence|reflexivity].
Qed.

Lemma solve_feedback_error (c c1 c' : Ctl) (solve_ret : Z) :
  call (acado_preparationStep ext) c = (c1, Returned 0) ->
  call (acado_feedbackStep ext) c1 = (c', Returned solve_ret) ->
  solve_ret <> 0 ->
  solve ext c = (c', Thrown (runtime_error ("Solver error: " ++ to_string solve_ret))).
Proof.
  intros H0 H1 Hne; unfold solve.
  rewrite (bind_step _ _ _ _ _ H0).
  change (negb (0 =? 0)) with false; cbv iota.
  rewrite (bind_step _ _ _ _ _ H1).
  destruct (Z.eqb_spec 0 solve_ret); [congruence|reflexivity].
Qed.

(** On a warm cycle that gets as far as [solve], an exception of [solve]
    leaves [compute_command_impl] in the state in which it was thrown, which
    descends from the reference window that [update_references] rolled
    forward. *)
Lemma exception_of_solve_keeps_bookkeeping (st : State) (c c1 c2 : Ctl) (dt : Z)
    (e : exception) :
  let current_idx := current_state_temporal_index c in
  current_idx <> 0 ->
  until_solve ACADO_N ext st c = (c1, Returned dt) ->
  solve ext c1 = (c2, Thrown e) ->
  compute_command_impl ACADO_N solver_time_step interp ext st c = (c2, Thrown e)
  /\ (exists c0,
        reference_window_committed ACADO_N ext current_idx c c0
        /\ update_references ACADO_N ext current_idx c = (c0, Returned false)
        /\ m_last_reference_index c0 = current_idx
        /\ from_references_to_solve ACADO_N ext st current_idx false c0 = (c1, Returned dt))
  /\ m_last_reference_index c1 = current_idx
  /\ m_last_reference_index c2 = current_idx.
Proof.
  intros current_idx Hwarm Huntil Hsolve.
  pose proof Huntil as H; unfold until_solve in H.
  do 8 bind_inv H.
  unfold gets in H0; injection H0 as <- <-.
  unfold ret in H; injection H as <- <-.
  fold current_idx in H1, H2, H6.
  destruct (update_references_warm ACADO_N ext current_idx c c3 a0 Hwarm H1) as [-> Hl3].
  assert (Hl1 : m_last_reference_index c9 = current_idx).
  { kept (keeps_x0_time_offset (BehaviorConfig := BehaviorConfig)
            (StateWeight := StateWeight) (ACADOworkspace := ACADOworkspace) st current_idx) H2.
    kept (keeps_call (predict ext (state st) a1)) H3.
    kept (keeps_initial_conditions ext a2) H4.
    unfold gets in H5; injection H5 as <- <-.
    kept (keeps_call (ensure_reference_consistency ext
                        (Z.min (to_u64 (Z.of_nat (length (points (reference_trajectory c6)))
                                        - current_idx)) (HORIZON ACADO_N)))) H6.
    kept (keeps_cold_start_reset ACADO_N ext (a5 || false)) H7.
    congruence. }
  split; [|split; [|split]].
  - unfold compute_command_impl.
    rewrite (bind_step (gets current_state_temporal_index) _ c c current_idx eq_refl).
    rewrite (bind_step _ _ _ _ _ H1).
    rewrite (bind_step _ _ _ _ _ H2).
    rewrite (bind_step _ _ _ _ _ H3).
    rewrite (bind_step _ _ _ _ _ H4).
    rewrite (bind_step _ _ _ _ _ H5).
    rewrite (bind_step _ _ _ _ _ H6).
    cbv zeta.
    rewrite (bind_step _ _ _ _ _ H7).
    unfold bind at 1; rewrite Hsolve; reflexivity.
  - exists c3.
    split; [exact (update_references_commits ACADO_N ext current_idx c c3 false Hwarm H1)|].
    split; [exact H1|]. split; [exact Hl3|].
    unfold from_references_to_solve.
    rewrite (bind_step _ _ _ _ _ H2).
    rewrite (bind_step _ _ _ _ _ H3).
    rewrite (bind_step _ _ _ _ _ H4).
    rewrite (bind_step _ _ _ _ _ H5).
    rewrite (bind_step _ _ _ _ _ H6).
    cbv zeta.
    rewrite (bind_step _ _ _ _ _ H7).
    reflexivity.
  - exact Hl1.
  - kept (keeps_solve ext) Hsolve. congruence.
Qed.

(** C10: on a warm cycle that gets as far as the solver, if either phase of
    the solver fails then [compute_command_impl] throws the error of that
    phase in the state [c2] that the phase left.  That state descends from
    the rolled-forward reference window, step by step: [advance_problem]
    ran on the controller of the start of the cycle and, on what it left,
    [backfill_reference] (or the pruning of the weights on a receded
    horizon); [update_references] recorded the index on that state and
    returned it as [c0]; the statements up to [solve] took [c0] to [c1], on
    which the failing phase ran.  [m_last_reference_index] is the current
    index in [c0], in [c1] and in [c2]; nothing restores the controller of
    the start of the cycle. *)
Theorem solver_failure_keeps_bookkeeping (st : State) (c c1 c2 : Ctl) (dt : Z)
    (e : exception) :
  let current_idx := current_state_temporal_index c in
  current_idx <> 0 ->
  until_solve ACADO_N ext st c = (c1, Returned dt) ->
  solver_phase_fails ext c1 c2 e ->
  compute_command_impl ACADO_N solver_time_step interp ext st c = (c2, Thrown e)
  /\ (exists c0,
        reference_window_committed ACADO_N ext current_idx c c0
        /\ update_references ACADO_N ext current_idx c = (c0, Returned false)
        /\ m_last_reference_index c0 = current_idx
        /\ from_references_to_solve ACADO_N ext st current_idx false c0 = (c1, Returned dt))
  /\ m_last_reference_index c1 = current_idx
  /\ m_last_reference_index c2 = current_idx.
Proof.
  intros current_idx Hwarm Huntil Hfail.
  apply (exception_of_solve_keeps_bookkeeping st c c1 c2 dt e Hwarm Huntil).
  destruct Hfail as [(prep_ret & Hprep & Hne & ->)|(cm & solve_ret & Hprep & Hfb & Hne & ->)].
  - apply solve_preparation_error; assumption.
  - apply (solve_feedback_error c1 cm c2 solve_ret); assumption.
Qed.

End CycleFacts.

(* ------------------------------------------------------------------------- *)
(** ** The properties on the concrete controller *)

Lemma update_references_cold_start_and_index_witness :
  update_references Scenario.N (Scenario.externals 0 0) 0 Scenario.fresh_controller
  = (Scenario.fresh_controller, Returned true)
  /\ match reference_cycles Scenario.N (Scenario.externals 0 0) (fun _ c => c)
             [0; 1; 1; 3] Scenario.fresh_controller with
     | Some l => l = [0; 1; 1; 3]
     | None => False
     end.
Proof.
  pose proof (update_references_cold_start_and_index Scenario.N (Scenario.externals 0 0))
    as (Hcold & _ & Hseq).
  split.
  - apply Hcold; reflexivity.
  - assert (Hrun : reference_cycles Scenario.N (Scenario.externals 0 0) (fun _ c => c)
                     [0; 1; 1; 3] Scenario.fresh_controller = Some [0; 1; 1; 3])
      by (vm_compute; reflexivity).
    rewrite Hrun.
    apply (Hseq (fun _ c => c) [0; 1; 1; 3] [0; 1; 1; 3] Scenario.fresh_controller).
    + reflexivity.
    + cbn; lia.
    + cbn; lia.
    + exact Hrun.
Defined.


Lemma solver_failure_keeps_bookkeeping_witness :
  exists c1 c2 : @Controller unit Z unit,
    compute_command_impl Scenario.N Scenario.step interpolate (Scenario.externals 3 0)
      (Scenario.vehicle_state 1500000000) Scenario.warm_controller
    = (c2, Thrown (runtime_error "Solver preparation error: 3"))
    /\ (exists c0,
          reference_window_committed Scenario.N (Scenario.externals 3 0) 5
            Scenario.warm_controller c0
          /\ update_references Scenario.N (Scenario.externals 3 0) 5 Scenario.warm_controller
             = (c0, Returned false)
          /\ m_last_reference_index c0 = 5
          /\ from_references_to_solve Scenario.N (Scenario.externals 3 0)
               (Scenario.vehicle_state 1500000000) 5 false c0 = (c1, Returned 0))
    /\ m_last_reference_index c1 = 5
    /\ m_last_reference_index c2 = 5.
Proof.
  eexists; eexists.
  eapply (solver_failure_keeps_bookkeeping Scenario.N Scenario.step interpolate
            (Scenario.externals 3 0) (Scenario.vehicle_state 1500000000)
            Scenario.warm_controller).
  - discriminate.
  - vm_compute; reflexivity.
  - left; exists 3; split; [vm_compute; reflexivity|].
    split; [discriminate|reflexivity].
Defined.

(** In that cycle the controls that the exception leaves behind are the
    advanced ones, not those of the start of the cycle. *)
Lemma solver_failure_leaves_advanced_controls :
  let r := compute_command_impl Scenario.N Scenario.step interpolate (Scenario.externals 3 0)
             (Scenario.vehicle_state 1500000000) Scenario.warm_controller in
  snd r = Thrown (runtime_error "Solver preparation error: 3")
  /\ m_last_reference_index (fst r) = 5
  /\ Acado.get (u (acadoVariables (fst r))) 0 = Some (Scenario.f64 2)
  /\ Acado.get (u (acadoVariables Scenario.warm_controller)) 0 = Some (Scenario.f64 0).
Proof. repeat split; vm_compute; reflexivity. Qed.

(* ------------------------------------------------------------------------- *)
(** ** Acceptance of a new trajectory *)

Section ValidatorFacts.

Context {BehaviorConfig StateWeight : Type}.
Variable solver_time_step : Z.
Variable heading_valid : Heading -> bool.

Local Abbreviation Cfg := (@Config BehaviorConfig StateWeight).

Lemma check_points_spec (cfg : Cfg) (t0 : Z) (pts : list Point) :
  forall idx,
    stamps_in_range solver_time_step cfg t0 idx pts ->
    (check_points solver_time_step cfg t0 idx pts = true
     <-> forall k pt, nth_error pts k = Some pt ->
                      within_tolerance solver_time_step cfg t0 (idx + Z.of_nat k) pt).
Proof.
  induction pts as [|p rest IH]; intros idx (Hstep & Htol & Hidx & Hsize & Hub & Hpts).
  - cbn; split; auto. intros _ [|k] pt H; discriminate H.
  - cbn [check_points].
    assert (Hlen : Z.of_nat (length (p :: rest)) = 1 + Z.of_nat (length rest))
      by (cbn [length]; lia).
    rewrite Hlen in Hub, Hsize.
    assert (Hp : 0 <= time_from_start p + t0 < 2 ^ 63) by (apply Hpts; left; reflexivity).
    assert (Hidx64 : idx < 2 ^ 63) by lia.
    assert (Hstep64 : solver_time_step < 2 ^ 63) by nia.
    assert (Hprod : 0 <= idx * solver_time_step < 2 ^ 63) by nia.
    rewrite (to_u64_small idx) by (unfold in_u64; lia).
    rewrite (to_u64_small solver_time_step) by (unfold in_u64; lia).
    rewrite (to_u64_small (idx * solver_time_step)) by (unfold in_u64; lia).
    rewrite (to_u64_small (idx * solver_time_step + t0)) by (unfold in_u64; nia).
    rewrite (to_u64_small (idx * solver_time_step + t0 + sample_period_tolerance cfg))
      by (unfold in_u64; nia).
    rewrite (to_u64_small (idx * solver_time_step + t0 - sample_period_tolerance cfg))
      by (unfold in_u64; nia).
    rewrite (to_u64_small (time_from_start p + t0)) by (unfold in_u64; lia).
    rewrite (to_u64_small (idx + 1)) by (unfold in_u64; lia).
    assert (Hrest : stamps_in_range solver_time_step cfg t0 (idx + 1) rest).
    { unfold stamps_in_range.
      split; [lia|]. split; [lia|]. split; [lia|]. split; [lia|]. split; [nia|].
      intros pt Hin; apply Hpts; right; exact Hin. }
    specialize (IH (idx + 1) Hrest).
    destruct (Z.ltb_spec (time_from_start p + t0)
                (idx * solver_time_step + t0 - sample_period_tolerance cfg)) as [Hlo|Hlo];
      cbn [orb].
    + split; [discriminate|].
      intros H; specialize (H O p eq_refl).
      unfold within_tolerance in H; cbn in H. lia.
    + destruct (Z.ltb_spec (idx * solver_time_step + t0 + sample_period_tolerance cfg)
                  (time_from_start p + t0)) as [Hhi|Hhi].
      * split; [discriminate|].
        intros H; specialize (H O p eq_refl).
        unfold within_tolerance in H; cbn in H. lia.
      * rewrite IH; split.
        -- intros H [|k] pt Hk.
           ++ cbn in Hk; injection Hk as <-.
              unfold within_tolerance; cbn. lia.
           ++ cbn in Hk; specialize (H k pt Hk).
              replace (idx + Z.of_nat (S k)) with (idx + 1 + Z.of_nat k) by lia.
              exact H.
        -- intros H k pt Hk.
           replace (idx + 1 + Z.of_nat k) with (idx + Z.of_nat (S k)) by lia.
           apply H; exact Hk.
Qed.

(** A trajectory with a heading that is not valid is rejected; with
    interpolation enabled nothing else is checked; with interpolation
    disabled and stamps in range, a trajectory is accepted exactly when its
    headings are valid and every point's absolute time stamp is within the
    tolerance of [index * step + header.stamp]. *)
Lemma check_new_trajectory_accepts (cfg : Cfg) (trajectory : Trajectory) :
  ((exists pt, In pt (points trajectory) /\ heading_valid (heading pt) = false) ->
   check_new_trajectory solver_time_step heading_valid cfg trajectory = false)
  /\ (do_interpolate cfg = true ->
      (check_new_trajectory solver_time_step heading_valid cfg trajectory = true
       <-> forall pt, In pt (points trajectory) -> heading_valid (heading pt) = true))
  /\ (do_interpolate cfg = false ->
      stamps_in_range solver_time_step cfg (traj_stamp trajectory) 0 (points trajectory) ->
      (check_new_trajectory solver_time_step heading_valid cfg trajectory = true
       <-> (forall pt, In pt (points trajectory) -> heading_valid (heading pt) = true)
           /\ forall k pt, nth_error (points trajectory) k = Some pt ->
                           within_tolerance solver_time_step cfg (traj_stamp trajectory)
                             (Z.of_nat k) pt)).
Proof.
  assert (Hh : heading_ok heading_valid trajectory = true
               <-> forall pt, In pt (points trajectory) -> heading_valid (heading pt) = true).
  { unfold heading_ok; rewrite forallb_forall; reflexivity. }
  unfold check_new_trajectory.
  split; [|split].
  - intros (pt & Hin & Hbad).
    destruct (heading_ok heading_valid trajectory) eqn:E; [|reflexivity].
    rewrite (proj1 Hh eq_refl pt Hin) in Hbad; discriminate.
  - intros ->.
    destruct (heading_ok heading_valid trajectory) eqn:E; cbn [negb].
    + split; [intros _; apply Hh; reflexivity|reflexivity].
    + split; [discriminate|]. intros H; apply Hh in H; discriminate.
  - intros -> Hrange.
    destruct (heading_ok heading_valid trajectory) eqn:E; cbn [negb].
    + rewrite (check_points_spec cfg (traj_stamp trajectory) (points trajectory) 0 Hrange).
      split.
      * intros H; split; [apply Hh; reflexivity|exact H].
      * intros [_ H]; exact H.
    + split; [discriminate|]. intros [H _]; apply Hh in H; discriminate.
Qed.

End ValidatorFacts.

(* ------------------------------------------------------------------------- *)
(** ** Weights of a receded horizon *)

Section WeightFacts.

Context {BehaviorConfig StateWeight ACADOworkspace : Type}.
Variable ACADO_N : Z.
Variable zero_weight : StateWeight.
Variable e : @Externals BehaviorConfig StateWeight ACADOworkspace.

Local Abbreviation Ctl := (@Controller BehaviorConfig StateWeight ACADOworkspace).

(** [advance_problem] moves the states and the controls; it leaves the
    per-step weights as they are. *)
Hypothesis advance_problem_keeps_weights :
  forall (n : Z) (c0 : Ctl),
    W (fst (fst (advance_problem e n c0))) = W (acadoVariables c0).

(** C5, as amended: on a warm cycle with a remaining reference length [r]
    below [HORIZON], when [update_references] returns the terminal weights
    are at index [r - 1] and no other index has been given them (each other
    block is as before or zero), the end-of-horizon weight is zero, and the
    nominal weights are zero on [r, r + advance); they are zero at every
    index from [r] on when they were zero from [r + advance] on before the
    call. *)
Theorem update_references_receded_weights (current_idx : Z) (c c' : Ctl) (b : bool) :
  let ext := with_spec_weights ACADO_N zero_weight e in
  let max_pts := Z.of_nat (length (points (reference_trajectory c))) in
  let r := max_pts - current_idx in
  let advance := current_idx - m_last_reference_index c in
  let W0 := W (acadoVariables c) in
  let W1 := W (acadoVariables c') in
  0 <= ACADO_N < 2 ^ 63 ->
  max_pts < 2 ^ 63 ->
  Z.of_nat (length W0) = HORIZON ACADO_N ->
  current_idx <> 0 ->
  0 <= m_last_reference_index c <= current_idx ->
  1 <= r < HORIZON ACADO_N ->
  update_references ACADO_N ext current_idx c = (c', Returned b) ->
  Acado.get W1 (r - 1) = Some (terminal (optimization_param (m_config c)))
  /\ (forall j, j <> r - 1 ->
                Acado.get W1 j = Acado.get W0 j \/ Acado.get W1 j = Some zero_weight)
  /\ WN (acadoVariables c') = zero_weight
  /\ (forall j, r <= j < r + advance -> j < HORIZON ACADO_N ->
                Acado.get W1 j = Some zero_weight)
  /\ ((forall j, r + advance <= j < HORIZON ACADO_N -> Acado.get W0 j = Some zero_weight) ->
      forall j, r <= j < HORIZON ACADO_N -> Acado.get W1 j = Some zero_weight).
Proof.
  intros ext max_pts r advance W0 W1 HN Hmax Hlen Hwarm Hlast Hr Hret.
  assert (HH : HORIZON ACADO_N = ACADO_N) by (apply to_u64_small; unfold in_u64; lia).
  rewrite HH in *.
  unfold update_references in Hret.
  destruct (Z.eqb_spec 0 current_idx) as [E|E]; [congruence|].
  cbn [negb] in Hret.
  bind_inv Hret. bind_inv Hret. bind_inv Hret. bind_inv Hret. bind_inv Hret.
  unfold gets in H; injection H as <- <-.
  unfold ret in Hret; injection Hret as <- <-.
  unfold modify in H3; injection H3 as <- _.
  unfold call in H0; cbn [advance_problem ext with_spec_weights] in H0.
  pose proof (advance_problem_keeps_weights
                (to_u64 (current_idx - m_last_reference_index c)) c) as HW.
  destruct (advance_problem e (to_u64 (current_idx - m_last_reference_index c)) c)
    as [[v1 w1] r1]; cbn [fst] in HW.
  injection H0 as <- _.
  unfold gets in H1; injection H1 as <- <-.
  cbn [reference_trajectory with_solver] in H2.
  fold max_pts in H2.
  rewrite (to_u64_small (max_pts - current_idx)) in H2 by (unfold in_u64; fold r; lia).
  fold r in H2.
  destruct (Z.leb_spec (HORIZON ACADO_N) r) as [Hle|_]; [rewrite HH in Hle; lia|].
  bind_inv H2. bind_inv H2.
  unfold call in H, H0, H2.
  cbn [apply_terminal_weights zero_nominal_weights zero_terminal_weights ext
         with_spec_weights] in H, H0, H2.
  unfold spec_apply_terminal_weights in H; injection H as <- _.
  unfold spec_zero_nominal_weights in H0; injection H0 as <- _.
  unfold spec_zero_terminal_weights in H2; injection H2 as <- _.
  cbn in W1 |- *. subst W1. cbn.
  rewrite HW; fold W0.
  rewrite (to_u64_small (r - 1)) by (unfold in_u64; lia).
  rewrite (to_u64_small (current_idx - m_last_reference_index c))
    by (unfold in_u64; lia).
  fold advance.
  rewrite (to_u64_small (r + advance)) by (unfold in_u64; unfold advance; lia).
  rewrite HH.
  assert (Hlen' : Z.of_nat (length (Acado.set W0 (r - 1)
                                      (terminal (optimization_param (m_config c)))))
                  = ACADO_N) by (rewrite length_set; exact Hlen).
  split; [|split; [|split; [|split]]].
  - rewrite get_fill_out by lia. apply get_set_same; lia.
  - intros j Hj.
    destruct (get_fill_cases (Acado.set W0 (r - 1) (terminal (optimization_param (m_config c))))
                r (Z.min (r + advance) ACADO_N) j zero_weight ltac:(lia)) as [Hk|Hz].
    + left; rewrite Hk; apply get_set_other; lia.
    + right; exact Hz.
  - reflexivity.
  - intros j Hj HjN. apply get_fill_in; lia.
  - intros Hzero j Hj.
    destruct (Z.lt_ge_cases j (r + advance)) as [Hin|Hout].
    + apply get_fill_in; lia.
    + rewrite get_fill_out by lia.
      rewrite get_set_other by lia. apply Hzero; lia.
Qed.

End WeightFacts.

Lemma update_references_receded_weights_witness :
  exists c' : @Controller unit Z unit,
    update_references Scenario.N (Scenario.externals 0 0) 5 Scenario.receded_controller
    = (c', Returned false)
    /\ Acado.get (W (acadoVariables c')) (7 - 1) = Some 1000
    /\ (forall j, j <> 7 - 1 ->
          Acado.get (W (acadoVariables c')) j
          = Acado.get (W (acadoVariables Scenario.receded_controller)) j
          \/ Acado.get (W (acadoVariables c')) j = Some 0)
    /\ WN (acadoVariables c') = 0
    /\ (forall j, 7 <= j < 7 + 1 -> j < 10 -> Acado.get (W (acadoVariables c')) j = Some 0)
    /\ forall j, 7 <= j < 10 -> Acado.get (W (acadoVariables c')) j = Some 0.
Proof.
  eexists; split; [vm_compute; reflexivity|].
  pose proof (update_references_receded_weights Scenario.N 0 (Scenario.externals 0 0)
                (fun _ _ => eq_refl) 5 Scenario.receded_controller _ false
                ltac:(vm_compute; split; [discriminate|reflexivity])
                ltac:(vm_compute; reflexivity)
                ltac:(vm_compute; reflexivity)
                ltac:(discriminate)
                ltac:(vm_compute; split; discriminate)
                ltac:(vm_compute; split; [discriminate|reflexivity])
                ltac:(vm_compute; reflexivity)) as (H1 & H2 & H3 & H4 & H5).
  split; [exact H1|]. split; [exact H2|]. split; [exact H3|]. split; [exact H4|].
  apply H5. intros j Hj.
  assert (Hj' : 8 <= j < 10) by exact Hj.
  assert (Hcases : j = 8 \/ j = 9) by lia.
  destruct Hcases as [->| ->]; reflexivity.
Defined.

(** C5, as stated, fails: after the configuration was set again the
    nominal weights are back on every step; the warm cycle at index [5] of
    twelve points leaves [r = 7], puts the terminal weights at index [6] and
    zeroes index [7] only, and the weights at [8] and [9] are not zero when
    [update_references] returns. *)
Lemma update_references_leaves_nominal_weights_beyond_advance :
  W (acadoVariables Scenario.reconfigured_controller) = repeat 10 10
  /\ m_last_reference_index Scenario.reconfigured_controller = 4
  /\ exists c' : @Controller unit Z unit,
       update_references Scenario.N (Scenario.externals 0 0) 5
         Scenario.reconfigured_controller = (c', Returned false)
       /\ Z.of_nat (length (points (reference_trajectory Scenario.reconfigured_controller)))
          - 5 = 7
       /\ W (acadoVariables c') = [10; 10; 10; 10; 10; 10; 1000; 0; 10; 10]
       /\ Acado.get (W (acadoVariables c')) 8 = Some 10
       /\ Acado.get (W (acadoVariables c')) 8 <> Some 0.
Proof.
  split; [vm_compute; reflexivity|].
  split; [vm_compute; reflexivity|].
  eexists; split; [vm_compute; reflexivity|].
  repeat split; try (vm_compute; reflexivity).
  vm_compute; intros H; discriminate H.
Qed.

(* ------------------------------------------------------------------------- *)
(** ** Applying a configuration *)

Section ConfigFacts.

Context {BehaviorConfig StateWeight ACADOworkspace : Type}.
Variable ACADO_N : Z.
Variable zero_weight : StateWeight.
Variable e : @Externals BehaviorConfig StateWeight ACADOworkspace.

Local Abbreviation Ctl := (@Controller BehaviorConfig StateWeight ACADOworkspace).
Local Abbreviation Vars := (@ACADOvariables StateWeight).
Local Abbreviation Asg := (@assignment StateWeight).

Lemma assign_idem (a : Asg) (v : Vars) : assign a (assign a v) = assign a v.
Proof.
  destruct a, v; cbn; unfold with_od, with_lbValues, with_ubValues, with_lbAValues,
    with_ubAValues, with_W, with_WN; cbn; rewrite ?set_set_same; reflexivity.
Qed.

(** Once [a] is assigned, what was there before does not show, whatever is
    assigned in between. *)
Lemma assign_absorbs (a b : Asg) (v v' : Vars) :
  assign a v = assign a v' -> assign a (assign b v) = assign a (assign b v').
Proof.
  intros H.
  destruct a, b, v, v'; cbn in H |- *;
    unfold with_od, with_lbValues, with_ubValues, with_lbAValues, with_ubAValues,
      with_W, with_WN in H |- *;
    cbn in H |- *; injection H; intros; subst;
    f_equal; auto using set_absorbs.
Qed.

Lemma assign_all_absorbs (a : Asg) (l : list Asg) :
  forall v v' : Vars,
    assign a v = assign a v' -> assign a (assign_all l v) = assign a (assign_all l v').
Proof.
  induction l as [|b l IH]; intros v v' H; cbn [assign_all fold_left]; [exact H|].
  apply IH, assign_absorbs, H.
Qed.

Lemma assign_all_app (l1 l2 : list Asg) (v : Vars) :
  assign_all (l1 ++ l2) v = assign_all l2 (assign_all l1 v).
Proof. unfold assign_all; apply fold_left_app. Qed.

(** Assigning the same sequence a second time changes nothing. *)
Lemma assign_all_idem (l : list Asg) (v : Vars) :
  assign_all l (assign_all l v) = assign_all l v.
Proof.
  revert v; induction l as [|a l IH] using rev_ind; intros v; [reflexivity|].
  rewrite !assign_all_app; cbn [assign_all fold_left].
  fold (assign_all l (assign a (assign_all l v))).
  rewrite <- (IH v) at 2.
  apply assign_all_absorbs, assign_idem.
Qed.

Lemma for_range_ext {S : Type} (body body' : Z -> S -> S) (n : nat) :
  (forall i s, body i s = body' i s) ->
  forall i s, for_range n i body s = for_range n i body' s.
Proof.
  intros H; induction n as [|n IH]; intros i s; cbn [for_range]; [reflexivity|].
  rewrite H; apply IH.
Qed.

Lemma for_range_collect (f : Z -> list Asg) (n : nat) :
  forall (i : Z) (v : Vars),
    for_range n i (fun i v => assign_all (f i) v) v = assign_all (collect n i f) v.
Proof.
  induction n as [|n IH]; intros i v; cbn [for_range collect]; [reflexivity|].
  rewrite assign_all_app; apply IH.
Qed.

Lemma fill_W_collect (w : StateWeight) (n : nat) :
  forall (i : Z) (v : Vars),
    with_W (for_range n i (fun i l => Acado.set l i w) (W v)) v
    = assign_all (collect n i (fun i => [set_W i w])) v.
Proof.
  induction n as [|n IH]; intros i v; cbn [for_range collect].
  - destruct v; reflexivity.
  - rewrite assign_all_app; cbn [assign_all fold_left assign].
    rewrite <- IH. destruct v; reflexivity.
Qed.

Lemma apply_parameters_assignments (cfg : VehicleConfig) (v : Vars) :
  apply_parameters ACADO_N cfg v = assign_all (parameters_assignments ACADO_N cfg) v.
Proof.
  unfold apply_parameters, parameters_assignments.
  rewrite <- for_range_collect. apply for_range_ext; intros i s; reflexivity.
Qed.

Lemma apply_bounds_assignments (cfg : LimitsConfig) (v : Vars) :
  apply_bounds ACADO_N cfg v = assign_all (bounds_assignments ACADO_N cfg) v.
Proof.
  unfold apply_bounds, bounds_assignments.
  rewrite <- for_range_collect. apply for_range_ext; intros i s; reflexivity.
Qed.

Lemma spec_apply_weights_assignments (cfg : OptimizationConfig) (c : Ctl) :
  spec_apply_weights ACADO_N cfg c
  = (assign_all (weights_assignments ACADO_N cfg) (acadoVariables c), acadoWorkspace c,
     Returned tt).
Proof.
  unfold spec_apply_weights, weights_assignments, fill.
  rewrite assign_all_app, <- fill_W_collect. reflexivity.
Qed.

(** With the weights of the specification, [set_config] returns, and it is
    the assignment of the configuration's values to the solver's arrays. *)
Lemma set_config_assignments (config : Config) (c : Ctl) :
  set_config ACADO_N (with_spec_weights ACADO_N zero_weight e) config c
  = (with_solver (assign_all (config_assignments ACADO_N config) (acadoVariables c))
       (acadoWorkspace c) (with_base_config (behavior config) (with_config config c)),
     Returned tt).
Proof.
  unfold set_config, apply_config, bind, modify, gets, call.
  cbn [apply_weights with_spec_weights m_config with_config].
  rewrite spec_apply_weights_assignments.
  cbn [acadoVariables acadoWorkspace with_variables with_solver with_base_config with_config].
  rewrite apply_parameters_assignments, apply_bounds_assignments.
  unfold config_assignments; rewrite !assign_all_app.
  reflexivity.
Qed.

(** C9: with the weights of the specification, calling [set_config] with
    the same configuration a second time leaves the controller, and so the
    bounds, the online data and the weights of the solver, as the first call
    left them. *)
Theorem set_config_idempotent (config : Config) (c : Ctl) :
  let ext := with_spec_weights ACADO_N zero_weight e in
  let once := set_config ACADO_N ext config c in
  let twice := set_config ACADO_N ext config (fst once) in
  snd once = Returned tt
  /\ snd twice = Returned tt
  /\ fst twice = fst once
  /\ lbValues (acadoVariables (fst twice)) = lbValues (acadoVariables (fst once))
  /\ ubValues (acadoVariables (fst twice)) = ubValues (acadoVariables (fst once))
  /\ lbAValues (acadoVariables (fst twice)) = lbAValues (acadoVariables (fst once))
  /\ ubAValues (acadoVariables (fst twice)) = ubAValues (acadoVariables (fst once))
  /\ od (acadoVariables (fst twice)) = od (acadoVariables (fst once))
  /\ W (acadoVariables (fst twice)) = W (acadoVariables (fst once))
  /\ WN (acadoVariables (fst twice)) = WN (acadoVariables (fst once)).
Proof.
  intros ext once twice.
  assert (Hsame : fst twice = fst once).
  { unfold twice, once, ext. rewrite !set_config_assignments.
    cbn [fst acadoVariables acadoWorkspace with_solver with_base_config with_config].
    rewrite assign_all_idem. reflexivity. }
  split; [unfold once, ext; rewrite set_config_assignments; reflexivity|].
  split; [unfold twice, ext; rewrite set_config_assignments; reflexivity|].
  split; [exact Hsame|].
  rewrite Hsame; repeat split; reflexivity.
Qed.

End ConfigFacts.

(** C8 fails on the code for a header stamp below the tolerance:
    [idx * solver_time_step] is an unsigned count, so with interpolation
    disabled, a header stamp of [0] and a tolerance of one millisecond the
    lower bound [ref - dt] of the first point wraps to [2^64 - 10^6] and the
    point, exactly at its nominal time, compares below it: the trajectory,
    whose headings are valid and whose points are all within the tolerance,
    is rejected.  The same points stamped at one second are accepted. *)
Lemma check_new_trajectory_rejects_stamp_below_tolerance :
  let cfg := Scenario.config 0 false 1000000 in
  let traj := Scenario.trajectory 0 2 in
  (forall pt, In pt (points traj) -> Scenario.unit_heading (heading pt) = true)
  /\ (forall k pt, nth_error (points traj) k = Some pt ->
                   within_tolerance Scenario.step cfg (traj_stamp traj) (Z.of_nat k) pt)
  /\ do_interpolate cfg = false
  /\ to_u64 (0 * Scenario.step + traj_stamp traj - sample_period_tolerance cfg)
     = 2 ^ 64 - 1000000
  /\ check_new_trajectory Scenario.step Scenario.unit_heading cfg traj = false
  /\ check_new_trajectory Scenario.step Scenario.unit_heading cfg
       (Scenario.trajectory 1000000000 2) = true.
Proof.
  split.
  { intros pt [<-|[<-|[]]]; vm_compute; reflexivity. }
  split.
  { intros [|[|k]] pt H; cbn in H.
    - injection H as <-; vm_compute; discriminate.
    - injection H as <-; vm_compute; discriminate.
    - destruct k; discriminate H. }
  repeat split; vm_compute; reflexivity.
Qed.


(* ------------------------------------------------------------------------- *)
(** ** The computed trajectory *)

Section ComputedTrajectoryFacts.

Context {BehaviorConfig StateWeight ACADOworkspace : Type}.
Variable ACADO_N : Z.
Variable from_angle : Real -> Heading.
Variable default : Point.

Local Abbreviation Ctl := (@Controller BehaviorConfig StateWeight ACADOworkspace).
Local Abbreviation Vars := (@ACADOvariables StateWeight).

Lemma length_resize {A : Type} (l : list A) (n : nat) (d : A) :
  length (resize l n d) = n.
Proof.
  unfold resize. rewrite length_app, length_firstn, repeat_length. lia.
Qed.

Lemma resize_same_length {A : Type} (l : list A) (d : A) :
  resize l (length l) d = l.
Proof.
  unfold resize. rewrite firstn_all, Nat.sub_diag. cbn. apply app_nil_r.
Qed.

Lemma nth_resize {A : Type} (l : list A) (n k : nat) (d : A) :
  (k < n)%nat -> nth k (resize l n d) d = nth k l d.
Proof.
  intros Hk; unfold resize.
  destruct (Nat.lt_ge_cases k (length l)) as [Hl|Hl].
  - rewrite app_nth1 by (rewrite length_firstn; lia).
    revert k n Hk Hl; induction l as [|h r IH]; intros [|k] [|n] Hk Hl; cbn in *;
      try lia; auto.
    apply IH; lia.
  - rewrite (nth_overflow l d Hl).
    rewrite app_nth2 by (rewrite length_firstn; lia).
    rewrite length_firstn.
    destruct (nth_in_or_default (k - Nat.min n (length l))
                (repeat d (n - length l)) d) as [Hin|Hd]; [|exact Hd].
    apply repeat_spec in Hin; exact Hin.
Qed.

Lemma computed_points_length (v : Vars) (pts : list Point) :
  forall (i : Z) (l : list Point),
    computed_points from_angle v i pts = Returned l -> length l = length pts.
Proof.
  induction pts as [|pt rest IH]; intros i l H; cbn [computed_points] in H.
  - injection H as <-; reflexivity.
  - destruct (computed_point from_angle v i pt) as [p| |]; try discriminate.
    destruct (computed_points from_angle v (to_u64 (i + 1)) rest) as [l'| |] eqn:E;
      try discriminate.
    injection H as <-; cbn [length]; f_equal; eapply IH; exact E.
Qed.

(** Element [k] of the result is the body of the loop at index [i + k] on
    element [k] of the points. *)
Lemma computed_points_nth (v : Vars) (pts : list Point) :
  forall (i : Z) (l : list Point),
    0 <= i -> i + Z.of_nat (length pts) < 2 ^ 64 ->
    computed_points from_angle v i pts = Returned l ->
    forall (k : nat) (pt : Point),
      nth_error pts k = Some pt ->
      exists p, nth_error l k = Some p
                /\ computed_point from_angle v (i + Z.of_nat k) pt = Returned p.
Proof.
  induction pts as [|pt0 rest IH]; intros i l Hi Hlen H k pt Hk.
  - destruct k; discriminate Hk.
  - cbn [computed_points] in H. cbn [length] in Hlen.
    destruct (computed_point from_angle v i pt0) as [p0| |] eqn:E0; try discriminate.
    destruct (computed_points from_angle v (to_u64 (i + 1)) rest) as [l'| |] eqn:E;
      try discriminate.
    injection H as <-.
    destruct k as [|k].
    + cbn in Hk; injection Hk as <-. exists p0; split; [reflexivity|].
      replace (i + Z.of_nat 0) with i by lia. exact E0.
    + cbn in Hk. rewrite to_u64_small in E by (unfold in_u64; lia).
      destruct (IH (i + 1) l' ltac:(lia) ltac:(lia) E k pt Hk) as (p & Hp & Hc).
      exists p; split; [exact Hp|].
      replace (i + Z.of_nat (S k)) with (i + 1 + Z.of_nat k) by lia. exact Hc.
Qed.

(** The loop returns when the states and the controls hold the elements of
    every index it visits. *)
Lemma computed_points_returns (v : Vars) (pts : list Point) :
  forall i : Z,
    0 <= i -> i + Z.of_nat (length pts) < 2 ^ 60 ->
    NX * (i + Z.of_nat (length pts)) <= Z.of_nat (length (x v)) ->
    NU * (i + Z.of_nat (length pts)) <= Z.of_nat (length (u v)) ->
    exists l, computed_points from_angle v i pts = Returned l.
Proof.
  induction pts as [|pt rest IH]; intros i Hi Hlen Hx Hu; cbn [computed_points].
  - eexists; reflexivity.
  - cbn [length] in Hlen, Hx, Hu.
    change NX with 4 in *. change NU with 2 in *.
    unfold computed_point.
    change NX with 4. change NU with 2.
    unfold IDX_X, IDX_Y, IDX_VEL_LONG, IDX_HEADING, IDX_JERK, IDX_WHEEL_ANGLE_RATE.
    rewrite (to_u64_small (4 * i)) by (unfold in_u64; lia).
    rewrite (to_u64_small (2 * i)) by (unfold in_u64; lia).
    rewrite !to_u64_small by (unfold in_u64; lia).
    destruct (get_in_range (x v) (4 * i + 0) ltac:(lia)) as [a ->].
    destruct (get_in_range (x v) (4 * i + 1) ltac:(lia)) as [b ->].
    destruct (get_in_range (x v) (4 * i + 3) ltac:(lia)) as [vl ->].
    destruct (get_in_range (x v) (4 * i + 2) ltac:(lia)) as [h ->].
    destruct (get_in_range (u v) (2 * i + 0) ltac:(lia)) as [j ->].
    destruct (get_in_range (u v) (2 * i + 1) ltac:(lia)) as [r ->].
    destruct (IH (i + 1) ltac:(lia) ltac:(lia) ltac:(lia) ltac:(lia)) as [l ->].
    eexists; reflexivity.
Qed.

(** Running the loop on its own result changes nothing: the result keeps
    the times of the points it was computed on, and nothing else of them. *)
Lemma computed_points_idem (v : Vars) (pts : list Point) :
  forall (i : Z) (l : list Point),
    computed_points from_angle v i pts = Returned l ->
    computed_points from_angle v i l = Returned l.
Proof.
  induction pts as [|pt rest IH]; intros i l H; cbn [computed_points] in H.
  - injection H as <-; reflexivity.
  - destruct (computed_point from_angle v i pt) as [p| |] eqn:E0; try discriminate.
    destruct (computed_points from_angle v (to_u64 (i + 1)) rest) as [l'| |] eqn:E;
      try discriminate.
    injection H as <-. cbn [computed_points].
    assert (Hp : computed_point from_angle v i p = Returned p).
    { unfold computed_point in E0 |- *.
      destruct (Acado.get (x v) _); [|discriminate].
      destruct (Acado.get (x v) _); [|discriminate].
      destruct (Acado.get (x v) _); [|discriminate].
      destruct (Acado.get (x v) _); [|discriminate].
      destruct (Acado.get (u v) _); [|discriminate].
      destruct (Acado.get (u v) _); [|discriminate].
      injection E0 as <-; reflexivity. }
    rewrite Hp, (IH _ _ E); reflexivity.
Qed.

(** X1: when the states and the controls hold [HORIZON] steps,
    [get_computed_trajectory] returns a trajectory with the stamp of the
    reference trajectory and exactly [HORIZON] points; point [i] carries the
    position, heading and longitudinal velocity of state [i], the two
    controls of step [i] as acceleration and heading rate and a zero lateral
    velocity, and its [time_from_start] is not assigned: it is the one the
    member already held at [i], or the default one. *)
Theorem get_computed_trajectory_points (computed : Trajectory) (c : Ctl) :
  0 <= ACADO_N < 2 ^ 60 ->
  NX * HORIZON ACADO_N <= Z.of_nat (length (x (acadoVariables c))) ->
  NU * HORIZON ACADO_N <= Z.of_nat (length (u (acadoVariables c))) ->
  exists traj,
    get_computed_trajectory ACADO_N from_angle default computed c = Returned traj
    /\ traj_stamp traj = traj_stamp (reference_trajectory c)
    /\ Z.of_nat (length (points traj)) = HORIZON ACADO_N
    /\ forall i, 0 <= i < HORIZON ACADO_N ->
         exists s_x s_y s_heading s_vel u_jerk u_rate,
           Acado.get (x (acadoVariables c)) (NX * i + IDX_X) = Some s_x
           /\ Acado.get (x (acadoVariables c)) (NX * i + IDX_Y) = Some s_y
           /\ Acado.get (x (acadoVariables c)) (NX * i + IDX_HEADING) = Some s_heading
           /\ Acado.get (x (acadoVariables c)) (NX * i + IDX_VEL_LONG) = Some s_vel
           /\ Acado.get (u (acadoVariables c)) (NU * i + IDX_JERK) = Some u_jerk
           /\ Acado.get (u (acadoVariables c)) (NU * i + IDX_WHEEL_ANGLE_RATE) = Some u_rate
           /\ nth_error (points traj) (Z.to_nat i)
              = Some {| time_from_start :=
                          time_from_start (nth (Z.to_nat i) (points computed) default);
                        pt_x := real_of_acado s_x;
                        pt_y := real_of_acado s_y;
                        heading := from_angle (real_of_acado s_heading);
                        longitudinal_velocity_mps := real_of_acado s_vel;
                        lateral_velocity_mps := zero;
                        acceleration_mps2 := real_of_acado u_jerk;
                        heading_rate_rps := real_of_acado u_rate |}.
Proof.
  intros HN Hx Hu.
  assert (HH : HORIZON ACADO_N = ACADO_N) by (apply to_u64_small; unfold in_u64; lia).
  rewrite HH in *.
  unfold get_computed_trajectory. rewrite HH.
  set (pts := resize (points computed) (Z.to_nat ACADO_N) default).
  assert (Hlen : length pts = Z.to_nat ACADO_N) by apply length_resize.
  destruct (computed_points_returns (acadoVariables c) pts 0 ltac:(lia)
              ltac:(rewrite Hlen; lia) ltac:(rewrite Hlen; lia) ltac:(rewrite Hlen; lia))
    as [l Hl].
  rewrite Hl. eexists; split; [reflexivity|]. cbn [traj_stamp points].
  split; [reflexivity|].
  pose proof (computed_points_length _ _ _ _ Hl) as Hll.
  split; [lia|].
  intros i Hi.
  assert (Hk : (Z.to_nat i < length pts)%nat) by lia.
  pose proof (nth_error_nth' pts default Hk) as Hnth.
  destruct (computed_points_nth (acadoVariables c) pts 0 l ltac:(lia)
              ltac:(rewrite Hlen; lia) Hl (Z.to_nat i) _ Hnth) as (p & Hp & Hc).
  replace (0 + Z.of_nat (Z.to_nat i)) with i in Hc by lia.
  unfold pts in Hc. rewrite nth_resize in Hc by lia.
  unfold computed_point in Hc.
  change NX with 4 in *. change NU with 2 in *.
  unfold IDX_X, IDX_Y, IDX_VEL_LONG, IDX_HEADING, IDX_JERK, IDX_WHEEL_ANGLE_RATE in *.
  rewrite (to_u64_small (4 * i)) in Hc by (unfold in_u64; lia).
  rewrite (to_u64_small (2 * i)) in Hc by (unfold in_u64; lia).
  rewrite !to_u64_small in Hc by (unfold in_u64; lia).
  destruct (Acado.get (x (acadoVariables c)) (4 * i + 0)) as [s_x|]; [|discriminate].
  destruct (Acado.get (x (acadoVariables c)) (4 * i + 1)) as [s_y|]; [|discriminate].
  destruct (Acado.get (x (acadoVariables c)) (4 * i + 3)) as [s_vel|]; [|discriminate].
  destruct (Acado.get (x (acadoVariables c)) (4 * i + 2)) as [s_h|]; [|discriminate].
  destruct (Acado.get (u (acadoVariables c)) (2 * i + 0)) as [u_j|]; [|discriminate].
  destruct (Acado.get (u (acadoVariables c)) (2 * i + 1)) as [u_r|]; [|discriminate].
  injection Hc as <-.
  exists s_x, s_y, s_h, s_vel, u_j, u_r. repeat (split; [reflexivity|]). exact Hp.
Qed.

(** X2: a second call of [get_computed_trajectory] without a solve in
    between returns the same trajectory: the points are recomputed from the
    same states and controls, on top of the points of the first call. *)
Theorem get_computed_trajectory_again (computed traj : Trajectory) (c : Ctl) :
  get_computed_trajectory ACADO_N from_angle default computed c = Returned traj ->
  get_computed_trajectory ACADO_N from_angle default traj c = Returned traj.
Proof.
  unfold get_computed_trajectory. intros H.
  destruct (computed_points from_angle (acadoVariables c) 0
              (resize (points computed) (Z.to_nat (HORIZON ACADO_N)) default))
    as [l| |] eqn:E; try discriminate.
  injection H as <-. cbn [points].
  pose proof (computed_points_length _ _ _ _ E) as Hlen.
  rewrite length_resize in Hlen.
  rewrite <- Hlen, resize_same_length.
  rewrite (computed_points_idem _ _ _ _ E). reflexivity.
Qed.

End ComputedTrajectoryFacts.

Section CommandAndTrajectoryFacts.

Context {BehaviorConfig StateWeight ACADOworkspace : Type}.
Variable ACADO_N : Z.
Variable solver_time_step : Z.
Variable interp : Real -> Real -> Real -> Real.
Variable from_angle : Real -> Heading.
Variable default : Point.

Local Abbreviation Ctl := (@Controller BehaviorConfig StateWeight ACADOworkspace).
Local Abbreviation Cfg := (@Config BehaviorConfig StateWeight).

Hypothesis horizon_range : 2 <= ACADO_N < 2 ^ 60.
Hypothesis step_pos : 0 < solver_time_step.
Hypothesis horizon_duration : solver_time_step * (ACADO_N - 1) < 2 ^ 63.

Lemma interp_count_range (cfg : Cfg) (x0_time_offset : Z) :
  in_i64 (control_lookahead_duration cfg - x0_time_offset) ->
  0 <= interp_count ACADO_N solver_time_step cfg x0_time_offset <= ACADO_N - 2.
Proof.
  intros Hr.
  rewrite (interp_count_eq ACADO_N solver_time_step ltac:(lia) step_pos horizon_duration
             cfg x0_time_offset Hr).
  pose proof (interp_remaining_range ACADO_N solver_time_step ltac:(lia) step_pos
                horizon_duration cfg x0_time_offset Hr) as Hrange.
  assert (0 <= interp_remaining ACADO_N solver_time_step cfg x0_time_offset
               / solver_time_step) by (apply Z.div_pos; lia).
  lia.
Qed.

(** Point [i] of a computed trajectory, read back from the solver's
    variables. *)
Lemma computed_trajectory_point (computed traj : Trajectory) (c : Ctl) (i : Z) :
  get_computed_trajectory ACADO_N from_angle default computed c = Returned traj ->
  0 <= i < ACADO_N ->
  exists pt s_vel u_jerk u_rate,
    nth_error (points traj) (Z.to_nat i) = Some pt
    /\ Acado.get (x (acadoVariables c)) (NX * i + IDX_VEL_LONG) = Some s_vel
    /\ Acado.get (u (acadoVariables c)) (NU * i + IDX_JERK) = Some u_jerk
    /\ Acado.get (u (acadoVariables c)) (NU * i + IDX_WHEEL_ANGLE_RATE) = Some u_rate
    /\ longitudinal_velocity_mps pt = real_of_acado s_vel
    /\ acceleration_mps2 pt = real_of_acado u_jerk
    /\ heading_rate_rps pt = real_of_acado u_rate.
Proof.
  intros H Hi.
  assert (HH : HORIZON ACADO_N = ACADO_N) by (apply to_u64_small; unfold in_u64; lia).
  unfold get_computed_trajectory in H. rewrite HH in H.
  set (pts := resize (points computed) (Z.to_nat ACADO_N) default) in H.
  assert (Hlen : length pts = Z.to_nat ACADO_N) by apply length_resize.
  destruct (computed_points from_angle (acadoVariables c) 0 pts) as [l| |] eqn:E;
    try discriminate.
  injection H as <-. cbn [points].
  assert (Hk : (Z.to_nat i < length pts)%nat) by lia.
  pose proof (nth_error_nth' pts default Hk) as Hnth.
  destruct (computed_points_nth from_angle (acadoVariables c) pts 0 l ltac:(lia)
              ltac:(rewrite Hlen; lia) E (Z.to_nat i) _ Hnth) as (p & Hp & Hc).
  replace (0 + Z.of_nat (Z.to_nat i)) with i in Hc by lia.
  unfold computed_point in Hc.
  change NX with 4 in *. change NU with 2 in *.
  unfold IDX_X, IDX_Y, IDX_VEL_LONG, IDX_HEADING, IDX_JERK, IDX_WHEEL_ANGLE_RATE in *.
  rewrite (to_u64_small (4 * i)) in Hc by (unfold in_u64; lia).
  rewrite (to_u64_small (2 * i)) in Hc by (unfold in_u64; lia).
  rewrite !to_u64_small in Hc by (unfold in_u64; lia).
  destruct (Acado.get (x (acadoVariables c)) (4 * i + 0)) as [s_x|]; [|discriminate].
  destruct (Acado.get (x (acadoVariables c)) (4 * i + 1)) as [s_y|]; [|discriminate].
  destruct (Acado.get (x (acadoVariables c)) (4 * i + 3)) as [s_vel|]; [|discriminate].
  destruct (Acado.get (x (acadoVariables c)) (4 * i + 2)) as [s_h|]; [|discriminate].
  destruct (Acado.get (u (acadoVariables c)) (2 * i + 0)) as [u_j|]; [|discriminate].
  destruct (Acado.get (u (acadoVariables c)) (2 * i + 1)) as [u_r|]; [|discriminate].
  injection Hc as <-.
  eexists; exists s_vel, u_j, u_r. split; [exact Hp|].
  cbn; repeat (split; [reflexivity|]); reflexivity.
Qed.

(** X3: the command and the computed trajectory agree on the controls: the
    longitudinal acceleration of a returned command is the interpolation,
    at the parameter [t], of the accelerations of points [count] and
    [count + 1] of the computed trajectory, and its front wheel angle that
    of their heading rates. *)
Theorem command_interpolates_computed_trajectory (computed traj : Trajectory) (c : Ctl)
    (x0_time_offset : Z) (cmd : Command) :
  in_i64 (control_lookahead_duration (m_config c) - x0_time_offset) ->
  get_computed_trajectory ACADO_N from_angle default computed c = Returned traj ->
  interpolated_command ACADO_N solver_time_step interp (m_config c) (acadoVariables c)
    x0_time_offset = Returned cmd ->
  let count := interp_count ACADO_N solver_time_step (m_config c) x0_time_offset in
  let t := interp_t ACADO_N solver_time_step (m_config c) x0_time_offset in
  exists p0 p1,
    nth_error (points traj) (Z.to_nat count) = Some p0
    /\ nth_error (points traj) (Z.to_nat (count + 1)) = Some p1
    /\ long_accel_mps2 cmd = interp (acceleration_mps2 p0) (acceleration_mps2 p1) t
    /\ front_wheel_angle_rad cmd = interp (heading_rate_rps p0) (heading_rate_rps p1) t.
Proof.
  intros Hr Htraj Hcmd count t.
  pose proof (interp_count_range (m_config c) x0_time_offset Hr) as Hcount.
  fold count in Hcount.
  destruct (computed_trajectory_point computed traj c count Htraj ltac:(lia))
    as (p0 & v0 & j0 & r0 & Hp0 & _ & Hj0 & Hr0 & _ & Ha0 & Hh0).
  destruct (computed_trajectory_point computed traj c (count + 1) Htraj ltac:(lia))
    as (p1 & v1 & j1 & r1 & Hp1 & _ & Hj1 & Hr1 & _ & Ha1 & Hh1).
  exists p0, p1. split; [exact Hp0|]. split; [exact Hp1|].
  unfold interpolated_command in Hcmd. fold count in Hcmd. fold t in Hcmd.
  change NU with 2 in *. change ACADO_NU with 2 in *.
  unfold IDX_JERK, IDX_WHEEL_ANGLE_RATE in *.
  replace (count * 2 + 0) with (2 * count + 0) in Hcmd by lia.
  replace (count * 2 + 1) with (2 * count + 1) in Hcmd by lia.
  replace ((count + 1) * 2 + 0) with (2 * (count + 1) + 0) in Hcmd by lia.
  replace ((count + 1) * 2 + 1) with (2 * (count + 1) + 1) in Hcmd by lia.
  rewrite Hj0, Hr0, Hj1, Hr1 in Hcmd.
  destruct (Acado.get (x (acadoVariables c)) _) as [xv|]; [|discriminate].
  cbn [long_accel_mps2 front_wheel_angle_rad] in Hcmd.
  destruct (negb _ || negb _); [discriminate|].
  injection Hcmd as <-. cbn [long_accel_mps2 front_wheel_angle_rad].
  rewrite Ha0, Ha1, Hh0, Hh1. split; reflexivity.
Qed.

Lemma get_outside {A : Type} (a : list A) (j : Z) :
  Z.of_nat (length a) <= j -> Acado.get a j = None.
Proof.
  intros H; unfold Acado.get. destruct (Z.ltb_spec j 0); [reflexivity|].
  apply nth_error_None; lia.
Qed.

(** X4: with the arrays of the generated solver, [HORIZON] controls and
    [HORIZON + 1] states, the reads of [interpolated_command] are inside the
    arrays exactly when [2 * count <= HORIZON]: the controls are always
    read inside [u], and the velocity is read at element
    [8 * count + 3] of [x]. *)
Theorem interpolated_command_reads_inside (cfg : Cfg)
    (vars : @ACADOvariables StateWeight) (x0_time_offset : Z) :
  in_i64 (control_lookahead_duration cfg - x0_time_offset) ->
  Z.of_nat (length (u vars)) = HORIZON ACADO_N * NU ->
  Z.of_nat (length (x vars)) = (HORIZON ACADO_N + 1) * NX ->
  (interpolated_command ACADO_N solver_time_step interp cfg vars x0_time_offset = Undefined
   <-> HORIZON ACADO_N < 2 * interp_count ACADO_N solver_time_step cfg x0_time_offset).
Proof.
  intros Hr Hu Hx.
  assert (HH : HORIZON ACADO_N = ACADO_N) by (apply to_u64_small; unfold in_u64; lia).
  rewrite HH in *.
  pose proof (interp_count_range cfg x0_time_offset Hr) as Hcount.
  unfold interpolated_command.
  set (count := interp_count ACADO_N solver_time_step cfg x0_time_offset) in *.
  change NU with 2 in *. change NX with 4 in *. change ACADO_NU with 2.
  unfold IDX_JERK, IDX_WHEEL_ANGLE_RATE, IDX_VEL_LONG.
  destruct (get_in_range (u vars) (count * 2 + 0) ltac:(lia)) as [a0 ->].
  destruct (get_in_range (u vars) (count * 2 + 1) ltac:(lia)) as [l0 ->].
  destruct (get_in_range (u vars) ((count + 1) * 2 + 0) ltac:(lia)) as [a1 ->].
  destruct (get_in_range (u vars) ((count + 1) * 2 + 1) ltac:(lia)) as [l1 ->].
  rewrite (to_u64_small (count * 2)) by (unfold in_u64; lia).
  rewrite (to_u64_small (count * 2 * 4)) by (unfold in_u64; lia).
  rewrite (to_u64_small (count * 2 * 4 + 3)) by (unfold in_u64; lia).
  destruct (Z.lt_ge_cases ACADO_N (2 * count)) as [Hout|Hin].
  - rewrite get_outside by lia. split; [intros _; exact Hout|reflexivity].
  - destruct (get_in_range (x vars) (count * 2 * 4 + 3) ltac:(lia)) as [xv ->].
    split; [|lia].
    destruct (negb _ || negb _); discriminate.
Qed.

(** X5: a remaining time [lookahead - x0_time_offset] that is negative, or
    at or beyond the last sample time [step * (HORIZON - 1)], selects the
    last pair of samples: [count] is [HORIZON - 2] and the time after sample
    [count] is a whole step, so that the interpolation parameter is [1]. *)
Theorem expired_or_distant_lookahead_selects_last_samples (cfg : Cfg)
    (x0_time_offset : Z) :
  in_i64 (control_lookahead_duration cfg - x0_time_offset) ->
  control_lookahead_duration cfg - x0_time_offset < 0
  \/ solver_time_step * (ACADO_N - 1) <= control_lookahead_duration cfg - x0_time_offset ->
  interp_remaining ACADO_N solver_time_step cfg x0_time_offset
  = solver_time_step * (ACADO_N - 1)
  /\ interp_count ACADO_N solver_time_step cfg x0_time_offset = ACADO_N - 2
  /\ interp_dt ACADO_N solver_time_step cfg x0_time_offset = solver_time_step
  /\ (interp_fraction ACADO_N solver_time_step cfg x0_time_offset == 1)%Q.
Proof.
  intros Hr Hcase.
  assert (Hrem : interp_remaining ACADO_N solver_time_step cfg x0_time_offset
                 = solver_time_step * (ACADO_N - 1)).
  { destruct (interp_remaining_cases ACADO_N solver_time_step ltac:(lia) step_pos
                horizon_duration cfg x0_time_offset Hr) as [[H1 H2]|[H1 H2]]; [|exact H2].
    rewrite H2. lia. }
  assert (Hcount : interp_count ACADO_N solver_time_step cfg x0_time_offset = ACADO_N - 2).
  { rewrite (interp_count_eq ACADO_N solver_time_step ltac:(lia) step_pos horizon_duration
               cfg x0_time_offset Hr), Hrem.
    rewrite Z.mul_comm, Z.div_mul by lia. lia. }
  assert (Hdt : interp_dt ACADO_N solver_time_step cfg x0_time_offset = solver_time_step).
  { unfold interp_dt. rewrite Hrem, Hcount. lia. }
  repeat split; auto.
  unfold interp_fraction. rewrite Hdt. unfold Qeq; cbn.
  rewrite Z2Pos.id by lia. lia.
Qed.


End CommandAndTrajectoryFacts.

(* ------------------------------------------------------------------------- *)
(** ** The two phases of the solver *)

Section SolveFacts.

Context {BehaviorConfig StateWeight ACADOworkspace : Type}.

Local Abbreviation Ctl := (@Controller BehaviorConfig StateWeight ACADOworkspace).
Local Abbreviation Ext := (@Externals BehaviorConfig StateWeight ACADOworkspace).

Lemma solve_returned (ext : Ext) (c c' : Ctl) :
  solve ext c = (c', Returned tt) ->
  exists c1,
    call (acado_preparationStep ext) c = (c1, Returned 0)
    /\ call (acado_feedbackStep ext) c1 = (c', Returned 0).
Proof.
  unfold solve; intros H. bind_inv H.
  destruct (Z.eqb_spec 0 a) as [<-|Hne]; cbn [negb] in H; [|discriminate].
  bind_inv H.
  destruct (Z.eqb_spec 0 a) as [<-|Hne]; cbn [negb] in H; [|discriminate].
  unfold ret in H; injection H as <-.
  exists c0; split; assumption.
Qed.

Lemma to_string_inj (a b : Z) : to_string a = to_string b -> a = b.
Proof.
  unfold to_string; intros H.
  apply DecimalZ.to_int_inj.
  assert (Hnil : forall z, Z.to_int z <> Decimal.Pos Decimal.Nil
                           /\ Z.to_int z <> Decimal.Neg Decimal.Nil).
  { intros [|p|p]; cbn; split; try discriminate;
      intros E; injection E as E;
      (apply (DecimalPos.Unsigned.to_uint_nonnil p); exact E). }
  assert (E : Some (Z.to_int a) = Some (Z.to_int b)).
  { rewrite <- (NilZero.isi (Z.to_int a)) by apply Hnil.
    rewrite <- (NilZero.isi (Z.to_int b)) by apply Hnil.
    rewrite H; reflexivity. }
  injection E as E; exact E.
Qed.

(** X7: the exception of [solve] tells the phase that failed and its
    status.  Of two runs (of any two solvers) in which a phase returns a
    status other than [0]: when the same phase fails in both and [solve]
    leaves with the same exception, the two statuses are equal; when the
    preparation step fails in one and the feedback step in the other, the
    exceptions differ. *)
Theorem solve_error_identifies_phase_and_status (ext1 ext2 : Ext) (c1 c2 d1 d2 : Ctl)
    (a b : Z) :
  a <> 0 -> b <> 0 ->
  (call (acado_preparationStep ext1) c1 = (c2, Returned a) ->
   call (acado_preparationStep ext2) d1 = (d2, Returned b) ->
   snd (solve ext1 c1) = snd (solve ext2 d1) -> a = b)
  /\ (forall c1' d1',
        call (acado_preparationStep ext1) c1 = (c1', Returned 0) ->
        call (acado_feedbackStep ext1) c1' = (c2, Returned a) ->
        call (acado_preparationStep ext2) d1 = (d1', Returned 0) ->
        call (acado_feedbackStep ext2) d1' = (d2, Returned b) ->
        snd (solve ext1 c1) = snd (solve ext2 d1) -> a = b)
  /\ (forall d1',
        call (acado_preparationStep ext1) c1 = (c2, Returned a) ->
        call (acado_preparationStep ext2) d1 = (d1', Returned 0) ->
        call (acado_feedbackStep ext2) d1' = (d2, Returned b) ->
        snd (solve ext1 c1) <> snd (solve ext2 d1)).
Proof.
  intros Ha Hb. split; [|split].
  - intros H1 H2.
    rewrite (solve_preparation_error ext1 _ _ _ H1 Ha),
            (solve_preparation_error ext2 _ _ _ H2 Hb); cbn [snd].
    intros E; injection E as E. apply to_string_inj.
    cbn in E. repeat (injection E as E). exact E.
  - intros c1' d1' H1 H1' H2 H2'.
    rewrite (solve_feedback_error ext1 _ _ _ _ H1 H1' Ha),
            (solve_feedback_error ext2 _ _ _ _ H2 H2' Hb); cbn [snd].
    intros E; injection E as E. apply to_string_inj.
    cbn in E. repeat (injection E as E). exact E.
  - intros d1' H1 H2 H2'.
    rewrite (solve_preparation_error ext1 _ _ _ H1 Ha),
            (solve_feedback_error ext2 _ _ _ _ H2 H2' Hb); cbn [snd].
    intros E; injection E as E. cbn in E. discriminate E.
Qed.

End SolveFacts.

(* ------------------------------------------------------------------------- *)
(** ** What a cycle keeps, and its edge cases *)

Section MemberFacts.

Context {BehaviorConfig StateWeight ACADOworkspace : Type}.

Local Abbreviation Ctl := (@Controller BehaviorConfig StateWeight ACADOworkspace).
Local Abbreviation Act := (@M BehaviorConfig StateWeight ACADOworkspace).

Lemma same_members_refl (c : Ctl) : same_members c c.
Proof. repeat split. Qed.

Lemma same_members_trans (c1 c2 c3 : Ctl) :
  same_members c1 c2 -> same_members c2 c3 -> same_members c1 c3.
Proof.
  unfold same_members; intros (? & ? & ? & ? & ?) (? & ? & ? & ? & ?).
  repeat split; congruence.
Qed.

Lemma members_ret {A : Type} (a : A) : keeps_members (ret a : Act A).
Proof. intros c; apply same_members_refl. Qed.

Lemma members_throw {A : Type} (e : exception) : keeps_members (throw e : Act A).
Proof. intros c; apply same_members_refl. Qed.

Lemma members_gets {A : Type} (f : Ctl -> A) : keeps_members (gets f).
Proof. intros c; apply same_members_refl. Qed.

Lemma members_lift {A : Type} (f : Ctl -> Res A) : keeps_members (lift f).
Proof. intros c; apply same_members_refl. Qed.

Lemma members_call {A : Type} (f : @Extern BehaviorConfig StateWeight ACADOworkspace A) :
  keeps_members (call f).
Proof. intros c; unfold call; destruct (f c) as [[v w] r]; repeat split. Qed.

Lemma members_modify_variables (f : Ctl -> @ACADOvariables StateWeight) :
  keeps_members (modify (fun c => with_variables (f c) c)).
Proof. intros c; repeat split. Qed.

Lemma members_modify_last_reference_index (i : Z) :
  keeps_members (modify (with_last_reference_index i) : Act unit).
Proof. intros c; repeat split. Qed.

Lemma members_bind {A B : Type} (m : Act A) (k : A -> Act B) :
  keeps_members m -> (forall a, keeps_members (k a)) -> keeps_members (bind m k).
Proof.
  intros Hm Hk c; unfold bind.
  specialize (Hm c).
  destruct (m c) as [c1 [a|e|]]; cbn [fst] in *; auto.
  exact (same_members_trans _ _ _ Hm (Hk a c1)).
Qed.

End MemberFacts.

Section CycleEdgeFacts.

Context {BehaviorConfig StateWeight ACADOworkspace : Type}.
Variable ACADO_N : Z.
Variable solver_time_step : Z.
Variable interp : Real -> Real -> Real -> Real.
Variable ext : @Externals BehaviorConfig StateWeight ACADOworkspace.

Local Abbreviation Ctl := (@Controller BehaviorConfig StateWeight ACADOworkspace).

Lemma members_update_references (current_idx : Z) :
  keeps_members (update_references ACADO_N ext current_idx).
Proof.
  unfold update_references.
  destruct (negb (0 =? current_idx)); [|apply members_ret].
  apply members_bind; [apply members_gets|intros last].
  apply members_bind; [apply members_call|intros _].
  apply members_bind; [apply members_gets|intros max_pts].
  apply members_bind.
  - destruct (_ <=? _); [apply members_call|].
    apply members_bind; [apply members_call|intros _].
    apply members_bind; [apply members_call|intros _; apply members_call].
  - intros _.
    apply members_bind; [apply members_modify_last_reference_index|intros _].
    apply members_ret.
Qed.

Lemma members_initial_conditions (p : Point) :
  keeps_members (initial_conditions ext p).
Proof.
  unfold initial_conditions.
  apply members_bind; [intros c; repeat split|intros _].
  apply members_bind; [apply members_lift|intros [[[a b] h] vl]].
  intros c; repeat split.
Qed.

Lemma members_solve : keeps_members (solve ext).
Proof.
  unfold solve.
  apply members_bind; [apply members_call|intros prep_ret].
  destruct (negb (0 =? prep_ret)); [apply members_throw|].
  apply members_bind; [apply members_call|intros solve_ret].
  destruct (negb (0 =? solve_ret)); [apply members_throw|apply members_ret].
Qed.

(** The whole cycle keeps them. *)
Lemma members_compute_command_impl (st : State) :
  keeps_members (compute_command_impl ACADO_N solver_time_step interp ext st).
Proof.
  unfold compute_command_impl.
  apply members_bind; [apply members_gets|intros current_idx].
  apply members_bind; [apply members_update_references|intros cold_start].
  apply members_bind; [apply members_lift|intros dt].
  apply members_bind; [apply members_call|intros p].
  apply members_bind; [apply members_initial_conditions|intros _].
  apply members_bind; [apply members_gets|intros max_pts].
  apply members_bind; [apply members_call|intros consistency].
  apply members_bind.
  - destruct (consistency || cold_start); [|apply members_ret].
    apply members_bind; [intros c; repeat split|intros _; apply members_call].
  - intros _.
    apply members_bind; [apply members_solve|intros _].
    apply members_bind; [apply members_gets|intros cfg].
    apply members_lift.
Qed.

(** X8: however a cycle ends (a command, an exception, a read outside an
    array), [compute_command_impl] has left the configuration, the base
    configuration, the reference trajectory, the index of the current state
    and the interpolated trajectory as they were: it writes
    [m_last_reference_index] and the solver's objects only. *)
Theorem compute_command_impl_keeps_members (st : State) (c : Ctl) :
  same_members c (fst (compute_command_impl ACADO_N solver_time_step interp ext st c)).
Proof. exact (members_compute_command_impl st c). Qed.

(** X9: a cycle whose current index is not below the number of points of
    the reference trajectory (an empty trajectory, for one) never returns
    a command: if [update_references] returns, [x0_time_offset] reads
    [traj.points[idx]] outside the points. *)
Theorem compute_command_impl_needs_current_point (st : State) (c : Ctl) :
  Z.of_nat (length (points (reference_trajectory c))) <= current_state_temporal_index c ->
  (forall c' cmd,
     compute_command_impl ACADO_N solver_time_step interp ext st c <> (c', Returned cmd))
  /\ (forall c1 b,
        update_references ACADO_N ext (current_state_temporal_index c) c = (c1, Returned b) ->
        compute_command_impl ACADO_N solver_time_step interp ext st c = (c1, Undefined)).
Proof.
  intros Hlen.
  assert (Hu : forall c1 b,
             update_references ACADO_N ext (current_state_temporal_index c) c
             = (c1, Returned b) ->
             compute_command_impl ACADO_N solver_time_step interp ext st c = (c1, Undefined)).
  { intros c1 b H. unfold compute_command_impl.
    rewrite (bind_step _ _ c c (current_state_temporal_index c) eq_refl).
    rewrite (bind_step _ _ _ _ _ H).
    pose proof (members_update_references (current_state_temporal_index c) c) as F.
    rewrite H in F; cbn [fst] in F. destruct F as (_ & _ & T & _).
    unfold bind at 1. unfold x0_time_offset, lift. rewrite T.
    assert (E : Acado.get (points (reference_trajectory c))
                  (current_state_temporal_index c) = None).
    { unfold Acado.get. destruct (_ <? 0); [reflexivity|]. apply nth_error_None. lia. }
    rewrite E. reflexivity. }
  split; [|exact Hu].
  intros c' cmd H.
  pose proof H as H'. unfold compute_command_impl in H'.
  do 2 bind_inv H'.
  unfold gets in H0; injection H0 as <- <-.
  rewrite (Hu _ _ H1) in H. discriminate H.
Qed.


(** X10: on a cold start (current index [0]) that ends with a command, the
    forward simulation of the solver ran on a controller whose controls
    [u[0 .. HORIZON * NU)] were all zero, [solve] ran on what the simulation
    left, and [m_last_reference_index] is what it was before the cycle. *)
Theorem cold_start_simulates_from_zero_controls (st : State) (c c' : Ctl) (cmd : Command) :
  0 <= ACADO_N < 2 ^ 60 ->
  current_state_temporal_index c = 0 ->
  compute_command_impl ACADO_N solver_time_step interp ext st c = (c', Returned cmd) ->
  exists c0 c1,
    (forall j, 0 <= j < HORIZON ACADO_N * NU ->
               j < Z.of_nat (length (u (acadoVariables c0))) ->
               Acado.get (u (acadoVariables c0)) j = Some zero)
    /\ call (acado_initializeNodesByForwardSimulation ext) c0 = (c1, Returned tt)
    /\ solve ext c1 = (c', Returned tt)
    /\ m_last_reference_index c' = m_last_reference_index c.
Proof.
  intros HN Hidx H. unfold compute_command_impl in H.
  do 8 bind_inv H.
  unfold gets in H0; injection H0 as <- <-. rewrite Hidx in *.
  rewrite update_references_cold in H1. injection H1 as <- <-.
  rewrite orb_true_r in H7.
  bind_inv H7. destruct a6, a.
  bind_inv H. destruct a. bind_inv H. unfold gets in H8; injection H8 as <- _.
  unfold lift in H; injection H as <- _.
  exists c0, c7. split; [|split; [exact H7|split; [exact H1|]]].
  - unfold modify in H0; injection H0 as <-. cbn [acadoVariables with_variables with_solver u with_u].
    intros j Hj Hl. unfold fill in Hl; rewrite length_for_range_set in Hl.
    apply get_fill_in; try lia.
    rewrite to_u64_small; [lia|]. 
    assert (HH : HORIZON ACADO_N = ACADO_N) by (apply to_u64_small; unfold in_u64; lia).
    rewrite HH. change NU with 2. unfold in_u64; lia.
  - kept (keeps_solve ext) H1.
    kept (keeps_call (acado_initializeNodesByForwardSimulation ext)) H7.
    unfold modify in H0; injection H0 as <-.
    kept (keeps_call (ensure_reference_consistency ext (Z.min (to_u64 (a4 - 0)) (HORIZON ACADO_N)))) H6.
    unfold gets in H5; injection H5 as <- _.
    kept (keeps_initial_conditions ext a2) H4.
    kept (keeps_call (predict ext (state st) a1)) H3.
    kept (keeps_x0_time_offset (BehaviorConfig:=BehaviorConfig) (StateWeight:=StateWeight) (ACADOworkspace:=ACADOworkspace) st 0) H2.
    cbn in *. congruence.
Qed.
(** X11: a command is returned only after both phases of the solver
    returned [0]: it is the interpolation on the variables that the
    feedback step left, with the configuration of the controller, at the
    offset [stamp + time_from_start - state stamp] of the reference point at
    the current index. *)
Theorem command_follows_successful_solve (st : State) (c c' : Ctl) (cmd : Command) :
  compute_command_impl ACADO_N solver_time_step interp ext st c = (c', Returned cmd) ->
  exists c1 c2 pt,
    call (acado_preparationStep ext) c1 = (c2, Returned 0)
    /\ call (acado_feedbackStep ext) c2 = (c', Returned 0)
    /\ Acado.get (points (reference_trajectory c)) (current_state_temporal_index c) = Some pt
    /\ interpolated_command ACADO_N solver_time_step interp (m_config c) (acadoVariables c')
         (traj_stamp (reference_trajectory c) + time_from_start pt - state_stamp st)
       = Returned cmd.
Proof.
  intros H.
  pose proof (members_compute_command_impl st c) as F.
  rewrite H in F; cbn [fst] in F. destruct F as (Hcfg & _).
  unfold compute_command_impl in H.
  do 3 bind_inv H.
  unfold gets in H0; injection H0 as <- <-.
  pose proof (members_update_references (current_state_temporal_index c) c) as F.
  rewrite H1 in F; cbn [fst] in F. destruct F as (_ & _ & T & _).
  unfold x0_time_offset, lift in H2. rewrite T in H2.
  destruct (Acado.get (points (reference_trajectory c)) (current_state_temporal_index c))
    as [pt|] eqn:Hpt; [|discriminate H2].
  injection H2 as <- <-.
  do 7 bind_inv H.
  destruct a5. destruct (solve_returned _ _ _ H6) as (c8 & Hp & Hf).
  unfold gets, get_config in H7; injection H7 as <- <-.
  unfold lift in H; injection H as <- H.
  exists c5, c8, pt. split; [exact Hp|]. split; [exact Hf|]. split; [reflexivity|].
  rewrite <- Hcfg. exact H.
Qed.

End CycleEdgeFacts.

Section InitialConditionsFacts.

Context {BehaviorConfig StateWeight ACADOworkspace : Type}.
Variable ext : @Externals BehaviorConfig StateWeight ACADOworkspace.

Local Abbreviation Ctl := (@Controller BehaviorConfig StateWeight ACADOworkspace).

(** X12: with at least [NX] elements in [x0] and in [x],
    [initial_conditions] returns and has written the position, the angle of
    the heading and the longitudinal velocity of the given state to
    [x0[0 .. NX)] and the same values to the first state [x[0 .. NX)]; the
    other elements of [x] and [x0], the controls and
    [m_last_reference_index] are as before. *)
Theorem initial_conditions_sets_first_state (p : Point) (c : Ctl) :
  NX <= Z.of_nat (length (x0 (acadoVariables c))) ->
  NX <= Z.of_nat (length (x (acadoVariables c))) ->
  exists c',
    initial_conditions ext p c = (c', Returned tt)
    /\ Acado.get (x0 (acadoVariables c')) IDX_X = Some (acado_of_real (pt_x p))
    /\ Acado.get (x0 (acadoVariables c')) IDX_Y = Some (acado_of_real (pt_y p))
    /\ Acado.get (x0 (acadoVariables c')) IDX_HEADING
       = Some (acado_of_real (to_angle ext (heading p)))
    /\ Acado.get (x0 (acadoVariables c')) IDX_VEL_LONG
       = Some (acado_of_real (longitudinal_velocity_mps p))
    /\ (forall j, 0 <= j < NX ->
          Acado.get (x (acadoVariables c')) j = Acado.get (x0 (acadoVariables c')) j)
    /\ (forall j, NX <= j ->
          Acado.get (x (acadoVariables c')) j = Acado.get (x (acadoVariables c)) j
          /\ Acado.get (x0 (acadoVariables c')) j = Acado.get (x0 (acadoVariables c)) j)
    /\ u (acadoVariables c') = u (acadoVariables c)
    /\ m_last_reference_index c' = m_last_reference_index c.
Proof.
  intros H0 Hx. change NX with 4 in *.
  unfold initial_conditions, IDX_X, IDX_Y, IDX_HEADING, IDX_VEL_LONG.
  set (a := acado_of_real (pt_x p)).
  set (b := acado_of_real (pt_y p)).
  set (h := acado_of_real (to_angle ext (heading p))).
  set (vl := acado_of_real (longitudinal_velocity_mps p)).
  unfold bind at 1. unfold modify at 1. cbv zeta.
  cbn [acadoVariables with_variables with_solver x0 with_x0].
  set (l0 := Acado.set (Acado.set (Acado.set (Acado.set (x0 (acadoVariables c)) 0 a) 1 b) 2 h) 3 vl).
  assert (Hl0 : length l0 = length (x0 (acadoVariables c)))
    by (unfold l0; rewrite !length_set; reflexivity).
  assert (G0 : Acado.get l0 0 = Some a).
  { unfold l0. rewrite !get_set_other by lia. apply get_set_same; lia. }
  assert (G1 : Acado.get l0 1 = Some b).
  { unfold l0. rewrite !get_set_other by lia. apply get_set_same; rewrite !length_set; lia. }
  assert (G2 : Acado.get l0 2 = Some h).
  { unfold l0. rewrite !get_set_other by lia. apply get_set_same; rewrite !length_set; lia. }
  assert (G3 : Acado.get l0 3 = Some vl).
  { unfold l0. apply get_set_same; rewrite !length_set; lia. }
  unfold bind at 1. unfold lift at 1.
  cbn [acadoVariables with_variables with_solver x0 with_x0].
  rewrite G0, G1, G2, G3.
  unfold modify. cbv zeta.
  cbn [acadoVariables with_variables with_solver x0 with_x0 x with_x u m_last_reference_index].
  eexists; split; [reflexivity|].
  cbn [acadoVariables with_variables with_solver x0 with_x0 x with_x u m_last_reference_index].
  split; [exact G0|]. split; [exact G1|]. split; [exact G2|]. split; [exact G3|].
  split; [|split; [|split; reflexivity]].
  - intros j Hj.
    assert (Hc : j = 0 \/ j = 1 \/ j = 2 \/ j = 3) by lia.
    destruct Hc as [Hc|[Hc|[Hc|Hc]]]; subst j.
    + rewrite G0, !get_set_other by lia. apply get_set_same; lia.
    + rewrite G1, !get_set_other by lia. apply get_set_same; rewrite !length_set; lia.
    + rewrite G2, !get_set_other by lia. apply get_set_same; rewrite !length_set; lia.
    + rewrite G3. apply get_set_same; rewrite !length_set; lia.
  - intros j Hj. unfold l0. rewrite !get_set_other by lia. split; reflexivity.
Qed.

End InitialConditionsFacts.

(* ------------------------------------------------------------------------- *)
(** ** The loops of the configuration *)

Section LoopFacts.

Lemma get_set_cases {A : Type} (a : list A) (i j : Z) (w : A) :
  Acado.get (Acado.set a i w) j
  = if j =? i then option_map (fun _ => w) (Acado.get a j) else Acado.get a j.
Proof.
  destruct (Z.eqb_spec j i) as [->|Hne]; [|apply get_set_other; lia].
  destruct (Z.lt_ge_cases i 0) as [Hneg|Hpos].
  - unfold Acado.set, Acado.get.
    destruct (Z.ltb_spec i 0); [reflexivity|lia].
  - destruct (Z.lt_ge_cases i (Z.of_nat (length a))) as [Hin|Hout].
    + rewrite get_set_same by lia.
      destruct (get_in_range a i ltac:(lia)) as [v ->]. reflexivity.
    + rewrite !get_outside by (rewrite ?length_set; lia). reflexivity.
Qed.

Context {S A : Type}.
Variable f : S -> list A.
Variable body : Z -> S -> S.
Variable wr : Z -> Z -> option A.

Hypothesis body_writes :
  forall i s j, 0 <= i < 2 ^ 60 ->
    Acado.get (f (body i s)) j
    = match wr i j with
      | Some w => option_map (fun _ => w) (Acado.get (f s) j)
      | None => Acado.get (f s) j
      end.

Hypothesis wr_disjoint :
  forall i i' j, i <> i' -> wr i j <> None -> wr i' j = None.

Lemma for_range_get_out (n : nat) :
  forall (first : Z) (s : S) (j : Z),
    0 <= first -> first + Z.of_nat n <= 2 ^ 60 ->
    (forall i, first <= i < first + Z.of_nat n -> wr i j = None) ->
    Acado.get (f (for_range n first body s)) j = Acado.get (f s) j.
Proof.
  induction n as [|n IH]; intros first s j H0 Hn Hout; [reflexivity|].
  cbn [for_range].
  rewrite IH by (try lia; intros i Hi; apply Hout; lia).
  rewrite body_writes by lia.
  rewrite (Hout first) by lia. reflexivity.
Qed.

Lemma for_range_get_in (n : nat) :
  forall (first : Z) (s : S) (i j : Z) (w : A),
    0 <= first -> first + Z.of_nat n <= 2 ^ 60 ->
    first <= i < first + Z.of_nat n -> wr i j = Some w ->
    Acado.get (f (for_range n first body s)) j = option_map (fun _ => w) (Acado.get (f s) j).
Proof.
  induction n as [|n IH]; intros first s i j w H0 Hn Hi Hw; [lia|].
  cbn [for_range].
  destruct (Z.eq_dec i first) as [->|Hne].
  - rewrite for_range_get_out; try lia.
    + rewrite body_writes, Hw by lia. reflexivity.
    + intros i' Hi'. apply (wr_disjoint first); [lia|congruence].
  - rewrite (IH (first + 1) (body first s) i j w) by (try lia; assumption).
    rewrite body_writes by lia.
    rewrite (wr_disjoint i first j Hne) by congruence. reflexivity.
Qed.

End LoopFacts.

Lemma for_range_keeps {S B : Type} (f : S -> B) (body : Z -> S -> S) :
  (forall i s, f (body i s) = f s) ->
  forall (n : nat) (first : Z) (s : S), f (for_range n first body s) = f s.
Proof.
  intros Hb n; induction n as [|n IH]; intros first s; [reflexivity|].
  cbn [for_range]. rewrite IH. apply Hb.
Qed.

Section BoundsAndParametersFacts.

Context {StateWeight : Type}.
Variable ACADO_N : Z.

Local Abbreviation Vars := (@ACADOvariables StateWeight).

Hypothesis horizon_range : 0 <= ACADO_N < 2 ^ 60.

Lemma HORIZON_small : HORIZON ACADO_N = ACADO_N.
Proof. apply to_u64_small; unfold in_u64; lia. Qed.

(** The value that iteration [i] of a loop with two writes per step, at
    [2 * i] and [2 * i + 1], leaves in element [j]. *)
Lemma pair_disjoint {A : Type} (a b : A) (i i' j : Z) :
  i <> i' ->
  (if j =? 2 * i then Some a else if j =? 2 * i + 1 then Some b else None) <> None ->
  (if j =? 2 * i' then Some a else if j =? 2 * i' + 1 then Some b else None) = None.
Proof.
  intros Hne H.
  destruct (Z.eqb_spec j (2 * i)); destruct (Z.eqb_spec j (2 * i + 1));
    destruct (Z.eqb_spec j (2 * i')); destruct (Z.eqb_spec j (2 * i' + 1));
    try reflexivity; try lia; congruence.
Qed.

Lemma single_disjoint {A : Type} (a : A) (i i' j : Z) :
  i <> i' ->
  (if j =? i then Some a else None) <> None ->
  (if j =? i' then Some a else None) = None.
Proof.
  intros Hne H.
  destruct (Z.eqb_spec j i); destruct (Z.eqb_spec j i'); try reflexivity; try lia; congruence.
Qed.

(** X13: [apply_parameters] writes the two lengths of the vehicle to the
    online data of each of the steps [0 .. HORIZON): [od[2 * i]] is the
    distance from the centre of gravity to the front axle and
    [od[2 * i + 1]] that to the rear axle.  The elements from
    [ACADO_NOD * HORIZON] on (the online data of the node at the end of the
    horizon) are not written, and nothing but [od] is. *)
Theorem apply_parameters_online_data (cfg : VehicleConfig) (v : Vars) :
  let v' := apply_parameters ACADO_N cfg v in
  (forall i, 0 <= i < HORIZON ACADO_N ->
     ACADO_NOD * i + 1 < Z.of_nat (length (od v)) ->
     Acado.get (od v') (ACADO_NOD * i) = Some (acado_of_real (length_cg_front_axel cfg))
     /\ Acado.get (od v') (ACADO_NOD * i + 1)
        = Some (acado_of_real (length_cg_rear_axel cfg)))
  /\ (forall j, ACADO_NOD * HORIZON ACADO_N <= j -> Acado.get (od v') j = Acado.get (od v) j)
  /\ with_od (od v) v' = v.
Proof.
  intros v'. subst v'. unfold apply_parameters. rewrite HORIZON_small.
  change ACADO_NOD with 2.
  set (Lf := acado_of_real (length_cg_front_axel cfg)).
  set (Lr := acado_of_real (length_cg_rear_axel cfg)).
  set (body := fun (i : Z) (v0 : Vars) => _).
  set (wr := fun i j : Z =>
               if j =? 2 * i then Some Lf else if j =? 2 * i + 1 then Some Lr else None).
  assert (Hbody : forall i s j, 0 <= i < 2 ^ 60 ->
            Acado.get (od (body i s)) j
            = match wr i j with
              | Some w => option_map (fun _ => w) (Acado.get (od s) j)
              | None => Acado.get (od s) j
              end).
  { intros i s j Hi. unfold body, wr. cbn [od with_od].
    rewrite (to_u64_small (i * 2)) by (unfold in_u64; lia).
    rewrite !to_u64_small by (unfold in_u64; lia).
    rewrite !get_set_cases.
    replace (i * 2 + 0) with (2 * i) by lia. replace (i * 2 + 1) with (2 * i + 1) by lia.
    destruct (Z.eqb_spec j (2 * i)); destruct (Z.eqb_spec j (2 * i + 1));
      try reflexivity; lia. }
  assert (Hdis : forall i i' j, i <> i' -> wr i j <> None -> wr i' j = None)
    by (intros; eapply pair_disjoint; eassumption).
  split; [|split].
  - intros i Hi Hlen.
    destruct (get_in_range (od v) (2 * i) ltac:(lia)) as [a0 Ha0].
    destruct (get_in_range (od v) (2 * i + 1) ltac:(lia)) as [a1 Ha1].
    split.
    + rewrite (for_range_get_in od body wr Hbody Hdis _ 0 v i (2 * i) Lf) by
        (try lia; unfold wr; rewrite Z.eqb_refl; reflexivity).
      rewrite Ha0; reflexivity.
    + rewrite (for_range_get_in od body wr Hbody Hdis _ 0 v i (2 * i + 1) Lr).
      * rewrite Ha1; reflexivity.
      * lia.
      * lia.
      * lia.
      * unfold wr. rewrite Z.eqb_refl.
        destruct (Z.eqb_spec (2 * i + 1) (2 * i)); [lia|reflexivity].
  - intros j Hj.
    apply (for_range_get_out od body wr Hbody); try lia.
    intros i Hi. unfold wr.
    destruct (Z.eqb_spec j (2 * i)); [lia|].
    destruct (Z.eqb_spec j (2 * i + 1)); [lia|reflexivity].
  - rewrite (for_range_keeps (fun s => with_od (od v) s) body) by (intros; reflexivity).
    destruct v; reflexivity.
Qed.


(** X14: [apply_bounds] writes, for each of the steps [0 .. HORIZON), the
    limits of the acceleration to [lbValues[2 * i]] and [ubValues[2 * i]],
    those of the steering angle to [lbValues[2 * i + 1]] and
    [ubValues[2 * i + 1]], and those of the longitudinal velocity to
    [lbAValues[i]] and [ubAValues[i]].  Elements beyond those are not
    written, and nothing but the four arrays of bounds is. *)
Theorem apply_bounds_limits (cfg : LimitsConfig) (v : Vars) :
  let v' := apply_bounds ACADO_N cfg v in
  (forall i, 0 <= i < HORIZON ACADO_N ->
     (2 * i + 1 < Z.of_nat (length (lbValues v)) ->
      Acado.get (lbValues v') (2 * i) = Some (acado_of_real (min (acceleration cfg)))
      /\ Acado.get (lbValues v') (2 * i + 1) = Some (acado_of_real (min (steer_angle cfg))))
     /\ (2 * i + 1 < Z.of_nat (length (ubValues v)) ->
         Acado.get (ubValues v') (2 * i) = Some (acado_of_real (max (acceleration cfg)))
         /\ Acado.get (ubValues v') (2 * i + 1) = Some (acado_of_real (max (steer_angle cfg))))
     /\ (i < Z.of_nat (length (lbAValues v)) ->
         Acado.get (lbAValues v') i = Some (acado_of_real (min (longitudinal_velocity cfg))))
     /\ (i < Z.of_nat (length (ubAValues v)) ->
         Acado.get (ubAValues v') i = Some (acado_of_real (max (longitudinal_velocity cfg)))))
  /\ (forall j, 2 * HORIZON ACADO_N <= j ->
        Acado.get (lbValues v') j = Acado.get (lbValues v) j
        /\ Acado.get (ubValues v') j = Acado.get (ubValues v) j)
  /\ (forall j, HORIZON ACADO_N <= j ->
        Acado.get (lbAValues v') j = Acado.get (lbAValues v) j
        /\ Acado.get (ubAValues v') j = Acado.get (ubAValues v) j)
  /\ with_lbValues (lbValues v)
       (with_ubValues (ubValues v)
          (with_lbAValues (lbAValues v) (with_ubAValues (ubAValues v) v'))) = v.
Proof.
  intros v'. subst v'. unfold apply_bounds. rewrite HORIZON_small. cbv zeta.
  set (amin := acado_of_real (min (acceleration cfg))).
  set (amax := acado_of_real (max (acceleration cfg))).
  set (smin := acado_of_real (min (steer_angle cfg))).
  set (smax := acado_of_real (max (steer_angle cfg))).
  set (vmin := acado_of_real (min (longitudinal_velocity cfg))).
  set (vmax := acado_of_real (max (longitudinal_velocity cfg))).
  set (body := fun (i : Z) (v0 : Vars) => _).
  set (pair := fun (a b : AcadoReal) (i j : Z) =>
                 if j =? 2 * i then Some a else if j =? 2 * i + 1 then Some b else None).
  set (single := fun (a : AcadoReal) (i j : Z) => if j =? i then Some a else None).
  assert (Hsmall : forall i, 0 <= i < 2 ^ 60 ->
            to_u64 (to_u64 (i * 2) + 0) = 2 * i
            /\ to_u64 (to_u64 (i * 2) + 1) = 2 * i + 1
            /\ to_u64 (to_u64 (i * 1) + 0) = i).
  { intros i Hi.
    rewrite (to_u64_small (i * 2)) by (unfold in_u64; lia).
    rewrite (to_u64_small (i * 1)) by (unfold in_u64; lia).
    rewrite !to_u64_small by (unfold in_u64; lia). lia. }
  assert (Hlb : forall i s j, 0 <= i < 2 ^ 60 ->
            Acado.get (lbValues (body i s)) j
            = match pair amin smin i j with
              | Some w => option_map (fun _ => w) (Acado.get (lbValues s) j)
              | None => Acado.get (lbValues s) j
              end).
  { intros i s j Hi. unfold body, pair.
    cbn [lbValues ubValues lbAValues ubAValues with_lbValues with_ubValues
         with_lbAValues with_ubAValues].
    destruct (Hsmall i Hi) as (E0 & E1 & E2); rewrite ?E0, ?E1, ?E2.
    rewrite !get_set_cases.
    destruct (Z.eqb_spec j (2 * i)); destruct (Z.eqb_spec j (2 * i + 1));
      try reflexivity; lia. }
  assert (Hub : forall i s j, 0 <= i < 2 ^ 60 ->
            Acado.get (ubValues (body i s)) j
            = match pair amax smax i j with
              | Some w => option_map (fun _ => w) (Acado.get (ubValues s) j)
              | None => Acado.get (ubValues s) j
              end).
  { intros i s j Hi. unfold body, pair.
    cbn [lbValues ubValues lbAValues ubAValues with_lbValues with_ubValues
         with_lbAValues with_ubAValues].
    destruct (Hsmall i Hi) as (E0 & E1 & E2); rewrite ?E0, ?E1, ?E2.
    rewrite !get_set_cases.
    destruct (Z.eqb_spec j (2 * i)); destruct (Z.eqb_spec j (2 * i + 1));
      try reflexivity; lia. }
  assert (HlbA : forall i s j, 0 <= i < 2 ^ 60 ->
            Acado.get (lbAValues (body i s)) j
            = match single vmin i j with
              | Some w => option_map (fun _ => w) (Acado.get (lbAValues s) j)
              | None => Acado.get (lbAValues s) j
              end).
  { intros i s j Hi. unfold body, single.
    cbn [lbValues ubValues lbAValues ubAValues with_lbValues with_ubValues
         with_lbAValues with_ubAValues].
    destruct (Hsmall i Hi) as (E0 & E1 & E2); rewrite ?E0, ?E1, ?E2.
    rewrite !get_set_cases. destruct (j =? i); reflexivity. }
  assert (HubA : forall i s j, 0 <= i < 2 ^ 60 ->
            Acado.get (ubAValues (body i s)) j
            = match single vmax i j with
              | Some w => option_map (fun _ => w) (Acado.get (ubAValues s) j)
              | None => Acado.get (ubAValues s) j
              end).
  { intros i s j Hi. unfold body, single.
    cbn [lbValues ubValues lbAValues ubAValues with_lbValues with_ubValues
         with_lbAValues with_ubAValues].
    destruct (Hsmall i Hi) as (E0 & E1 & E2); rewrite ?E0, ?E1, ?E2.
    rewrite !get_set_cases. destruct (j =? i); reflexivity. }
  assert (Hpair : forall a b i i' j, i <> i' -> pair a b i j <> None -> pair a b i' j = None)
    by (intros; eapply pair_disjoint; eassumption).
  assert (Hsingle : forall a i i' j, i <> i' -> single a i j <> None -> single a i' j = None)
    by (intros; eapply single_disjoint; eassumption).
  assert (Hp0 : forall a b i, pair a b i (2 * i) = Some a)
    by (intros; unfold pair; rewrite Z.eqb_refl; reflexivity).
  assert (Hp1 : forall a b i, pair a b i (2 * i + 1) = Some b).
  { intros; unfold pair. rewrite Z.eqb_refl.
    destruct (Z.eqb_spec (2 * i + 1) (2 * i)); [lia|reflexivity]. }
  assert (Hs0 : forall a i, single a i i = Some a)
    by (intros; unfold single; rewrite Z.eqb_refl; reflexivity).
  split; [|split; [|split]].
  - intros i Hi. split; [|split; [|split]]; intros Hlen.
    + destruct (get_in_range (lbValues v) (2 * i) ltac:(lia)) as [a0 Ha0].
      destruct (get_in_range (lbValues v) (2 * i + 1) ltac:(lia)) as [a1 Ha1].
      rewrite (for_range_get_in lbValues body _ Hlb (Hpair amin smin) _ 0 v i (2 * i) amin)
        by (try lia; apply Hp0).
      rewrite (for_range_get_in lbValues body _ Hlb (Hpair amin smin) _ 0 v i (2 * i + 1) smin)
        by (try lia; apply Hp1).
      rewrite Ha0, Ha1. split; reflexivity.
    + destruct (get_in_range (ubValues v) (2 * i) ltac:(lia)) as [a0 Ha0].
      destruct (get_in_range (ubValues v) (2 * i + 1) ltac:(lia)) as [a1 Ha1].
      rewrite (for_range_get_in ubValues body _ Hub (Hpair amax smax) _ 0 v i (2 * i) amax)
        by (try lia; apply Hp0).
      rewrite (for_range_get_in ubValues body _ Hub (Hpair amax smax) _ 0 v i (2 * i + 1) smax)
        by (try lia; apply Hp1).
      rewrite Ha0, Ha1. split; reflexivity.
    + destruct (get_in_range (lbAValues v) i ltac:(lia)) as [a0 Ha0].
      rewrite (for_range_get_in lbAValues body _ HlbA (Hsingle vmin) _ 0 v i i vmin)
        by (try lia; apply Hs0).
      rewrite Ha0. reflexivity.
    + destruct (get_in_range (ubAValues v) i ltac:(lia)) as [a0 Ha0].
      rewrite (for_range_get_in ubAValues body _ HubA (Hsingle vmax) _ 0 v i i vmax)
        by (try lia; apply Hs0).
      rewrite Ha0. reflexivity.
  - intros j Hj.
    assert (Hout : forall a b i, 0 <= i < 0 + Z.of_nat (Z.to_nat ACADO_N) -> pair a b i j = None).
    { intros a b i Hi. unfold pair.
      destruct (Z.eqb_spec j (2 * i)); [lia|].
      destruct (Z.eqb_spec j (2 * i + 1)); [lia|reflexivity]. }
    split.
    + apply (for_range_get_out lbValues body _ Hlb); try lia. apply Hout.
    + apply (for_range_get_out ubValues body _ Hub); try lia. apply Hout.
  - intros j Hj.
    assert (Hout : forall a i, 0 <= i < 0 + Z.of_nat (Z.to_nat ACADO_N) -> single a i j = None).
    { intros a i Hi. unfold single. destruct (Z.eqb_spec j i); [lia|reflexivity]. }
    split.
    + apply (for_range_get_out lbAValues body _ HlbA); try lia. apply Hout.
    + apply (for_range_get_out ubAValues body _ HubA); try lia. apply Hout.
  - rewrite (for_range_keeps
               (fun s => with_lbValues (lbValues v)
                           (with_ubValues (ubValues v)
                              (with_lbAValues (lbAValues v)
                                 (with_ubAValues (ubAValues v) s)))) body)
      by (intros; reflexivity).
    destruct v; reflexivity.
Qed.

End BoundsAndParametersFacts.

(* ------------------------------------------------------------------------- *)
(** ** Configuration and acceptance *)

Section ConfigurationFacts.

Context {BehaviorConfig StateWeight ACADOworkspace : Type}.
Variable ACADO_N : Z.
Variable zero_weight : StateWeight.
Variable ext : @Externals BehaviorConfig StateWeight ACADOworkspace.

Local Abbreviation Ctl := (@Controller BehaviorConfig StateWeight ACADOworkspace).
Local Abbreviation Vars := (@ACADOvariables StateWeight).

(** X15: however [set_config] ends (also when [apply_weights] does not
    return), [get_config] then gives the new configuration and the base
    configuration is its behaviour part: the configuration is replaced
    before it is applied, and not restored.  The reference trajectory, the
    two indices and the interpolated trajectory are as before. *)
Theorem set_config_replaces_config (config : Config) (c : Ctl) :
  let c' := fst (set_config ACADO_N ext config c) in
  get_config c' = config
  /\ base_config c' = behavior config
  /\ reference_trajectory c' = reference_trajectory c
  /\ current_state_temporal_index c' = current_state_temporal_index c
  /\ m_last_reference_index c' = m_last_reference_index c
  /\ m_interpolated_trajectory c' = m_interpolated_trajectory c.
Proof.
  unfold set_config, apply_config, bind, modify, gets, call, get_config.
  cbn [m_config with_config with_base_config].
  destruct (apply_weights ext (optimization_param config) _) as [[v w] r].
  destruct r; cbn; repeat split.
Qed.

(** X16: whether the controller has an interpolated trajectory is decided
    by the configuration given to the constructor: it has none exactly when
    that configuration does not ask for interpolation, and a later
    [set_config], whatever its [do_interpolate], leaves it so. *)
Theorem interpolated_trajectory_is_decided_at_construction
    (config0 config : Config) (v0 : Vars) (w0 : ACADOworkspace) :
  let c := fst (MpcController ACADO_N ext config0 v0 w0) in
  let c' := fst (set_config ACADO_N ext config c) in
  get_config c' = config
  /\ (m_interpolated_trajectory c = None <-> do_interpolate config0 = false)
  /\ m_interpolated_trajectory c' = m_interpolated_trajectory c.
Proof.
  intros c c'.
  assert (Hc : m_interpolated_trajectory c
               = if do_interpolate config0
                 then Some {| traj_stamp := 0; points := [] |} else None).
  { unfold c, MpcController, apply_config, bind, modify, call.
    cbn [m_config].
    destruct (acado_initializeSolver ext _) as [[v w] [a|e|]]; cbn; try reflexivity.
    destruct (apply_weights ext (optimization_param config0) _) as [[v1 w1] r].
    destruct r; reflexivity. }
  assert (Hc' : get_config c' = config
                /\ m_interpolated_trajectory c' = m_interpolated_trajectory c).
  { unfold c', set_config, apply_config, bind, modify, gets, call, get_config.
    cbn [m_config with_config with_base_config].
    destruct (apply_weights ext (optimization_param config) _) as [[v w] r].
    destruct r; cbn; repeat split. }
  destruct Hc' as [H1 H2].
  split; [exact H1|]. split; [|exact H2].
  rewrite Hc. destruct (do_interpolate config0); split; congruence.
Qed.

(** X17: with the weights of the specification, when the constructor
    returns, [set_config] with the configuration of the construction
    returns and leaves the controller exactly as constructed. *)
Theorem set_config_after_construction (e : @Externals BehaviorConfig StateWeight ACADOworkspace)
    (config : Config) (v0 : Vars) (w0 : ACADOworkspace) (c : Ctl) :
  MpcController ACADO_N (with_spec_weights ACADO_N zero_weight e) config v0 w0
  = (c, Returned tt) ->
  set_config ACADO_N (with_spec_weights ACADO_N zero_weight e) config c = (c, Returned tt).
Proof.
  intros H. rewrite set_config_assignments.
  unfold MpcController, apply_config, bind, modify, call in H.
  cbn [apply_weights with_spec_weights m_config acado_initializeSolver] in H.
  destruct (acado_initializeSolver e _) as [[v w] [a|ex|]]; try discriminate H.
  rewrite spec_apply_weights_assignments in H.
  cbn [acadoVariables acadoWorkspace with_variables with_solver] in H.
  rewrite apply_parameters_assignments, apply_bounds_assignments in H.
  rewrite <- !assign_all_app in H.
  fold (config_assignments ACADO_N config) in H.
  injection H as <-.
  cbn [acadoVariables acadoWorkspace with_solver with_base_config with_config].
  rewrite assign_all_idem. reflexivity.
Qed.

End ConfigurationFacts.

Section PrefixFacts.

Context {BehaviorConfig StateWeight : Type}.
Variable solver_time_step : Z.
Variable heading_valid : Heading -> bool.

Local Abbreviation Cfg := (@Config BehaviorConfig StateWeight).

Lemma check_points_prefix (cfg : Cfg) (t0 : Z) (pts more : list Point) :
  forall idx,
    check_points solver_time_step cfg t0 idx (pts ++ more) = true ->
    check_points solver_time_step cfg t0 idx pts = true.
Proof.
  induction pts as [|p rest IH]; intros idx H; [reflexivity|].
  cbn [check_points app] in *.
  destruct (_ || _); [discriminate H|]. apply IH; exact H.
Qed.

(** X18: acceptance is closed under prefixes: when a trajectory is
    accepted, so is the trajectory of its first points (same stamp), down to
    the empty one. *)
Theorem check_new_trajectory_prefix (cfg : Cfg) (stamp : Z) (pts more : list Point) :
  check_new_trajectory solver_time_step heading_valid cfg
    {| traj_stamp := stamp; points := pts ++ more |} = true ->
  check_new_trajectory solver_time_step heading_valid cfg
    {| traj_stamp := stamp; points := pts |} = true.
Proof.
  unfold check_new_trajectory, heading_ok; cbn [points traj_stamp].
  rewrite forallb_app.
  destruct (forallb _ pts); cbn [andb negb]; [|discriminate].
  destruct (forallb _ more); cbn [negb]; [|discriminate].
  destruct (do_interpolate cfg); [reflexivity|].
  apply check_points_prefix.
Qed.

End PrefixFacts.

(* ------------------------------------------------------------------------- *)
(** ** The properties above on the controller of the scenario *)

Lemma get_computed_trajectory_points_witness :
  exists traj,
    get_computed_trajectory 10 Scenario.from_angle Scenario.default_point
      Scenario.computed Scenario.warm_controller = Returned traj
    /\ traj_stamp traj = 1000000000
    /\ length (points traj) = 10%nat.
Proof.
  destruct (get_computed_trajectory_points 10 Scenario.from_angle Scenario.default_point
              Scenario.computed Scenario.warm_controller)
    as (traj & H & Hs & Hl & _).
  - lia.
  - cbn; lia.
  - cbn; lia.
  - exists traj. split; [exact H|]. split; [exact Hs|].
    change (HORIZON 10) with 10 in Hl. lia.
Defined.

Lemma get_computed_trajectory_again_witness :
  exists traj,
    get_computed_trajectory 10 Scenario.from_angle Scenario.default_point
      Scenario.computed Scenario.warm_controller = Returned traj
    /\ get_computed_trajectory 10 Scenario.from_angle Scenario.default_point
         traj Scenario.warm_controller = Returned traj.
Proof.
  destruct (get_computed_trajectory 10 Scenario.from_angle Scenario.default_point
              Scenario.computed Scenario.warm_controller) as [traj| |] eqn:H.
  - exists traj. split; [reflexivity|].
    exact (get_computed_trajectory_again 10 Scenario.from_angle Scenario.default_point
             Scenario.computed traj Scenario.warm_controller H).
  - vm_compute in H; discriminate H.
  - vm_compute in H; discriminate H.
Defined.

Lemma command_interpolates_computed_trajectory_witness :
  exists traj cmd p0 p1,
    get_computed_trajectory 10 Scenario.from_angle Scenario.default_point
      Scenario.computed Scenario.warm_controller = Returned traj
    /\ interpolated_command 10 100000000 interpolate (m_config Scenario.warm_controller)
         (acadoVariables Scenario.warm_controller) 0 = Returned cmd
    /\ nth_error (points traj) 2 = Some p0
    /\ nth_error (points traj) 3 = Some p1
    /\ long_accel_mps2 cmd
       = interpolate (acceleration_mps2 p0) (acceleration_mps2 p1) half32
    /\ front_wheel_angle_rad cmd
       = interpolate (heading_rate_rps p0) (heading_rate_rps p1) half32.
Proof.
  destruct (get_computed_trajectory 10 Scenario.from_angle Scenario.default_point
              Scenario.computed Scenario.warm_controller) as [traj| |] eqn:Ht;
    [|vm_compute in Ht; discriminate Ht..].
  destruct (interpolated_command 10 100000000 interpolate (m_config Scenario.warm_controller)
              (acadoVariables Scenario.warm_controller) 0) as [cmd| |] eqn:Hc;
    [|vm_compute in Hc; discriminate Hc..].
  destruct (command_interpolates_computed_trajectory 10 100000000 interpolate
              Scenario.from_angle Scenario.default_point
              ltac:(lia) ltac:(lia) ltac:(lia)
              Scenario.computed traj Scenario.warm_controller 0 cmd
              ltac:(unfold in_i64; cbn; lia) Ht Hc)
    as (p0 & p1 & H0 & H1 & Ha & Hw).
  exists traj, cmd, p0, p1.
  split; [reflexivity|]. split; [reflexivity|].
  split; [exact H0|]. split; [exact H1|]. split; [exact Ha|exact Hw].
Defined.

Lemma interpolated_command_reads_inside_witness :
  interpolated_command 10 100000000 interpolate (Scenario.config 250000000 false 0)
    Scenario.variables 0 = Undefined
  <-> HORIZON 10 < 2 * interp_count 10 100000000 (Scenario.config 250000000 false 0) 0.
Proof.
  apply (interpolated_command_reads_inside 10 100000000 interpolate);
    try lia; try reflexivity.
  unfold in_i64; cbn; lia.
Defined.

Lemma expired_or_distant_lookahead_selects_last_samples_witness :
  let cfg := Scenario.config 2000000000 false 0 in
  interp_remaining 10 100000000 cfg 0 = 100000000 * (10 - 1)
  /\ interp_count 10 100000000 cfg 0 = 10 - 2
  /\ interp_dt 10 100000000 cfg 0 = 100000000
  /\ (interp_fraction 10 100000000 cfg 0 == 1)%Q.
Proof.
  apply (expired_or_distant_lookahead_selects_last_samples 10 100000000); try lia.
  - unfold in_i64; cbn; lia.
  - right; cbn; lia.
Defined.


Lemma solve_error_identifies_phase_and_status_witness :
  snd (solve (Scenario.externals 3 0) Scenario.warm_controller)
  <> snd (solve (Scenario.externals 0 3) Scenario.warm_controller).
Proof.
  destruct (solve_error_identifies_phase_and_status
              (Scenario.externals 3 0) (Scenario.externals 0 3)
              Scenario.warm_controller Scenario.warm_controller
              Scenario.warm_controller Scenario.warm_controller 3 3
              ltac:(lia) ltac:(lia)) as (_ & _ & H).
  apply (H Scenario.warm_controller); reflexivity.
Defined.

Lemma compute_command_impl_needs_current_point_witness :
  let c := Scenario.controller (Scenario.config 250000000 false 0)
             (Scenario.trajectory 0 0) 0 0 Scenario.variables in
  compute_command_impl Scenario.N Scenario.step interpolate (Scenario.externals 0 0)
    (Scenario.vehicle_state 0) c = (c, Undefined).
Proof.
  intros c.
  apply (proj2 (compute_command_impl_needs_current_point Scenario.N Scenario.step
                  interpolate (Scenario.externals 0 0) (Scenario.vehicle_state 0) c
                  ltac:(cbn; lia)) c true).
  reflexivity.
Defined.

Lemma cold_start_simulates_from_zero_controls_witness :
  exists c' cmd c0 c1,
    compute_command_impl Scenario.N Scenario.step interpolate (Scenario.externals 0 0)
      (Scenario.vehicle_state 1000000000) Scenario.fresh_controller = (c', Returned cmd)
    /\ (forall j, 0 <= j < HORIZON Scenario.N * NU ->
                  j < Z.of_nat (length (u (acadoVariables c0))) ->
                  Acado.get (u (acadoVariables c0)) j = Some zero)
    /\ call (acado_initializeNodesByForwardSimulation (Scenario.externals 0 0)) c0
       = (c1, Returned tt)
    /\ solve (Scenario.externals 0 0) c1 = (c', Returned tt)
    /\ m_last_reference_index c' = m_last_reference_index Scenario.fresh_controller.
Proof.
  destruct (compute_command_impl Scenario.N Scenario.step interpolate
              (Scenario.externals 0 0) (Scenario.vehicle_state 1000000000)
              Scenario.fresh_controller) as [c' [cmd| |]] eqn:H;
    [|vm_compute in H; discriminate H..].
  destruct (cold_start_simulates_from_zero_controls Scenario.N Scenario.step interpolate
              (Scenario.externals 0 0) (Scenario.vehicle_state 1000000000)
              Scenario.fresh_controller c' cmd ltac:(unfold Scenario.N; lia) eq_refl H)
    as (c0 & c1 & H1 & H2 & H3 & H4).
  exists c', cmd, c0, c1.
  split; [reflexivity|]. split; [exact H1|]. split; [exact H2|]. split; [exact H3|exact H4].
Defined.

Lemma command_follows_successful_solve_witness :
  exists c' cmd c1 c2,
    compute_command_impl Scenario.N Scenario.step interpolate (Scenario.externals 0 0)
      (Scenario.vehicle_state 1500000000) Scenario.warm_controller = (c', Returned cmd)
    /\ call (acado_preparationStep (Scenario.externals 0 0)) c1 = (c2, Returned 0)
    /\ call (acado_feedbackStep (Scenario.externals 0 0)) c2 = (c', Returned 0).
Proof.
  destruct (compute_command_impl Scenario.N Scenario.step interpolate
              (Scenario.externals 0 0) (Scenario.vehicle_state 1500000000)
              Scenario.warm_controller) as [c' [cmd| |]] eqn:H;
    [|vm_compute in H; discriminate H..].
  destruct (command_follows_successful_solve Scenario.N Scenario.step interpolate
              (Scenario.externals 0 0) (Scenario.vehicle_state 1500000000)
              Scenario.warm_controller c' cmd H)
    as (c1 & c2 & pt & H1 & H2 & _).
  exists c', cmd, c1, c2.
  split; [reflexivity|]. split; [exact H1|exact H2].
Defined.

Lemma initial_conditions_sets_first_state_witness :
  exists c',
    initial_conditions (Scenario.externals 0 0) (Scenario.point 0) Scenario.warm_controller
    = (c', Returned tt)
    /\ Acado.get (x (acadoVariables c')) IDX_VEL_LONG = Some (acado_of_real one32)
    /\ u (acadoVariables c') = u (acadoVariables Scenario.warm_controller).
Proof.
  destruct (initial_conditions_sets_first_state (Scenario.externals 0 0) (Scenario.point 0)
              Scenario.warm_controller ltac:(cbn; lia) ltac:(cbn; lia))
    as (c' & H & _ & _ & _ & Hv & Hx & _ & Hu & _).
  exists c'. split; [exact H|]. split; [|exact Hu].
  rewrite (Hx IDX_VEL_LONG) by (change NX with 4; unfold IDX_VEL_LONG; lia). exact Hv.
Defined.

Lemma apply_parameters_online_data_witness :
  let cfg := vehicle_param (Scenario.config 250000000 false 0) in
  let v' := apply_parameters Scenario.N cfg Scenario.variables in
  Acado.get (od v') (ACADO_NOD * 9) = Some (acado_of_real (length_cg_front_axel cfg))
  /\ Acado.get (od v') (ACADO_NOD * 9 + 1) = Some (acado_of_real (length_cg_rear_axel cfg))
  /\ Acado.get (od v') 20 = Acado.get (od Scenario.variables) 20.
Proof.
  intros cfg v'.
  pose proof (apply_parameters_online_data (StateWeight := Z) Scenario.N
                ltac:(unfold Scenario.N; lia) cfg Scenario.variables) as H.
  cbv zeta in H. destruct H as (Hin & Hout & _).
  destruct (Hin 9 ltac:(cbn; lia) ltac:(cbn; lia)) as [H0 H1].
  split; [exact H0|]. split; [exact H1|].
  apply Hout. cbn; lia.
Defined.

Lemma apply_bounds_limits_witness :
  let cfg := limits (Scenario.config 250000000 false 0) in
  let v' := apply_bounds Scenario.N cfg Scenario.variables in
  Acado.get (lbValues v') (2 * 9 + 1) = Some (acado_of_real (min (steer_angle cfg)))
  /\ Acado.get (ubAValues v') 9 = Some (acado_of_real (max (longitudinal_velocity cfg)))
  /\ x v' = x Scenario.variables.
Proof.
  intros cfg v'.
  pose proof (apply_bounds_limits (StateWeight := Z) Scenario.N
                ltac:(unfold Scenario.N; lia) cfg Scenario.variables) as H.
  cbv zeta in H. destruct H as (Hin & _ & _ & Hframe).
  destruct (Hin 9 ltac:(cbn; lia)) as (Hlb & _ & _ & HubA).
  split; [exact (proj2 (Hlb ltac:(cbn; lia)))|].
  split; [exact (HubA ltac:(cbn; lia))|].
  exact (f_equal x Hframe).
Defined.

Lemma set_config_after_construction_witness :
  let cfg := Scenario.config 250000000 false 0 in
  exists c,
    MpcController Scenario.N (Scenario.externals 0 0) cfg Scenario.variables tt
    = (c, Returned tt)
    /\ set_config Scenario.N (Scenario.externals 0 0) cfg c = (c, Returned tt).
Proof.
  intros cfg.
  destruct (MpcController Scenario.N (Scenario.externals 0 0) cfg Scenario.variables tt)
    as [c [[]| |]] eqn:H; [|vm_compute in H; discriminate H..].
  exists c. split; [reflexivity|].
  unfold Scenario.externals in *.
  exact (set_config_after_construction Scenario.N 0 _ cfg Scenario.variables tt c H).
Defined.

Lemma check_new_trajectory_prefix_witness :
  check_new_trajectory Scenario.step Scenario.unit_heading
    (Scenario.config 0 false 1000000)
    {| traj_stamp := 1000000000; points := Scenario.spaced_points 1 0 |} = true.
Proof.
  apply (check_new_trajectory_prefix Scenario.step Scenario.unit_heading
           (Scenario.config 0 false 1000000) 1000000000
           (Scenario.spaced_points 1 0) (Scenario.spaced_points 1 Scenario.step)).
  vm_compute; reflexivity.
Defined.
